(** * Magic Eraser: the remote media cleaning orchestrator

    A shallow embedding of [services/geminiService.ts] ([fileToBase64],
    [removeImageWatermark], [reconstructVideoFromImage]) and of the handlers
    of the [App] component ([handleFileSelect], [handleDrop],
    [handleRemoveWatermark], ...), with the properties the design document
    states about them.

    The TypeScript is asynchronous and talks to a browser and to two remote
    services.  Every call is a function of a [World] (the component state,
    the answers of the environment as oracles) that gives an outcome, the
    world after, and the events of the call in the order the code performs
    them. *)

From Stdlib Require Import String Ascii List NArith ZArith Lia Bool Sorted.
From Stdlib.Strings Require Import Byte.
Import ListNotations.
Local Open Scope string_scope.
Local Open Scope list_scope.

(* ================================================================== *)
(** * Part I. Definitions *)
(* ================================================================== *)

(** ** JavaScript strings *)

(** [s.split(sep)] for a one-character separator: never the empty array. *)
Fixpoint split (sep : ascii) (s : string) : list string :=
  match s with
  | EmptyString => [EmptyString]
  | String c rest =>
      if Ascii.eqb c sep then EmptyString :: split sep rest
      else match split sep rest with
           | [] => [String c EmptyString]
           | piece :: pieces => String c piece :: pieces
           end
  end.

Definition comma : ascii := ","%char.

(** [s.split(',')[1]]: [None] stands for [undefined]. *)
Definition after_first_comma (s : string) : option string :=
  nth_error (split comma s) 1.

Fixpoint occurs (c : ascii) (s : string) : bool :=
  match s with
  | EmptyString => false
  | String d rest => Ascii.eqb d c || occurs c rest
  end.

(** A value used as a condition: the empty string is falsy. *)
Definition truthy_string (s : string) : bool :=
  match s with EmptyString => false | String _ _ => true end.

(** [`${v}`] for a value that may be [undefined]. *)
Definition template (v : option string) : string :=
  match v with Some s => s | None => "undefined" end.

(** ** Base64, as [FileReader.readAsDataURL] and [atob] use it (RFC 4648) *)

Definition alphabet : string :=
  "ABCDEFGHIJKLMNOPQRSTUVWXYZabcdefghijklmnopqrstuvwxyz0123456789+/".

Definition pad : ascii := "="%char.

Definition sextet_char (n : N) : ascii :=
  match String.get (N.to_nat n) alphabet with
  | Some c => c
  | None => pad
  end.

Fixpoint index_from (c : ascii) (s : string) (i : N) : option N :=
  match s with
  | EmptyString => None
  | String d rest => if Ascii.eqb d c then Some i else index_from c rest (N.succ i)
  end.

Definition char_sextet (c : ascii) : option N := index_from c alphabet 0.

Definition byte_of_N (n : N) : byte :=
  match Byte.of_N n with Some b => b | None => x00 end.

(** The 24-bit group of up to three bytes. *)
Definition group24 (a b c : byte) : N :=
  (Byte.to_N a * 65536 + Byte.to_N b * 256 + Byte.to_N c)%N.

Definition sextet0 (g : N) : N := (g / 262144)%N.
Definition sextet1 (g : N) : N := ((g / 4096) mod 64)%N.
Definition sextet2 (g : N) : N := ((g / 64) mod 64)%N.
Definition sextet3 (g : N) : N := (g mod 64)%N.

Fixpoint base64_encode (bs : list byte) : list ascii :=
  match bs with
  | [] => []
  | [a] =>
      let g := group24 a x00 x00 in
      [sextet_char (sextet0 g); sextet_char (sextet1 g); pad; pad]
  | [a; b] =>
      let g := group24 a b x00 in
      [sextet_char (sextet0 g); sextet_char (sextet1 g);
       sextet_char (sextet2 g); pad]
  | a :: b :: c :: rest =>
      let g := group24 a b c in
      sextet_char (sextet0 g) :: sextet_char (sextet1 g)
        :: sextet_char (sextet2 g) :: sextet_char (sextet3 g)
        :: base64_encode rest
  end.

Definition ungroup (s0 s1 s2 s3 : N) : N :=
  (s0 * 262144 + s1 * 4096 + s2 * 64 + s3)%N.

Definition octet0 (g : N) : byte := byte_of_N (g / 65536)%N.
Definition octet1 (g : N) : byte := byte_of_N ((g / 256) mod 256)%N.
Definition octet2 (g : N) : byte := byte_of_N (g mod 256)%N.

Fixpoint base64_decode (cs : list ascii) : option (list byte) :=
  match cs with
  | [] => Some []
  | c0 :: c1 :: c2 :: c3 :: rest =>
      match char_sextet c0, char_sextet c1 with
      | Some s0, Some s1 =>
          match char_sextet c2, char_sextet c3 with
          | Some s2, Some s3 =>
              let g := ungroup s0 s1 s2 s3 in
              match base64_decode rest with
              | Some bs => Some (octet0 g :: octet1 g :: octet2 g :: bs)
              | None => None
              end
          | Some s2, None =>
              match rest with
              | [] => if Ascii.eqb c3 pad
                      then let g := ungroup s0 s1 s2 0 in Some [octet0 g; octet1 g]
                      else None
              | _ :: _ => None
              end
          | None, _ =>
              match rest with
              | [] => if Ascii.eqb c2 pad && Ascii.eqb c3 pad
                      then Some [octet0 (ungroup s0 s1 0 0)]
                      else None
              | _ :: _ => None
              end
          end
      | _, _ => None
      end
  | _ => None
  end.

Definition atob (s : string) : option (list byte) :=
  base64_decode (list_ascii_of_string s).

Definition btoa (bs : list byte) : string :=
  string_of_list_ascii (base64_encode bs).

(** ** The data model of [types.ts] *)

Inductive MediaType : Type := IMAGE | VIDEO.

Inductive Status : Type := idle | uploading | processing | success | error.

Record ProcessingState : Type := mkState {
  status : Status;
  message : option string;
  progress : option Z
}.

(** A [File]: its name, its declared mime type and its bytes. *)
Record File : Type := mkFile {
  file_name : string;
  file_type : string;
  file_bytes : list byte
}.

(** ** What the remote services answer (the fields the code reads) *)

Record InlineData : Type := mkInline {
  inline_mimeType : option string;
  inline_data : option string
}.

Record Part : Type := mkPart {
  part_text : option string;
  part_inlineData : option InlineData
}.

Record Content : Type := mkContent { parts : option (list Part) }.
Record Candidate : Type := mkCandidate { content : option Content }.
Record GenerateContentResponse : Type := mkResponse {
  candidates : option (list Candidate)
}.

Record Video : Type := mkVideo { uri : option string }.
Record GeneratedVideo : Type := mkGenerated { video : option Video }.
Record GenerateVideosResponse : Type := mkVideos {
  generatedVideos : option (list GeneratedVideo)
}.

(** The job handle [generateVideos] and [getVideosOperation] return. *)
Record Operation : Type := mkOperation {
  op_name : string;
  done : option bool;
  response : option GenerateVideosResponse
}.

(** What is sent to the services. *)
Record EditRequest : Type := mkEdit {
  edit_model : string;
  edit_mimeType : string;
  edit_data : option string;
  edit_text : string
}.

Record VideoRequest : Type := mkSubmit {
  sub_model : string;
  sub_imageBytes : string;
  sub_mimeType : string;
  sub_prompt : string;
  sub_numberOfVideos : Z;
  sub_resolution : string;
  sub_aspectRatio : string
}.

(** ** Thrown values *)

(** What a [catch] may receive: an [Error] with its message, or the event a
    [FileReader] hands to [onerror] (which has no [message]). *)
Inductive Thrown : Type :=
| JsError (msg : string)
| ProgressEvent.

Definition error_message (e : Thrown) : option string :=
  match e with
  | JsError m => Some m
  | ProgressEvent => None
  end.

(** [a || b] on a string that may be [undefined]. *)
Definition or_else (a : option string) (b : string) : string :=
  match a with
  | Some s => if truthy_string s then s else b
  | None => b
  end.

(** ** The environment *)

(** What the browser gives for a [<video>] element once [loadeddata] fires:
    its dimensions and the base64 JPEG a same-size canvas encodes the first
    frame to. *)
Record VideoData : Type := mkVideoData {
  videoWidth : Z;
  videoHeight : Z;
  frameJpeg : string
}.

(** A fetched [Response]: [blob()] resolves with the bytes or rejects. *)
Record FetchResponse : Type := mkFetched { blob : Thrown + list byte }.

(** Modelled from the spec: the declaration of the ambient [window.aistudio]
    is not among the sources; the authorization collaborator is
    [hasCapability(): bool] and [requestCapability(): void].  The member
    [hasSelectedApiKey] may be missing ([None]); when present its answer may
    change from one query to the next. *)
Record AIStudio : Type := mkStudio {
  hasSelectedApiKey : option (nat -> bool)
}.

Record Env : Type := mkEnv {
  API_KEY : option string;                           (* process.env.API_KEY *)
  aistudio : option AIStudio;                        (* window.aistudio *)
  unreadable : File -> bool;                         (* FileReader.onerror fires *)
  generateContent : EditRequest -> Thrown + GenerateContentResponse;
  generateVideos : VideoRequest -> Thrown + Operation;
  getVideosOperation : nat -> Operation -> Thrown + Operation;
  fetch : string -> Thrown + FetchResponse;
  loadVideo : string -> option VideoData;            (* None: never loads *)
  objectURL : nat -> string                          (* URL.createObjectURL *)
}.

(** Every effect, in the order the code performs it. *)
Inductive Event : Type :=
| EvSetStatus (s : ProcessingState)
| EvSetResultUrl (u : option string)
| EvReadAsDataURL (f : File)
| EvSetTimeout (ms : Z)
| EvHasSelectedApiKey (answer : bool)
| EvOpenSelectKey
| EvGenerateContent (req : EditRequest)
| EvGenerateVideos (req : VideoRequest)
| EvGetVideosOperation (held : Operation)
| EvFetch (url : string)
| EvCreateObjectURL (bytes : list byte)
| EvLoadVideo (src : string)
| EvToDataURL (width height : Z)
| EvConsoleError (label : string) (e : Thrown).

(** The state of the [App] component. *)
Record App : Type := mkApp {
  activeTab : MediaType;
  file : option File;
  previewUrl : option string;
  resultUrl : option string;
  appStatus : ProcessingState;
  dragActive : bool
}.

Record World : Type := mkWorld {
  env : Env;
  app : App;
  statusQueries : nat;    (* calls of getVideosOperation so far *)
  keyQueries : nat;       (* calls of hasSelectedApiKey so far *)
  objectURLs : nat        (* calls of URL.createObjectURL so far *)
}.

Definition with_app (a : App) (w : World) : World :=
  mkWorld (env w) a (statusQueries w) (keyQueries w) (objectURLs w).

(** ** Asynchronous computations *)

(** How a call ends: it returns, it throws, it awaits a promise that never
    settles, or the model's fuel for the poll loop ran out. *)
Inductive Outcome (A : Type) : Type :=
| Returned (a : A)
| Threw (e : Thrown)
| Suspended
| OutOfFuel.

Arguments Returned {A} a.
Arguments Threw {A} e.
Arguments Suspended {A}.
Arguments OutOfFuel {A}.

(** A call from a world: how it ends, the world after, the events it made. *)
Record Run (A : Type) : Type := mkRun {
  outcome : Outcome A;
  after : World;
  events : list Event
}.

Arguments mkRun {A} outcome after events.
Arguments outcome {A} r.
Arguments after {A} r.
Arguments events {A} r.

Definition M (A : Type) : Type := World -> Run A.

Definition result {A} (m : M A) (w : World) : Outcome A := outcome (m w).
Definition run {A} (m : M A) (w : World) : World := after (m w).
Definition run_events {A} (m : M A) (w : World) : list Event := events (m w).

Definition ret {A} (a : A) : M A := fun w => mkRun (Returned a) w [].

Definition throw {A} (e : Thrown) : M A := fun w => mkRun (Threw e) w [].

(** The events made before [r] started. *)
Definition following {A} (earlier : list Event) (r : Run A) : Run A :=
  match r with
  | mkRun o w evs => mkRun o w (earlier ++ evs)
  end.

Definition bind {A B} (m : M A) (k : A -> M B) : M B :=
  fun w =>
    match m w with
    | mkRun (Returned a) w' evs => following evs (k a w')
    | mkRun (Threw e) w' evs => mkRun (Threw e) w' evs
    | mkRun Suspended w' evs => mkRun Suspended w' evs
    | mkRun OutOfFuel w' evs => mkRun OutOfFuel w' evs
    end.

(** [try { m } catch (error) { handler(error) }] *)
Definition try_catch {A} (m : M A) (handler : Thrown -> M A) : M A :=
  fun w =>
    match m w with
    | mkRun (Threw e) w' evs => following evs (handler e w')
    | other => other
    end.

Notation "x <- m ;; k" := (bind m (fun x => k))
  (at level 61, m at next level, right associativity).
Notation "m ;;; k" := (bind m (fun _ => k))
  (at level 61, right associativity).

Definition perform (e : Event) : M unit := fun w => mkRun (Returned tt) w [e].

(** [await p] for an answer of the environment. *)
Definition settle {A} (r : Thrown + A) : M A :=
  match r with
  | inl e => throw e
  | inr a => ret a
  end.

(** [await new Promise(r => setTimeout(r, ms))] *)
Definition sleep (ms : Z) : M unit := perform (EvSetTimeout ms).

(** An awaited call of the environment: made, then settled. *)
Definition call {A} (e : Event) (answer : Env -> Thrown + A) : M A :=
  perform e ;;; (fun w => settle (answer (env w)) w).

Definition out_of_fuel {A} : M A := fun w => mkRun OutOfFuel w [].

Definition get_env : M Env := fun w => mkRun (Returned (env w)) w [].

Definition get_app : M App := fun w => mkRun (Returned (app w)) w [].

(** ** [services/geminiService.ts] *)

(** Platform: the data URL [FileReader.readAsDataURL] produces for a file. *)
Definition mime_or_default (t : string) : string :=
  if truthy_string t then t else "application/octet-stream".

Definition readAsDataURL (f : File) : string :=
  "data:" ++ mime_or_default (file_type f) ++ ";base64," ++ btoa (file_bytes f).

Definition fileToBase64 (f : File) : M (option string) :=
  fun w =>
    if unreadable (env w) f then mkRun (Threw ProgressEvent) w [EvReadAsDataURL f]
    else
      let result := readAsDataURL f in
      (* Remove data:image/png;base64, prefix *)
      let base64 := after_first_comma result in
      mkRun (Returned base64) w [EvReadAsDataURL f].

Definition editInstruction : string :=
  "Remove all watermarks, text overlays, logos, and timestamps from this image. Reconstruct the background naturally where the watermarks were removed. Return only the cleaned image.".

Definition editRequest (base64Image : option string) (mimeType : string)
  : EditRequest :=
  mkEdit "gemini-2.5-flash-image" mimeType base64Image editInstruction.

(** [response.candidates?.[0]?.content?.parts || []] *)
Definition response_parts (r : GenerateContentResponse) : list Part :=
  match candidates r with
  | Some (c :: _) =>
      match content c with
      | Some ct => match parts ct with Some ps => ps | None => [] end
      | None => []
      end
  | _ => []
  end.

(** [part.inlineData && part.inlineData.data], with the data when truthy. *)
Definition image_data (p : Part) : option string :=
  match part_inlineData p with
  | Some d =>
      match inline_data d with
      | Some s => if truthy_string s then Some s else None
      | None => None
      end
  | None => None
  end.

(** The [for ... of] loop with its early [return]. *)
Fixpoint scan_parts (ps : list Part) : option string :=
  match ps with
  | [] => None
  | part :: rest =>
      match image_data part with
      | Some d => Some d
      | None => scan_parts rest
      end
  end.

Definition noImageData : Thrown :=
  JsError "No image data returned from the model.".

Definition removeImageWatermark (base64Image : option string)
  (mimeType : string) : M string :=
  let req := editRequest base64Image mimeType in
  try_catch
    (response <- call (EvGenerateContent req) (fun e => generateContent e req) ;;
     (* Check for image in response *)
     match scan_parts (response_parts response) with
     | Some d => ret d
     | None => throw noImageData
     end)
    (fun e => perform (EvConsoleError "Error removing watermark:" e) ;;; throw e).

(** [window.aistudio && window.aistudio.hasSelectedApiKey] *)
Definition key_gate (e : Env) : option (nat -> bool) :=
  match aistudio e with
  | Some studio => hasSelectedApiKey studio
  | None => None
  end.

(** [await window.aistudio.hasSelectedApiKey()] *)
Definition askHasSelectedApiKey (answers : nat -> bool) : M bool :=
  fun w =>
    let a := answers (keyQueries w) in
    mkRun (Returned a)
          (mkWorld (env w) (app w) (statusQueries w) (S (keyQueries w))
                   (objectURLs w))
          [EvHasSelectedApiKey a].

(** [await window.aistudio.openSelectKey()] *)
Definition openSelectKey : M unit := perform EvOpenSelectKey.

Definition videoRequest (base64Image mimeType : string) : VideoRequest :=
  mkSubmit "veo-3.1-fast-generate-preview" base64Image mimeType
           "Animate this scene naturally, high quality, cinematic movement."
           1 "720p" "16:9".

(** [operation.done] as a condition: [undefined] is falsy. *)
Definition is_done (operation : Operation) : bool :=
  match done operation with
  | Some b => b
  | None => false
  end.

(** [await veoAi.operations.getVideosOperation({operation: operation})] *)
Definition getStatus (held : Operation) : M Operation :=
  fun w =>
    following [EvGetVideosOperation held]
      (settle (getVideosOperation (env w) (statusQueries w) held)
              (mkWorld (env w) (app w) (S (statusQueries w)) (keyQueries w)
                       (objectURLs w))).

(** The [while (!operation.done)] loop; [fuel] bounds its iterations. *)
Fixpoint poll (fuel : nat) (operation : Operation) : M Operation :=
  if is_done operation then ret operation
  else
    match fuel with
    | O => out_of_fuel
    | S fuel' =>
        sleep 5000 ;;;
        fresh <- getStatus operation ;;
        poll fuel' fresh
    end.

(** [operation.response?.generatedVideos?.[0]?.video?.uri] *)
Definition downloadLink (operation : Operation) : option string :=
  match response operation with
  | Some r =>
      match generatedVideos r with
      | Some (g :: _) =>
          match video g with
          | Some v => uri v
          | None => None
          end
      | _ => None
      end
  | None => None
  end.

Definition noUri : Thrown := JsError "Video generation failed to return a URI.".

Definition noPaidKey : Thrown :=
  JsError "Please select a paid API key to use Video features.".

Definition createObjectURL (bytes : list byte) : M string :=
  fun w =>
    mkRun (Returned (objectURL (env w) (objectURLs w)))
          (mkWorld (env w) (app w) (statusQueries w) (keyQueries w)
                   (S (objectURLs w)))
          [EvCreateObjectURL bytes].

(** [`${downloadLink}&key=${process.env.API_KEY}`] *)
Definition keyed (e : Env) (link : string) : string :=
  link ++ "&key=" ++ template (API_KEY e).

(** The [try] block of [reconstructVideoFromImage] once the job is
    submitted: poll, locate the result, fetch it. *)
Definition awaitVideo (fuel : nat) (submitted : Operation) : M string :=
  operation <- poll fuel submitted ;;
  match downloadLink operation with
  | Some link =>
      if truthy_string link then
        (* Fetch the actual video bytes *)
        e <- get_env ;;
        videoResponse <- call (EvFetch (keyed e link))
                              (fun e' => fetch e' (keyed e link)) ;;
        bytes <- settle (blob videoResponse) ;;
        (* Convert blob to object URL for preview *)
        createObjectURL bytes
      else throw noUri
  | None => throw noUri
  end.

(** The [try] block of [reconstructVideoFromImage]. *)
Definition generateAndFetch (fuel : nat) (base64Image mimeType : string)
  : M string :=
  let req := videoRequest base64Image mimeType in
  submitted <- call (EvGenerateVideos req) (fun e => generateVideos e req) ;;
  awaitVideo fuel submitted.

(** Platform (the SDK's browser build): [new GoogleGenAI({ apiKey })] throws
    when [apiKey] is [null] or [undefined]; any string, the empty one
    included, is accepted. *)
Definition noApiKey : Thrown :=
  JsError "An API Key must be set when running in a browser".

Definition newGoogleGenAI (apiKey : option string) : M unit :=
  match apiKey with
  | Some _ => ret tt
  | None => throw noApiKey
  end.

Definition reconstructVideoFromImage (fuel : nat)
  (base64Image mimeType : string) : M string :=
  (* 1. Check if the user has selected a paid key for Veo *)
  e <- get_env ;;
  match key_gate e with
  | Some answers =>
      hasKey <- askHasSelectedApiKey answers ;;
      if hasKey then ret tt else throw noPaidKey
  | None => ret tt
  end ;;;
  (* Create a new instance to ensure we pick up the selected key if applicable *)
  newGoogleGenAI (API_KEY e) ;;;
  try_catch
    (generateAndFetch fuel base64Image mimeType)
    (fun e => perform (EvConsoleError "Error generating video:" e) ;;; throw e).

(** ** The [App] component *)

Definition idleState : ProcessingState := mkState idle None None.
Definition successState : ProcessingState := mkState success None None.

Definition working (msg : option string) (pct : Z) : ProcessingState :=
  mkState processing msg (Some pct).

Definition errorState (msg : string) : ProcessingState :=
  mkState error (Some msg) None.

Definition initialApp : App := mkApp IMAGE None None None idleState false.

Definition setStatus (s : ProcessingState) : M unit :=
  fun w =>
    let a := app w in
    mkRun (Returned tt)
          (with_app (mkApp (activeTab a) (file a) (previewUrl a) (resultUrl a)
                           s (dragActive a)) w)
          [EvSetStatus s].

Definition setResultUrl (u : option string) : M unit :=
  fun w =>
    let a := app w in
    mkRun (Returned tt)
          (with_app (mkApp (activeTab a) (file a) (previewUrl a) u
                           (appStatus a) (dragActive a)) w)
          [EvSetResultUrl u].

Definition setFile (f : option File) : M unit :=
  fun w =>
    let a := app w in
    mkRun (Returned tt)
          (with_app (mkApp (activeTab a) f (previewUrl a) (resultUrl a)
                           (appStatus a) (dragActive a)) w)
          [].

Definition setPreviewUrl (u : option string) : M unit :=
  fun w =>
    let a := app w in
    mkRun (Returned tt)
          (with_app (mkApp (activeTab a) (file a) u (resultUrl a)
                           (appStatus a) (dragActive a)) w)
          [].

Definition setDragActive (b : bool) : M unit :=
  fun w =>
    let a := app w in
    mkRun (Returned tt)
          (with_app (mkApp (activeTab a) (file a) (previewUrl a) (resultUrl a)
                           (appStatus a) b) w)
          [].

Definition setActiveTabOnly (t : MediaType) : M unit :=
  fun w =>
    let a := app w in
    mkRun (Returned tt)
          (with_app (mkApp t (file a) (previewUrl a) (resultUrl a)
                           (appStatus a) (dragActive a)) w)
          [].
Definition same_tab (a b : MediaType) : bool :=
  match a, b with
  | IMAGE, IMAGE | VIDEO, VIDEO => true
  | _, _ => false
  end.

(** The tab buttons: [setActiveTab], then the effect that depends on
    [activeTab] (it runs only when the tab changed). *)
Definition selectTab (t : MediaType) : M unit :=
  a <- get_app ;;
  if same_tab (activeTab a) t then ret tt
  else
    setActiveTabOnly t ;;;
    (* Reset state on tab change *)
    setFile None ;;;
    setPreviewUrl None ;;;
    setResultUrl None ;;;
    setStatus idleState.

Inductive DragKind : Type := dragenter | dragover | dragleave | dragother.

Definition handleDrag (kind : DragKind) : M unit :=
  match kind with
  | dragenter | dragover => setDragActive true
  | dragleave => setDragActive false
  | dragother => ret tt
  end.

Definition validateFile (tab : MediaType) (f : File) : bool :=
  match tab with
  | IMAGE => String.prefix "image/" (file_type f)
  | VIDEO => String.prefix "video/" (file_type f)
  end.

Definition tabLower (t : MediaType) : string :=
  match t with IMAGE => "image" | VIDEO => "video" end.

Definition handleFileSelect (selectedFile : File) : M unit :=
  setFile (Some selectedFile) ;;;
  setResultUrl None ;;;
  setStatus idleState ;;;
  url <- createObjectURL (file_bytes selectedFile) ;;
  setPreviewUrl (Some url).

Definition handleDrop (files : list File) : M unit :=
  a <- get_app ;;
  setDragActive false ;;;
  match files with
  | droppedFile :: _ =>
      if validateFile (activeTab a) droppedFile then handleFileSelect droppedFile
      else setStatus (errorState ("Please upload a valid " ++ tabLower (activeTab a) ++ " file."))
  | [] => ret tt
  end.

Definition handleFileChange (files : list File) : M unit :=
  match files with
  | f :: _ => handleFileSelect f
  | [] => ret tt
  end.

(** Platform: [canvas.toDataURL('image/jpeg')]; a canvas with no pixels
    gives ["data:,"]. *)
Definition toDataURL (v : VideoData) : string :=
  if (videoWidth v =? 0)%Z || (videoHeight v =? 0)%Z then "data:,"
  else "data:image/jpeg;base64," ++ frameJpeg v.

(** [videoElement.src = previewUrl!]: [null] becomes the string ["null"]. *)
Definition video_src (preview : option string) : string :=
  match preview with Some u => u | None => "null" end.

(** [await new Promise((r) => { videoElement.onloadeddata = r; videoElement.load(); })] *)
Definition awaitLoadedData (src : string) : M VideoData :=
  fun w =>
    match loadVideo (env w) src with
    | Some v => mkRun (Returned v) w [EvLoadVideo src]
    | None => mkRun Suspended w [EvLoadVideo src]
    end.

(** The frame capture of the video flow: element, seek, canvas, data URL. *)
Definition captureFrame (preview : option string) : M (option string) :=
  v <- awaitLoadedData (video_src preview) ;;
  (* Wait for seek *)
  sleep 200 ;;;
  perform (EvToDataURL (videoWidth v) (videoHeight v)) ;;;
  ret (after_first_comma (toDataURL v)).

Definition imageFlow (f : File) (base64 : option string) : M unit :=
  setStatus (working (Some "Analyzing image structure...") 30) ;;;
  (* Artificial delay for UX *)
  sleep 500 ;;;
  setStatus (working (Some "Removing watermark patterns...") 60) ;;;
  cleanBase64 <- removeImageWatermark base64 (file_type f) ;;
  setResultUrl (Some ("data:" ++ file_type f ++ ";base64," ++ cleanBase64)%string) ;;;
  setStatus successState.

(** The video flow once a frame is captured: clean it, rebuild the video. *)
Definition reconstructFlow (fuel : nat) (frameBase64 : option string) : M unit :=
  setStatus (working (Some "Cleaning reference frame...") 50) ;;;
  cleanFrame <- removeImageWatermark frameBase64 "image/jpeg" ;;
  setStatus (working (Some "Reconstructing video stream (this may take a minute)...") 70) ;;;
  newVideoUrl <- reconstructVideoFromImage fuel cleanFrame "image/jpeg" ;;
  setResultUrl (Some newVideoUrl) ;;;
  setStatus successState.

(** The video flow after the key check. *)
Definition videoFlowAuthorized (fuel : nat) (preview : option string) : M unit :=
  setStatus (working (Some "Extracting reference frame...") 30) ;;;
  frameBase64 <- captureFrame preview ;;
  reconstructFlow fuel frameBase64.

Definition videoFlow (fuel : nat) (preview : option string) : M unit :=
  setStatus (working (Some "Video processing requires a paid API key. Checking...") 20) ;;;
  (* Check for paid key for Veo *)
  e <- get_env ;;
  match key_gate e with
  | Some answers =>
      hasKey <- askHasSelectedApiKey answers ;;
      if hasKey then videoFlowAuthorized fuel preview
      else
        setStatus idleState ;;;  (* Reset so they can try again *)
        openSelectKey
  | None => videoFlowAuthorized fuel preview
  end.

(** [catch (error) { setStatus({ status: 'error', message: ... }) }] *)
Definition reportError (e : Thrown) : M unit :=
  setStatus (errorState (or_else (error_message e) "Failed to process file.")).

Definition handleRemoveWatermark (fuel : nat) : M unit :=
  a <- get_app ;;
  match file a with
  | None => ret tt
  | Some f =>
      setStatus (working None 10) ;;;
      try_catch
        (base64 <- fileToBase64 f ;;
         match activeTab a with
         | IMAGE => imageFlow f base64
         | VIDEO => videoFlow fuel (previewUrl a)
         end)
        reportError
  end.

(** The "Start Over" button. *)
Definition startOver : M unit :=
  setFile None ;;;
  setResultUrl None ;;;
  setPreviewUrl None ;;;
  setStatus idleState.

(** The X button of the preview. *)
Definition clearPreview : M unit :=
  setFile None ;;;
  setPreviewUrl None.

(** The X button of the error banner. *)
Definition dismissError : M unit := setStatus idleState.

(** What the user can do. *)
Inductive Action : Type :=
| ASelectTab (t : MediaType)
| ADrag (kind : DragKind)
| ADrop (files : list File)
| AFileChange (files : list File)
| ARemoveWatermark
| AStartOver
| AClearPreview
| ADismissError.

Definition act (fuel : nat) (a : Action) : M unit :=
  match a with
  | ASelectTab t => selectTab t
  | ADrag kind => handleDrag kind
  | ADrop files => handleDrop files
  | AFileChange files => handleFileChange files
  | ARemoveWatermark => handleRemoveWatermark fuel
  | AStartOver => startOver
  | AClearPreview => clearPreview
  | ADismissError => dismissError
  end.

(** ** Fixtures: a faked environment *)

(** A ten-byte [image/png] file. *)
Definition pngFixture : File :=
  mkFile "fixture.png" "image/png"
         [x89; x50; x4e; x47; x0d; x0a; x1a; x0a; x00; xff].

Definition clipFixture : File :=
  mkFile "clip.mp4" "video/mp4" [x00; x00; x00; x18; x66; x74; x79; x70].

Definition textPart (t : string) : Part := mkPart (Some t) None.

Definition binaryPart (mime data : string) : Part :=
  mkPart None (Some (mkInline (Some mime) (Some data))).

Definition respond (ps : list Part) : GenerateContentResponse :=
  mkResponse (Some [mkCandidate (Some (mkContent (Some ps)))]).

(** One text part followed by one binary part ["CLEANED"]. *)
Definition cleanedResponse : GenerateContentResponse :=
  respond [textPart "Here is the cleaned image."; binaryPart "image/png" "CLEANED"].

Definition textOnlyResponse : GenerateContentResponse :=
  respond [textPart "I cannot edit this image."].

Definition pendingJob (name : string) : Operation :=
  mkOperation name (Some false) None.

Definition finishedJob (name : string) (link : option string) : Operation :=
  mkOperation name (Some true)
              (Some (mkVideos (Some [mkGenerated (Some (mkVideo link))]))).

Definition scriptExhausted : Thrown := JsError "no more scripted responses".

(** A status service answering its k-th query with the k-th scripted handle. *)
Definition scripted (script : list Operation) (k : nat) (_ : Operation)
  : Thrown + Operation :=
  match nth_error script k with
  | Some o => inr o
  | None => inl scriptExhausted
  end.

Definition fakeEnv (studio : option AIStudio)
  (edit : Thrown + GenerateContentResponse)
  (submitted : Thrown + Operation) (script : list Operation)
  (frame : option VideoData) : Env :=
  mkEnv (Some "KEY") studio (fun _ => false)
        (fun _ => edit) (fun _ => submitted) (scripted script)
        (fun _ => inr (mkFetched (inr [x01; x02; x03])))
        (fun _ => frame)
        (fun _ => "blob:result").

Definition startWorld (e : Env) (a : App) : World := mkWorld e a 0 0 0.

Definition selected (tab : MediaType) (f : File) (prior : option string) : App :=
  mkApp tab (Some f) (Some "blob:preview") prior idleState false.

Definition studioAnswering (b : bool) : AIStudio :=
  mkStudio (Some (fun _ => b)).

Definition onePixel : VideoData := mkVideoData 1 1 "FRAME".
Definition noPixels : VideoData := mkVideoData 0 0 "".

Definition twoPending : list Operation :=
  [pendingJob "job-1"; pendingJob "job-2"; finishedJob "job-3" (Some "https://v/1?alt=media")].

(** The worlds the examples run in. *)
Definition imageWorld (edit : Thrown + GenerateContentResponse)
  (prior : option string) : World :=
  startWorld (fakeEnv None edit (inr (pendingJob "job-0")) [] None)
             (selected IMAGE pngFixture prior).

Definition videoWorld (studio : option AIStudio)
  (edit : Thrown + GenerateContentResponse) (frame : option VideoData) : World :=
  startWorld (fakeEnv studio edit (inr (pendingJob "job-0")) twoPending frame)
             (selected VIDEO clipFixture None).

(** ** Reading a run *)

(** The status updates among some events, in order. *)
Fixpoint status_updates (evs : list Event) : list ProcessingState :=
  match evs with
  | [] => []
  | EvSetStatus s :: rest => s :: status_updates rest
  | _ :: rest => status_updates rest
  end.

(** The progress percentages among some updates, in order. *)
Fixpoint percentages (ups : list ProcessingState) : list Z :=
  match ups with
  | [] => []
  | u :: rest =>
      match progress u with
      | Some p => p :: percentages rest
      | None => percentages rest
      end
  end.

(** A call of the edit service or of the video-generation service. *)
Definition is_remote_call (e : Event) : bool :=
  match e with
  | EvGenerateContent _ | EvGenerateVideos _ | EvGetVideosOperation _
  | EvFetch _ => true
  | _ => false
  end.

Definition is_status_fetch (e : Event) : bool :=
  match e with EvGetVideosOperation _ => true | _ => false end.

Definition is_asset_fetch (e : Event) : bool :=
  match e with EvFetch _ => true | _ => false end.

Definition is_edit_call (e : Event) : bool :=
  match e with EvGenerateContent _ => true | _ => false end.

Definition is_key_check (e : Event) : bool :=
  match e with EvHasSelectedApiKey _ => true | _ => false end.

Definition count (p : Event -> bool) (evs : list Event) : nat :=
  length (filter p evs).

(** The events of a poll loop that held the given handles in turn. *)
Definition polling (held : list Operation) : list Event :=
  flat_map (fun h => [EvSetTimeout 5000; EvGetVideosOperation h]) held.

(** [process.env.API_KEY] is defined, so that the video client of
    [reconstructVideoFromImage] can be built. *)
Definition client_built (e : Env) : bool :=
  match API_KEY e with
  | Some _ => true
  | None => false
  end.

(** The key check of [reconstructVideoFromImage] lets the call through. *)
Definition gate_open (w : World) : Prop :=
  match key_gate (env w) with
  | Some answers => answers (keyQueries w) = true
  | None => True
  end.

Definition gate_events (w : World) : list Event :=
  match key_gate (env w) with
  | Some answers => [EvHasSelectedApiKey (answers (keyQueries w))]
  | None => []
  end.

(** The events before the first asset fetch. *)
Fixpoint until_asset_fetch (evs : list Event) : list Event :=
  match evs with
  | [] => []
  | EvFetch _ :: _ => []
  | e :: rest => e :: until_asset_fetch rest
  end.

(** The status service answers the queries made while holding [held] with
    [answers], in order, from the world's current query count on. *)
Definition status_script (w : World) (held answers : list Operation) : Prop :=
  forall k h o,
    nth_error held k = Some h -> nth_error answers k = Some o ->
    getVideosOperation (env w) (statusQueries w + k) h = inr o.

(** [!downloadLink] *)
Definition no_locator (operation : Operation) : bool :=
  match downloadLink operation with
  | Some link => negb (truthy_string link)
  | None => true
  end.

(** The world once a poll loop has held the given handles in turn. *)
Definition polled (w : World) (held : list Operation) : World :=
  mkWorld (env w) (app w) (statusQueries w + length held) (keyQueries w)
          (objectURLs w).

(** ** Footprints *)

(** [m] leaves the component and the environment alone, and makes only
    events satisfying [P]. *)
Definition emits_only {A} (P : Event -> Prop) (m : M A) : Prop :=
  forall w,
    env (run m w) = env w /\ app (run m w) = app w /\
    Forall P (run_events m w).

(** What the two clients may emit. *)
Definition edit_event (e : Event) : Prop :=
  match e with
  | EvGenerateContent _ | EvConsoleError _ _ => True
  | _ => False
  end.

Definition poll_event (e : Event) : Prop :=
  match e with
  | EvSetTimeout _ | EvGetVideosOperation _ => True
  | _ => False
  end.

Definition job_event (e : Event) : Prop :=
  match e with
  | EvGenerateVideos _ | EvSetTimeout _ | EvGetVideosOperation _ | EvFetch _
  | EvCreateObjectURL _ | EvConsoleError _ _ => True
  | _ => False
  end.

Definition client_event (e : Event) : Prop :=
  match e with
  | EvSetStatus _ | EvSetResultUrl _ => False
  | _ => True
  end.

(** The status updates a computation makes, in order. *)
Definition updates {A} (m : M A) (w : World) : list ProcessingState :=
  status_updates (run_events m w).

(** The status updates a run of [handleRemoveWatermark] makes, in order. *)
Definition updates_of_run (fuel : nat) (w : World) : list ProcessingState :=
  updates (handleRemoveWatermark fuel) w.

(** The user actions that discard the stored result: a new asset is
    selected, or everything is reset (Start Over, a switch of tab). *)
Definition starts_afresh (a : Action) (w : World) : bool :=
  match a with
  | ASelectTab t => negb (same_tab (activeTab (app w)) t)
  | ADrop (f :: _) => validateFile (activeTab (app w)) f
  | AFileChange (_ :: _) => true
  | AStartOver => true
  | _ => false
  end.

(** The user actions the claim C7 names: a new asset selection (the file
    input, a valid drop) or Start Over. *)
Definition selects_or_starts_over (a : Action) (w : World) : bool :=
  match a with
  | ADrop (f :: _) => validateFile (activeTab (app w)) f
  | AFileChange (_ :: _) => true
  | AStartOver => true
  | _ => false
  end.

(** The claim C7 as the specification states it: a run that does not end in
    [success] leaves the stored result as it was, and the stored result is
    cleared only by a new asset selection or by Start Over. *)
Definition C7_as_stated (fuel : nat) (w : World) : Prop :=
  (status (appStatus (app (run (handleRemoveWatermark fuel) w))) <> success ->
   resultUrl (app (run (handleRemoveWatermark fuel) w)) = resultUrl (app w)) /\
  (forall a, resultUrl (app w) <> None ->
             resultUrl (app (run (act fuel a) w)) = None ->
             selects_or_starts_over a w = true).

(** A computation that never touches the stored result. *)
Definition keeps_result {A} (m : M A) : Prop :=
  forall w, resultUrl (app (run m w)) = resultUrl (app w).

(** A computation that touches the stored result only to store a new one,
    and then ends in [success]. *)
Definition stores_on_success (m : M unit) : Prop :=
  forall w,
    resultUrl (app (run m w)) = resultUrl (app w) \/
    (result m w = Returned tt /\
     appStatus (app (run m w)) = successState /\
     resultUrl (app (run m w)) <> None).

(** A video job that finishes without a locator. *)
Definition lostVideoWorld : World :=
  startWorld (fakeEnv None (inr cleanedResponse) (inr (pendingJob "job-0"))
                      [finishedJob "job-1" None] (Some onePixel))
             (selected VIDEO clipFixture None).


(** The progress updates of the two flows, in the order the code makes them. *)
Definition imageLadder : list ProcessingState :=
  [working None 10;
   working (Some "Analyzing image structure...") 30;
   working (Some "Removing watermark patterns...") 60].

Definition videoLadder : list ProcessingState :=
  [working None 10;
   working (Some "Video processing requires a paid API key. Checking...") 20;
   working (Some "Extracting reference frame...") 30;
   working (Some "Cleaning reference frame...") 50;
   working (Some "Reconstructing video stream (this may take a minute)...") 70].

(** The update that ends a run: [success], [idle] or [error], no progress. *)
Definition closing (u : ProcessingState) : Prop :=
  status u <> processing /\ progress u = None.

(** The updates of a run: some first rungs of a ladder, then at most one
    closing update. *)
Definition run_shape (ups : list ProcessingState) : Prop :=
  exists ladder n ending,
    (ladder = imageLadder \/ ladder = videoLadder) /\
    ups = firstn n ladder ++ ending /\
    (ending = [] \/ exists u, ending = [u] /\ closing u).

(** A part of a flow: some first rungs, then the closing update if it
    returns. *)
Definition flow_shape (rungs : list ProcessingState) (m : M unit) : Prop :=
  forall w, exists n,
    match result m w with
    | Returned _ => exists u, closing u /\ updates m w = firstn n rungs ++ [u]
    | _ => updates m w = firstn n rungs
    end.

(** A computation that makes no status update. *)
Definition quiet {A} (m : M A) : Prop := forall w, updates m w = [].

(** The world after the key check of [reconstructVideoFromImage]. *)
Definition gated (w : World) : World :=
  match key_gate (env w) with
  | Some _ =>
      mkWorld (env w) (app w) (statusQueries w) (S (keyQueries w)) (objectURLs w)
  | None => w
  end.

(** The claim C8 as the specification states it: every update of the run
    carries a percentage and a message, and the percentages never decrease. *)
Definition C8_as_stated (ups : list ProcessingState) : Prop :=
  Forall (fun u => progress u <> None /\ message u <> None) ups /\
  Sorted Z.le (percentages ups).

(** No frame could be extracted: the video never loads, or the frame has a
    zero dimension. *)
Definition frame_extraction_fails (w : World) : Prop :=
  match loadVideo (env w) (video_src (previewUrl (app w))) with
  | None => True
  | Some v => videoWidth v = 0%Z \/ videoHeight v = 0%Z
  end.

(** The claim C9 as the specification states it: when no frame could be
    extracted the run ends in [error] and nothing is sent to the services. *)
Definition C9_as_stated (fuel : nat) (w : World) : Prop :=
  frame_extraction_fails w ->
  status (appStatus (app (run (handleRemoveWatermark fuel) w))) = error /\
  count is_remote_call (run_events (handleRemoveWatermark fuel) w) = 0.

(** The world in which the status shown is [s]. *)
Definition with_status (s : ProcessingState) (w : World) : World :=
  run (setStatus s) w.

(** ** More faked environments *)

(** An environment in which every part can be made to fail. *)
Definition faultyEnv (unread : bool) (studio : option AIStudio)
  (edit : Thrown + GenerateContentResponse)
  (submitted : Thrown + Operation)
  (statusAnswer : nat -> Operation -> Thrown + Operation)
  (fetched : Thrown + FetchResponse)
  (frame : option VideoData) : Env :=
  mkEnv (Some "KEY") studio (fun _ => unread)
        (fun _ => edit) (fun _ => submitted) statusAnswer
        (fun _ => fetched)
        (fun _ => frame)
        (fun _ => "blob:result").

(** The file on disk can no longer be read. *)
Definition unreadableWorld (tab : MediaType) : World :=
  startWorld (faultyEnv true None (inr cleanedResponse) (inr (pendingJob "job-0"))
                        (scripted twoPending)
                        (inr (mkFetched (inr [x01])))
                        (Some onePixel))
             (selected tab pngFixture (Some "data:image/png;base64,OLD")).

(** An answer whose image sits in the second candidate only. *)
Definition secondCandidateResponse : GenerateContentResponse :=
  mkResponse (Some [mkCandidate (Some (mkContent (Some [textPart "no"])));
                    mkCandidate (Some (mkContent (Some [binaryPart "image/png" "LATE"])))]).

(** [hasSelectedApiKey] answers true the first time and false afterwards. *)
Definition studioFlipping : AIStudio :=
  mkStudio (Some (fun k => match k with O => true | S _ => false end)).

(** A video world whose [process.env.API_KEY] is undefined, every service
    being ready to answer. *)
Definition keylessWorld (studio : option AIStudio) : World :=
  startWorld (mkEnv None studio (fun _ => false)
                    (fun _ => inr cleanedResponse)
                    (fun _ => inr (pendingJob "job-0")) (scripted twoPending)
                    (fun _ => inr (mkFetched (inr [x01; x02; x03])))
                    (fun _ => Some onePixel)
                    (fun _ => "blob:result"))
             (selected VIDEO clipFixture None).

(** A wait of the poll loop (or of the flows). *)
Definition is_wait (e : Event) : bool :=
  match e with EvSetTimeout _ => true | _ => false end.

Definition is_console_error (e : Event) : bool :=
  match e with EvConsoleError _ _ => true | _ => false end.

(** The worlds of the failures of the video job. *)
Definition jobWorld (studio : option AIStudio) (submitted : Thrown + Operation)
  (script : list Operation) (fetched : Thrown + FetchResponse) : World :=
  startWorld (faultyEnv false studio (inr cleanedResponse) submitted
                        (scripted script) fetched (Some onePixel))
             (selected VIDEO clipFixture None).

(** A status service that never reports the job done. *)
Definition stalledWorld : World :=
  startWorld (faultyEnv false None (inr cleanedResponse) (inr (pendingJob "job-0"))
                        (fun _ _ => inr (pendingJob "job-0"))
                        (inr (mkFetched (inr [x01])))
                        (Some onePixel))
             (selected VIDEO clipFixture None).

Definition is_submission (e : Event) : bool :=
  match e with EvGenerateVideos _ => true | _ => false end.

(** The last step of the video flow: rebuild the video, store it. *)
Definition rebuildAndStore (fuel : nat) (cleanFrame : string) : M unit :=
  newVideoUrl <- reconstructVideoFromImage fuel cleanFrame "image/jpeg" ;;
  setResultUrl (Some newVideoUrl) ;;;
  setStatus successState.

(** The events of the video flow from its "Extracting" update to its
    "Reconstructing" update, the edit service having answered. *)
Definition frameCleaned (preview : option string) (v : VideoData) : list Event :=
  [EvSetStatus (working (Some "Extracting reference frame...") 30);
   EvLoadVideo (video_src preview);
   EvSetTimeout 200;
   EvToDataURL (videoWidth v) (videoHeight v);
   EvSetStatus (working (Some "Cleaning reference frame...") 50);
   EvGenerateContent (editRequest (after_first_comma (toDataURL v)) "image/jpeg");
   EvSetStatus (working (Some "Reconstructing video stream (this may take a minute)...") 70)].

(** The events of the video flow up to the end of its key check. *)
Definition keyChecked (w : World) (f : File) : list Event :=
  [EvSetStatus (working None 10); EvReadAsDataURL f;
   EvSetStatus (working (Some "Video processing requires a paid API key. Checking...") 20)]
    ++ gate_events w.

(** ** The states the user can reach *)

(** The states reached from the first render by user actions, each handler
    taken as one step: a run counts as ended where it stopped, be it at an
    [await] that never settles. *)
Inductive reachable (e : Env) : World -> Prop :=
| reach_initial : reachable e (startWorld e initialApp)
| reach_act (w : World) (fuel : nat) (a : Action) :
    reachable e w -> reachable e (run (act fuel a) w).

(** A computation that leaves the environment and the selection alone: the
    tab, the file, its preview and the drop zone's highlight. *)
Definition keeps_selection {A} (m : M A) : Prop :=
  forall w,
    env (run m w) = env w /\
    activeTab (app (run m w)) = activeTab (app w) /\
    file (app (run m w)) = file (app w) /\
    previewUrl (app (run m w)) = previewUrl (app w) /\
    dragActive (app (run m w)) = dragActive (app w).

(** The preview shown for the selection: none without a file, an object URL
    of the environment with one. *)
Definition preview_of_file (e : Env) (a : App) : Prop :=
  match file a with
  | None => previewUrl a = None
  | Some _ => exists n, previewUrl a = Some (objectURL e n)
  end.

(** What each status comes with. *)
Definition status_ok (a : App) : Prop :=
  match status (appStatus a) with
  | idle => True
  | uploading => False
  | processing =>
      exists p, progress (appStatus a) = Some p /\ (10 <= p <= 70)%Z
  | success => resultUrl a <> None
  | error =>
      exists m, message (appStatus a) = Some m /\ truthy_string m = true
  end.

(** A computation that keeps [status_ok]. *)
Definition tidy {A} (m : M A) : Prop :=
  forall w, status_ok (app w) -> status_ok (app (run m w)).

(** A [text/plain] file. *)
Definition notesFixture : File :=
  mkFile "notes.txt" "text/plain" [x68; x69].

(* ================================================================== *)
(** * Part II. Properties *)
(* ================================================================== *)

(** ** Base64 decodes what it encodes *)

Ltac euclid := zify; Z.to_euclidean_division_equations; lia.

Section Base64.

Lemma sextet_char_inverse (n : N) : (n < 64)%N -> char_sextet (sextet_char n) = Some n.
Proof.
  intro H.
  assert (In (N.to_nat n) (seq 0 64)) as Hin by (apply in_seq; lia).
  rewrite <- (N2Nat.id n).
  revert Hin. generalize (N.to_nat n). intros k Hin.
  assert (forallb (fun k => match char_sextet (sextet_char (N.of_nat k)) with
                            | Some m => N.eqb m (N.of_nat k) | None => false end)
                  (seq 0 64) = true) as Hall by (vm_compute; reflexivity).
  rewrite forallb_forall in Hall. specialize (Hall k Hin).
  destruct (char_sextet _); [|discriminate].
  apply N.eqb_eq in Hall. now subst.
Qed.

Lemma pad_not_sextet : char_sextet pad = None.
Proof. reflexivity. Qed.

Lemma byte_of_to_N (b : byte) : byte_of_N (Byte.to_N b) = b.
Proof. unfold byte_of_N. now rewrite Byte.of_to_N. Qed.

Lemma to_N_lt (b : byte) : (Byte.to_N b < 256)%N.
Proof. pose proof (Byte.to_N_bounded b). lia. Qed.

Lemma regroup (a b c : N) :
  (a < 256 -> b < 256 -> c < 256 ->
   let g := a * 65536 + b * 256 + c in
   sextet0 g < 64 /\ sextet1 g < 64 /\ sextet2 g < 64 /\ sextet3 g < 64 /\
   ungroup (sextet0 g) (sextet1 g) (sextet2 g) (sextet3 g) = g /\
   g / 65536 = a /\ (g / 256) mod 256 = b /\ g mod 256 = c)%N.
Proof.
  intros Ha Hb Hc g. unfold sextet0, sextet1, sextet2, sextet3, ungroup.
  subst g. repeat split; euclid.
Qed.

Lemma regroup_pad1 (a b : N) :
  (a < 256 -> b < 256 -> sextet3 (a * 65536 + b * 256 + 0) = 0)%N.
Proof.
  intros Ha Hb. unfold sextet3. euclid.
Qed.

Lemma regroup_pad2 (a : N) :
  (a < 256 -> sextet2 (a * 65536 + 0 * 256 + 0) = 0)%N.
Proof.
  intros Ha. unfold sextet2. euclid.
Qed.

Lemma list_ind3 {A} (P : list A -> Prop) :
  P [] -> (forall a, P [a]) -> (forall a b, P [a; b]) ->
  (forall a b c l, P l -> P (a :: b :: c :: l)) ->
  forall l, P l.
Proof.
  intros H0 H1 H2 H3 l.
  enough (P l /\ (forall a, P (a :: l)) /\ (forall a b, P (a :: b :: l))) by tauto.
  induction l as [|x l IH].
  - auto.
  - destruct IH as (IH0 & IH1 & IH2). repeat split; auto.
Qed.

Lemma decode_group (a b c : byte) :
  let g := group24 a b c in
  char_sextet (sextet_char (sextet0 g)) = Some (sextet0 g) /\
  char_sextet (sextet_char (sextet1 g)) = Some (sextet1 g) /\
  char_sextet (sextet_char (sextet2 g)) = Some (sextet2 g) /\
  char_sextet (sextet_char (sextet3 g)) = Some (sextet3 g) /\
  octet0 (ungroup (sextet0 g) (sextet1 g) (sextet2 g) (sextet3 g)) = a /\
  octet1 (ungroup (sextet0 g) (sextet1 g) (sextet2 g) (sextet3 g)) = b /\
  octet2 (ungroup (sextet0 g) (sextet1 g) (sextet2 g) (sextet3 g)) = c.
Proof.
  intro g.
  destruct (regroup _ _ _ (to_N_lt a) (to_N_lt b) (to_N_lt c))
    as (L0 & L1 & L2 & L3 & U & O0 & O1 & O2).
  fold (group24 a b c) in *. fold g in L0, L1, L2, L3, U, O0, O1, O2.
  repeat split; try (apply sextet_char_inverse; assumption);
    unfold octet0, octet1, octet2; rewrite U.
  - rewrite O0. apply byte_of_to_N.
  - rewrite O1. apply byte_of_to_N.
  - rewrite O2. apply byte_of_to_N.
Qed.

Theorem base64_roundtrip (bs : list byte) :
  base64_decode (base64_encode bs) = Some bs.
Proof.
  induction bs as [|a|a b|a b c rest IH] using list_ind3.
  - reflexivity.
  - destruct (decode_group a x00 x00) as (C0 & C1 & C2 & C3 & O0 & _).
    cbn [base64_encode base64_decode]. cbv zeta.
    rewrite C0, C1, pad_not_sextet.
    replace (ungroup _ _ 0 0) with
      (ungroup (sextet0 (group24 a x00 x00)) (sextet1 (group24 a x00 x00))
               (sextet2 (group24 a x00 x00)) (sextet3 (group24 a x00 x00))).
    + rewrite O0. reflexivity.
    + unfold group24. change (Byte.to_N x00) with 0%N.
      rewrite (regroup_pad2 _ (to_N_lt a)).
      rewrite (regroup_pad1 _ 0 (to_N_lt a)) by lia. reflexivity.
  - destruct (decode_group a b x00) as (C0 & C1 & C2 & C3 & O0 & O1 & _).
    cbn [base64_encode base64_decode]. cbv zeta.
    rewrite C0, C1, C2, pad_not_sextet.
    replace (ungroup _ _ _ 0) with
      (ungroup (sextet0 (group24 a b x00)) (sextet1 (group24 a b x00))
               (sextet2 (group24 a b x00)) (sextet3 (group24 a b x00))).
    + rewrite O0, O1. reflexivity.
    + unfold group24. change (Byte.to_N x00) with 0%N.
      rewrite (regroup_pad1 _ _ (to_N_lt a) (to_N_lt b)). reflexivity.
  - destruct (decode_group a b c) as (C0 & C1 & C2 & C3 & O0 & O1 & O2).
    cbn [base64_encode base64_decode]. cbv zeta.
    rewrite C0, C1, C2, C3, IH, O0, O1, O2. reflexivity.
Qed.

Lemma atob_btoa (bs : list byte) : atob (btoa bs) = Some bs.
Proof.
  unfold atob, btoa. rewrite list_ascii_of_string_of_list_ascii.
  apply base64_roundtrip.
Qed.
End Base64.

(** ** Splitting a data URL at its comma *)

Section Strings.

Lemma occurs_app (c : ascii) (s t : string) :
  occurs c (s ++ t) = occurs c s || occurs c t.
Proof.
  induction s as [|d s IH]; simpl.
  - reflexivity.
  - rewrite IH. now rewrite orb_assoc.
Qed.

Lemma split_without (sep : ascii) (s : string) :
  occurs sep s = false -> split sep s = [s].
Proof.
  induction s as [|d s IH]; simpl; intro H.
  - reflexivity.
  - apply orb_false_iff in H as [Hd Hs].
    rewrite Hd, (IH Hs). reflexivity.
Qed.

Lemma split_at_first (sep : ascii) (s t : string) :
  occurs sep s = false ->
  split sep (s ++ String sep t) = s :: split sep t.
Proof.
  induction s as [|d s IH]; simpl; intro H.
  - now rewrite Ascii.eqb_refl.
  - apply orb_false_iff in H as [Hd Hs].
    rewrite Hd, (IH Hs). reflexivity.
Qed.

Lemma after_first_comma_spec (s t : string) :
  occurs comma s = false -> occurs comma t = false ->
  after_first_comma (s ++ String comma t) = Some t.
Proof.
  intros Hs Ht. unfold after_first_comma.
  rewrite (split_at_first _ _ _ Hs), (split_without _ _ Ht). reflexivity.
Qed.

Lemma app_assoc_string (a b c : string) : ((a ++ b) ++ c = a ++ (b ++ c))%string.
Proof. induction a as [|x a IH]; simpl; [reflexivity | now rewrite IH]. Qed.

Lemma sextet_char_not_comma (n : N) : Ascii.eqb (sextet_char n) comma = false.
Proof.
  unfold sextet_char. generalize (N.to_nat n). intro k.
  do 64 (destruct k as [|k]; [reflexivity|]). reflexivity.
Qed.

Lemma occurs_of_list (c : ascii) (l : list ascii) :
  occurs c (string_of_list_ascii l) = existsb (fun d => Ascii.eqb d c) l.
Proof. induction l as [|d l IH]; simpl; [reflexivity | now rewrite IH]. Qed.

Lemma base64_encode_comma_free (bs : list byte) :
  existsb (fun d => Ascii.eqb d comma) (base64_encode bs) = false.
Proof.
  induction bs as [|a|a b|a b c rest IH] using list_ind3;
    cbn [base64_encode existsb]; cbv zeta;
    rewrite ?sextet_char_not_comma, ?IH; reflexivity.
Qed.

Lemma btoa_comma_free (bs : list byte) : occurs comma (btoa bs) = false.
Proof. unfold btoa. rewrite occurs_of_list. apply base64_encode_comma_free. Qed.

Lemma mime_or_default_comma_free (t : string) :
  occurs comma t = false -> occurs comma (mime_or_default t) = false.
Proof. unfold mime_or_default. destruct (truthy_string t); auto. Qed.

Lemma readAsDataURL_payload (f : File) :
  occurs comma (file_type f) = false ->
  after_first_comma (readAsDataURL f) = Some (btoa (file_bytes f)).
Proof.
  intro H. unfold readAsDataURL.
  replace ("data:" ++ mime_or_default (file_type f) ++ ";base64," ++ btoa (file_bytes f))%string
    with (("data:" ++ mime_or_default (file_type f) ++ ";base64") ++ String comma (btoa (file_bytes f)))%string.
  - apply after_first_comma_spec; [|apply btoa_comma_free].
    rewrite !occurs_app, (mime_or_default_comma_free _ H). reflexivity.
  - rewrite !app_assoc_string. reflexivity.
Qed.
End Strings.

(** ** Running the monad *)

Ltac fields :=
  try unfold ret, throw, out_of_fuel, with_app;
  cbn [app env with_app statusQueries keyQueries objectURLs
       outcome after events following
       file activeTab previewUrl resultUrl appStatus dragActive] in *.

Lemma following_nil {A} (r : Run A) : following [] r = r.
Proof. now destruct r. Qed.

Lemma following_following {A} (a b : list Event) (r : Run A) :
  following a (following b r) = following (a ++ b) r.
Proof. destruct r. cbn. now rewrite app_assoc. Qed.

Lemma events_following {A} (evs : list Event) (r : Run A) :
  events (following evs r) = evs ++ events r.
Proof. now destruct r. Qed.

Lemma outcome_following {A} (evs : list Event) (r : Run A) :
  outcome (following evs r) = outcome r.
Proof. now destruct r. Qed.

Lemma after_following {A} (evs : list Event) (r : Run A) :
  after (following evs r) = after r.
Proof. now destruct r. Qed.

Lemma result_bind {A B} (m : M A) (k : A -> M B) (w : World) :
  result (bind m k) w =
    match result m w with
    | Returned a => result (k a) (run m w)
    | Threw e => Threw e
    | Suspended => Suspended
    | OutOfFuel => OutOfFuel
    end.
Proof. unfold run, result, bind. destruct (m w) as [[a| | |] w1 evs]; cbn; try reflexivity. now destruct (k a w1). Qed.

Lemma run_bind {A B} (m : M A) (k : A -> M B) (w : World) :
  run (bind m k) w =
    match result m w with
    | Returned a => run (k a) (run m w)
    | _ => run m w
    end.
Proof. unfold run, result, bind. destruct (m w) as [[a| | |] w1 evs]; cbn; try reflexivity. now destruct (k a w1). Qed.

Lemma run_events_bind {A B} (m : M A) (k : A -> M B) (w : World) :
  run_events (bind m k) w =
    run_events m w ++
    match result m w with
    | Returned a => run_events (k a) (run m w)
    | _ => []
    end.
Proof.
  unfold run_events, run, result, bind.
  destruct (m w) as [[a| | |] w1 evs]; cbn; rewrite ?app_nil_r; try reflexivity.
  now destruct (k a w1).
Qed.

Lemma result_try_catch {A} (m : M A) (h : Thrown -> M A) (w : World) :
  result (try_catch m h) w =
    match result m w with
    | Threw e => result (h e) (run m w)
    | other => other
    end.
Proof. unfold run, result, try_catch. destruct (m w) as [[a|e| |] w1 evs]; cbn; try reflexivity. now destruct (h e w1). Qed.

Lemma run_try_catch {A} (m : M A) (h : Thrown -> M A) (w : World) :
  run (try_catch m h) w =
    match result m w with
    | Threw e => run (h e) (run m w)
    | _ => run m w
    end.
Proof. unfold run, result, try_catch. destruct (m w) as [[a|e| |] w1 evs]; cbn; try reflexivity. now destruct (h e w1). Qed.

Lemma run_events_try_catch {A} (m : M A) (h : Thrown -> M A) (w : World) :
  run_events (try_catch m h) w =
    run_events m w ++
    match result m w with
    | Threw e => run_events (h e) (run m w)
    | _ => []
    end.
Proof.
  unfold run_events, run, result, try_catch.
  destruct (m w) as [[a|e| |] w1 evs]; cbn; rewrite ?app_nil_r; try reflexivity.
  now destruct (h e w1).
Qed.

Lemma count_app (p : Event -> bool) (a b : list Event) :
  count p (a ++ b) = count p a + count p b.
Proof. unfold count. now rewrite filter_app, length_app. Qed.

Lemma status_updates_app (a b : list Event) :
  status_updates (a ++ b) = status_updates a ++ status_updates b.
Proof.
  induction a as [|e a IH]; simpl; [reflexivity|].
  destruct e; simpl; rewrite ?IH; reflexivity.
Qed.

Lemma status_updates_client (evs : list Event) :
  Forall client_event evs -> status_updates evs = [].
Proof.
  induction 1 as [|e evs He _ IH]; simpl; [reflexivity|].
  destruct e; simpl in *; auto; contradiction.
Qed.

(** ** The image-edit client *)

Section ImageEditClient.

Lemma scan_parts_first (pre post : list Part) (p : Part) (d : string) :
  Forall (fun q => image_data q = None) pre ->
  image_data p = Some d ->
  scan_parts (pre ++ p :: post) = Some d.
Proof.
  intros Hpre Hp. induction Hpre as [|q pre Hq _ IH]; simpl.
  - now rewrite Hp.
  - now rewrite Hq.
Qed.

Lemma scan_parts_none (ps : list Part) :
  Forall (fun q => image_data q = None) ps <-> scan_parts ps = None.
Proof.
  induction ps as [|q ps IH]; simpl.
  - split; auto.
  - destruct (image_data q) eqn:Hq.
    + split; [|discriminate]. intro H. inversion H; congruence.
    + rewrite <- IH. split; intro H; [now inversion H | now constructor].
Qed.

(** The client, by what the service answers. *)
Lemma removeImageWatermark_unfold (b : option string) (m : string) (w : World) :
  let req := editRequest b m in
  removeImageWatermark b m w =
    match generateContent (env w) req with
    | inl e =>
        mkRun (Threw e) w
              [EvGenerateContent req; EvConsoleError "Error removing watermark:" e]
    | inr r =>
        match scan_parts (response_parts r) with
        | Some d => mkRun (Returned d) w [EvGenerateContent req]
        | None =>
            mkRun (Threw noImageData) w
                  [EvGenerateContent req;
                   EvConsoleError "Error removing watermark:" noImageData]
        end
    end.
Proof.
  cbv zeta. unfold removeImageWatermark, try_catch, bind, call, bind, perform, settle.
  cbn [outcome after events following].
  destruct (generateContent (env w) (editRequest b m)) as [e|r]; [reflexivity|].
  cbn. destruct (scan_parts (response_parts r)); reflexivity.
Qed.

End ImageEditClient.

(** ** What a computation may do to the world *)

Section Footprint.

Variable P : Event -> Prop.

Lemma emits_ret {A} (a : A) : emits_only P (ret a).
Proof. intro w. cbn. auto. Qed.

Lemma emits_throw {A} (e : Thrown) : emits_only P (@throw A e).
Proof. intro w. cbn. auto. Qed.

Lemma emits_out_of_fuel {A} : emits_only P (@out_of_fuel A).
Proof. intro w. cbn. auto. Qed.

Lemma emits_settle {A} (r : Thrown + A) : emits_only P (settle r).
Proof. destruct r; [apply emits_throw | apply emits_ret]. Qed.

Lemma emits_get_env : emits_only P get_env.
Proof. intro w. cbn. auto. Qed.

Lemma emits_perform (e : Event) : P e -> emits_only P (perform e).
Proof. intros He w. cbn. auto. Qed.

Lemma emits_bind {A B} (m : M A) (k : A -> M B) :
  emits_only P m -> (forall a, emits_only P (k a)) -> emits_only P (bind m k).
Proof.
  intros Hm Hk w. destruct (Hm w) as (He & Ha & Hp).
  rewrite run_bind, run_events_bind. destruct (result m w) as [a| | |];
    try solve [rewrite app_nil_r; auto].
  destruct (Hk a (run m w)) as (He2 & Ha2 & Hp2).
  rewrite He2, Ha2. repeat split; auto. apply Forall_app; auto.
Qed.

Lemma emits_try_catch {A} (m : M A) (h : Thrown -> M A) :
  emits_only P m -> (forall e, emits_only P (h e)) -> emits_only P (try_catch m h).
Proof.
  intros Hm Hh w. destruct (Hm w) as (He & Ha & Hp).
  rewrite run_try_catch, run_events_try_catch. destruct (result m w) as [a|e| |];
    try solve [rewrite app_nil_r; auto].
  destruct (Hh e (run m w)) as (He2 & Ha2 & Hp2).
  rewrite He2, Ha2. repeat split; auto. apply Forall_app; auto.
Qed.

Lemma emits_call {A} (e : Event) (answer : Env -> Thrown + A) :
  P e -> emits_only P (call e answer).
Proof.
  intro He. unfold call. apply emits_bind; [now apply emits_perform|].
  intros _ w. unfold run, run_events. destruct (answer (env w)); cbn; auto.
Qed.

Lemma emits_askHasSelectedApiKey (answers : nat -> bool) :
  (forall b, P (EvHasSelectedApiKey b)) -> emits_only P (askHasSelectedApiKey answers).
Proof. intros H w. cbn. auto. Qed.

Lemma emits_getStatus (held : Operation) :
  P (EvGetVideosOperation held) -> emits_only P (getStatus held).
Proof.
  intros H w. unfold run, run_events, getStatus.
  destruct (getVideosOperation _ _ _); cbn; auto.
Qed.

Lemma emits_createObjectURL (bytes : list byte) :
  P (EvCreateObjectURL bytes) -> emits_only P (createObjectURL bytes).
Proof. intros H w. cbn. auto. Qed.

End Footprint.

Lemma emits_weaken {A} (P Q : Event -> Prop) (m : M A) :
  (forall e, P e -> Q e) -> emits_only P m -> emits_only Q m.
Proof.
  intros HPQ Hm w. destruct (Hm w) as (He & Ha & Hp).
  repeat split; auto. eapply Forall_impl; eauto.
Qed.

Lemma removeImageWatermark_footprint (b : option string) (m : string) :
  emits_only edit_event (removeImageWatermark b m).
Proof.
  unfold removeImageWatermark. apply emits_try_catch.
  - apply emits_bind; [apply emits_call; exact I|].
    intro r. destruct (scan_parts _); [apply emits_ret | apply emits_throw].
  - intro e. apply emits_bind; [apply emits_perform; exact I|].
    intros _. apply emits_throw.
Qed.

Lemma poll_footprint (fuel : nat) (operation : Operation) :
  emits_only poll_event (poll fuel operation).
Proof.
  revert operation. induction fuel as [|fuel IH]; intro operation; simpl;
    destruct (is_done operation); try apply emits_ret.
  - apply emits_out_of_fuel.
  - apply emits_bind; [apply emits_perform; exact I|]. intros _.
    apply emits_bind; [apply emits_getStatus; exact I|]. apply IH.
Qed.

Lemma awaitVideo_footprint (fuel : nat) (submitted : Operation) :
  emits_only job_event (awaitVideo fuel submitted).
Proof.
  unfold awaitVideo.
  apply emits_bind.
  { eapply emits_weaken; [|apply poll_footprint]. now intros []. }
  intro operation. destruct (downloadLink operation) as [link|]; [|apply emits_throw].
  destruct (truthy_string link); [|apply emits_throw].
  apply emits_bind; [apply emits_get_env|]. intro e.
  apply emits_bind; [apply emits_call; exact I|]. intro r.
  apply emits_bind; [apply emits_settle|]. intro bytes.
  apply emits_createObjectURL. exact I.
Qed.

Lemma generateAndFetch_footprint (fuel : nat) (b m : string) :
  emits_only job_event (generateAndFetch fuel b m).
Proof.
  unfold generateAndFetch.
  apply emits_bind; [apply emits_call; exact I|]. intro submitted.
  apply awaitVideo_footprint.
Qed.

Lemma reconstructVideoFromImage_footprint (fuel : nat) (b m : string) :
  emits_only client_event (reconstructVideoFromImage fuel b m).
Proof.
  unfold reconstructVideoFromImage.
  apply emits_bind; [apply emits_get_env|]. intro e.
  apply emits_bind.
  - destruct (key_gate e) as [answers|]; [|apply emits_ret].
    apply emits_bind; [apply emits_askHasSelectedApiKey; intro; exact I|].
    intros [|]; [apply emits_ret | apply emits_throw].
  - intros _. apply emits_bind.
    { destruct (API_KEY e); [apply emits_ret | apply emits_throw]. }
    intros _. apply emits_try_catch.
    + eapply emits_weaken; [|apply generateAndFetch_footprint]. now intros [].
    + intro e'. apply emits_bind; [apply emits_perform; exact I|].
      intros _. apply emits_throw.
Qed.

(** ** The poll loop against a scripted status service *)

Section PollLoop.

Lemma polled_nil (w : World) : polled w [] = w.
Proof. destruct w. unfold polled. cbn. now rewrite Nat.add_0_r. Qed.

Lemma poll_scripted (pending : list Operation) (final : Operation) :
  forall (w : World) (fuel : nat),
    Forall (fun o => is_done o = false) pending ->
    is_done final = true ->
    status_script w pending (tl (pending ++ [final])) ->
    length pending <= fuel ->
    poll fuel (hd final pending) w
      = mkRun (Returned final) (polled w pending) (polling pending).
Proof.
  induction pending as [|h pending IH]; intros w fuel Hp Hf Hs Hfuel.
  - cbn [hd]. rewrite polled_nil. destruct fuel; cbn; now rewrite Hf.
  - destruct fuel as [|fuel]; [cbn in Hfuel; lia|].
    inversion Hp as [|? ? Hh Hp']; subst.
    cbn [hd poll]. rewrite Hh.
    unfold bind, sleep, perform, getStatus. fields.
    assert (getVideosOperation (env w) (statusQueries w) h = inr (hd final pending)) as Hq.
    { rewrite <- (Nat.add_0_r (statusQueries w)). apply Hs; [reflexivity|].
      cbn. destruct pending; reflexivity. }
    rewrite Hq. cbn [settle ret]. fields.
    rewrite IH; auto.
    + unfold polled. fields. cbn [polling flat_map List.app length].
      f_equal. f_equal. lia.
    + intros k h' o Hk Ho. fields.
      replace (S (statusQueries w) + k) with (statusQueries w + S k) by lia.
      apply Hs; [exact Hk|].
      cbn. cbn in Ho. destruct pending; [destruct k; discriminate|exact Ho].
    + cbn in Hfuel. lia.
Qed.

Lemma status_script_transfer (w w1 : World) (held answers : list Operation) :
  env w1 = env w -> statusQueries w1 = statusQueries w ->
  status_script w held answers -> status_script w1 held answers.
Proof. unfold status_script. intros -> ->. auto. Qed.

(** The [try] block against the script, up to the fetch. *)
Lemma generateAndFetch_scripted (pending : list Operation) (final : Operation)
  (w : World) (fuel : nat) (b m : string) :
  generateVideos (env w) (videoRequest b m) = inr (hd final pending) ->
  Forall (fun o => is_done o = false) pending ->
  is_done final = true ->
  status_script w pending (tl (pending ++ [final])) ->
  length pending <= fuel ->
  let w2 := polled w pending in
  let before := EvGenerateVideos (videoRequest b m) :: polling pending in
  generateAndFetch fuel b m w =
    if no_locator final then mkRun (Threw noUri) w2 before
    else
      let url := keyed (env w) (template (downloadLink final)) in
      match fetch (env w) url with
      | inl e => mkRun (Threw e) w2 (before ++ [EvFetch url])
      | inr r =>
          match blob r with
          | inl e => mkRun (Threw e) w2 (before ++ [EvFetch url])
          | inr bytes =>
              following (before ++ [EvFetch url]) (createObjectURL bytes w2)
          end
      end.
Proof.
  intros Hsub Hp Hf Hs Hfuel w2 before.
  unfold generateAndFetch, bind at 1. unfold call at 1, bind at 1, perform at 1.
  fields. rewrite Hsub. cbn [settle ret]. fields.
  unfold awaitVideo, bind at 1.
  rewrite (poll_scripted pending final); auto.
  fields. fold w2. unfold no_locator.
  assert (env w2 = env w) as He by reflexivity.
  destruct (downloadLink final) as [link|];
    [destruct (truthy_string link)|];
    cbn [negb template];
    unfold bind, get_env, call, bind, perform; fields; rewrite ?He;
    try destruct (fetch (env w) (keyed (env w) link)) as [e|r];
    cbn [settle]; fields;
    try destruct (blob r);
    cbn [settle]; unfold createObjectURL; fields;
    unfold before; cbn [List.app]; rewrite ?app_nil_r, <- ?app_assoc;
    reflexivity.
Qed.

(** The key check of the client, when it lets the call through. *)
Lemma gate_passes (w : World) (fuel : nat) (b m : string) :
  gate_open w ->
  client_built (env w) = true ->
  reconstructVideoFromImage fuel b m w =
    following (gate_events w)
      (try_catch (generateAndFetch fuel b m)
         (fun e => perform (EvConsoleError "Error generating video:" e) ;;; throw e)
         (gated w)).
Proof.
  unfold gate_open, gate_events, gated, client_built, reconstructVideoFromImage.
  unfold bind at 1, get_env at 1. fields. unfold bind at 1.
  destruct (key_gate (env w)) as [answers|]; intros Hopen Hkey;
    (destruct (API_KEY (env w)); [|discriminate Hkey]).
  - unfold bind at 1, askHasSelectedApiKey at 1. fields. rewrite Hopen.
    fields. unfold newGoogleGenAI, bind at 1. fields.
    now rewrite !following_following, ?following_nil, ?app_nil_r.
  - fields. unfold newGoogleGenAI, bind at 1. fields. now rewrite !following_nil.
Qed.

End PollLoop.

(** Symbolic execution of a handler whose world is given by its fields. *)
Ltac exec :=
  unfold bind, try_catch, reportError, get_app, get_env, setStatus, setResultUrl, setFile,
    setPreviewUrl, setDragActive, sleep, perform, openSelectKey,
    askHasSelectedApiKey;
  fields; cbn [List.app].

(** ** Claims about the image-edit client *)

(** C1. For every response of the edit service, [removeImageWatermark] scans
    the parts in order and returns the data of the first part that carries
    inline image data; and a run of the image flow in which the service
    answers so ends in [success], the stored result being the data URL whose
    payload is that data.  (The scenario of one text part followed by one
    binary part ["CLEANED"] is the instance [C1_cleaned_scenario].) *)
Theorem C1_first_binary_part (r : GenerateContentResponse)
  (pre post : list Part) (p : Part) (d : string) :
  response_parts r = pre ++ p :: post ->
  Forall (fun q => image_data q = None) pre ->
  image_data p = Some d ->
  (forall (w : World) (b : option string) (m : string),
      generateContent (env w) (editRequest b m) = inr r ->
      removeImageWatermark b m w =
        mkRun (Returned d) w [EvGenerateContent (editRequest b m)])
  /\
  (forall (w : World) (f : File) (fuel : nat),
      file (app w) = Some f ->
      activeTab (app w) = IMAGE ->
      unreadable (env w) f = false ->
      generateContent (env w)
        (editRequest (after_first_comma (readAsDataURL f)) (file_type f)) = inr r ->
      result (handleRemoveWatermark fuel) w = Returned tt /\
      appStatus (app (run (handleRemoveWatermark fuel) w)) = successState /\
      resultUrl (app (run (handleRemoveWatermark fuel) w)) =
        Some ("data:" ++ file_type f ++ ";base64," ++ d)%string /\
      (occurs comma (file_type f) = false -> occurs comma d = false ->
       after_first_comma ("data:" ++ file_type f ++ ";base64," ++ d) = Some d)).
Proof.
  intros Hparts Hpre Hp.
  assert (scan_parts (response_parts r) = Some d) as Hscan
    by (rewrite Hparts; now apply scan_parts_first).
  split.
  - intros w b m Hr. rewrite removeImageWatermark_unfold. cbv zeta.
    now rewrite Hr, Hscan.
  - intros w f fuel Hf Ht Hread Hr.
    unfold run, result. destruct w as [e a sq kq ou]; destruct a.
    fields. subst.
    unfold handleRemoveWatermark, fileToBase64, imageFlow. exec.
    rewrite Hread. exec.
    rewrite removeImageWatermark_unfold. fields. rewrite Hr, Hscan. exec.
    repeat split.
    intros Ht Hd.
    replace ("data:" ++ file_type f ++ ";base64," ++ d)%string
      with (("data:" ++ file_type f ++ ";base64") ++ String comma d)%string
      by (rewrite !app_assoc_string; reflexivity).
    apply after_first_comma_spec; [|exact Hd].
    rewrite !occurs_app, Ht. reflexivity.
Qed.

(** The scenario of C1: an [image/png] fixture of ten bytes, the edit service
    answering with one text part and one binary part ["CLEANED"]. *)
Lemma C1_cleaned_scenario :
  (response_parts cleanedResponse =
     [textPart "Here is the cleaned image."] ++ binaryPart "image/png" "CLEANED" :: [] /\
   Forall (fun q => image_data q = None) [textPart "Here is the cleaned image."] /\
   image_data (binaryPart "image/png" "CLEANED") = Some "CLEANED") /\
  result (removeImageWatermark (Some "iVBORw0KGgoA/w==") "image/png")
         (imageWorld (inr cleanedResponse) None) = Returned "CLEANED" /\
  length (file_bytes pngFixture) = 10 /\
  result (handleRemoveWatermark 0) (imageWorld (inr cleanedResponse) None) = Returned tt /\
  appStatus (app (run (handleRemoveWatermark 0) (imageWorld (inr cleanedResponse) None)))
    = successState /\
  resultUrl (app (run (handleRemoveWatermark 0) (imageWorld (inr cleanedResponse) None)))
    = Some "data:image/png;base64,CLEANED" /\
  after_first_comma "data:image/png;base64,CLEANED" = Some "CLEANED".
Proof.
  assert (Forall (fun q => image_data q = None) [textPart "Here is the cleaned image."])
    as Hpre by (constructor; [reflexivity | constructor]).
  destruct (C1_first_binary_part cleanedResponse
              [textPart "Here is the cleaned image."] []
              (binaryPart "image/png" "CLEANED") "CLEANED"
              eq_refl Hpre eq_refl) as [Hclient Hrun].
  split; [repeat split; try reflexivity; exact Hpre|].
  split.
  { unfold result.
    rewrite (Hclient (imageWorld (inr cleanedResponse) None)
                     (Some "iVBORw0KGgoA/w==") "image/png" eq_refl).
    reflexivity. }
  split; [reflexivity|].
  destruct (Hrun (imageWorld (inr cleanedResponse) None) pngFixture 0
                 eq_refl eq_refl eq_refl eq_refl) as (R & S & U & P).
  split; [exact R|]. split; [exact S|]. split; [exact U|].
  apply (P eq_refl eq_refl).
Defined.

(** C4. When no part of the answer carries inline image data the client
    throws the "no image data" error; when the remote call itself fails the
    client rethrows the very value it caught; and whatever the service
    answers, the client calls it exactly once. *)
Theorem C4_no_result_data (w : World) (b : option string) (m : string) :
  let req := editRequest b m in
  (forall r, generateContent (env w) req = inr r ->
             Forall (fun q => image_data q = None) (response_parts r) ->
             removeImageWatermark b m w =
               mkRun (Threw noImageData) w
                     [EvGenerateContent req;
                      EvConsoleError "Error removing watermark:" noImageData])
  /\
  (forall e, generateContent (env w) req = inl e ->
             removeImageWatermark b m w =
               mkRun (Threw e) w
                     [EvGenerateContent req;
                      EvConsoleError "Error removing watermark:" e])
  /\
  count is_edit_call (run_events (removeImageWatermark b m) w) = 1.
Proof.
  cbv zeta. split; [|split].
  - intros r Hr Hnone. apply scan_parts_none in Hnone.
    rewrite removeImageWatermark_unfold. cbv zeta. now rewrite Hr, Hnone.
  - intros e He. rewrite removeImageWatermark_unfold. cbv zeta. now rewrite He.
  - unfold run_events. rewrite removeImageWatermark_unfold. cbv zeta.
    destruct (generateContent _ _) as [e|r]; [|destruct (scan_parts _)];
      reflexivity.
Qed.

(** C4 on the fixtures: a text-only answer, and a failing transport. *)
Lemma C4_text_only_and_transport :
  (generateContent (env (imageWorld (inr textOnlyResponse) None))
     (editRequest (Some "QUJD") "image/png") = inr textOnlyResponse /\
   Forall (fun q => image_data q = None) (response_parts textOnlyResponse) /\
   result (removeImageWatermark (Some "QUJD") "image/png")
          (imageWorld (inr textOnlyResponse) None) = Threw noImageData)
  /\
  (generateContent (env (imageWorld (inl (JsError "503 UNAVAILABLE")) None))
     (editRequest (Some "QUJD") "image/png") = inl (JsError "503 UNAVAILABLE") /\
   result (removeImageWatermark (Some "QUJD") "image/png")
          (imageWorld (inl (JsError "503 UNAVAILABLE")) None)
     = Threw (JsError "503 UNAVAILABLE"))
  /\
  count is_edit_call
    (run_events (removeImageWatermark (Some "QUJD") "image/png")
                (imageWorld (inl (JsError "503 UNAVAILABLE")) None)) = 1.
Proof.
  assert (Forall (fun q => image_data q = None) (response_parts textOnlyResponse))
    as Hnone by (constructor; [reflexivity | constructor]).
  split; [|split].
  - split; [reflexivity|]. split; [exact Hnone|].
    destruct (C4_no_result_data (imageWorld (inr textOnlyResponse) None)
                (Some "QUJD") "image/png") as (H & _ & _).
    unfold result. rewrite (H textOnlyResponse eq_refl Hnone). reflexivity.
  - split; [reflexivity|].
    destruct (C4_no_result_data (imageWorld (inl (JsError "503 UNAVAILABLE")) None)
                (Some "QUJD") "image/png") as (_ & H & _).
    unfold result. rewrite (H (JsError "503 UNAVAILABLE") eq_refl). reflexivity.
  - apply (C4_no_result_data (imageWorld (inl (JsError "503 UNAVAILABLE")) None)
             (Some "QUJD") "image/png").
Defined.

(** ** The encoding helper *)

(** C6. For every readable file (whose declared type has no comma),
    [fileToBase64] resolves with the payload of the data URL, prefix
    stripped; decoding that payload gives back the bytes of the file exactly;
    and the image flow sends that payload to the edit service paired with the
    file's own mime type. *)
Theorem C6_encode_decode (w : World) (f : File) :
  unreadable (env w) f = false ->
  occurs comma (file_type f) = false ->
  let payload := btoa (file_bytes f) in
  fileToBase64 f w = mkRun (Returned (Some payload)) w [EvReadAsDataURL f] /\
  readAsDataURL f =
    ("data:" ++ mime_or_default (file_type f) ++ ";base64," ++ payload)%string /\
  atob payload = Some (file_bytes f) /\
  (forall fuel, file (app w) = Some f -> activeTab (app w) = IMAGE ->
                In (EvGenerateContent (editRequest (Some payload) (file_type f)))
                   (run_events (handleRemoveWatermark fuel) w)).
Proof.
  intros Hread Hcomma payload.
  assert (after_first_comma (readAsDataURL f) = Some payload) as Hpay
    by now apply readAsDataURL_payload.
  split; [|split; [|split]].
  - unfold fileToBase64. now rewrite Hread, Hpay.
  - reflexivity.
  - apply atob_btoa.
  - intros fuel Hf Ht. unfold run_events.
    destruct w as [e a sq kq ou]; destruct a. fields. subst.
    unfold handleRemoveWatermark, fileToBase64, imageFlow. exec.
    rewrite Hread. exec. rewrite Hpay.
    rewrite removeImageWatermark_unfold. fields.
    destruct (generateContent e _) as [err|r];
      [|destruct (scan_parts _)]; exec; cbn [In]; tauto.
Qed.

(** C6 on the ten-byte [image/png] fixture. *)
Lemma C6_png_fixture :
  unreadable (env (imageWorld (inr cleanedResponse) None)) pngFixture = false /\
  occurs comma (file_type pngFixture) = false /\
  result (fileToBase64 pngFixture) (imageWorld (inr cleanedResponse) None)
    = Returned (Some "iVBORw0KGgoA/w==") /\
  readAsDataURL pngFixture = "data:image/png;base64,iVBORw0KGgoA/w==" /\
  atob "iVBORw0KGgoA/w==" = Some (file_bytes pngFixture) /\
  In (EvGenerateContent (editRequest (Some "iVBORw0KGgoA/w==") "image/png"))
     (run_events (handleRemoveWatermark 0) (imageWorld (inr cleanedResponse) None)).
Proof.
  destruct (C6_encode_decode (imageWorld (inr cleanedResponse) None) pngFixture
              eq_refl eq_refl) as (E & U & D & S).
  split; [reflexivity|]. split; [reflexivity|].
  split; [unfold result; rewrite E; reflexivity|].
  split; [exact U|]. split; [exact D|].
  exact (S 0 eq_refl eq_refl).
Defined.

(** ** The key check of the video flow *)

(** C3. In the video flow, when [hasSelectedApiKey] answers false the run
    resets the status to [idle], opens the key selection and returns: no
    error status is ever set, and neither the edit service nor the
    video-generation service is called. *)
Theorem C3_unauthorized_returns_idle (w : World) (f : File)
  (answers : nat -> bool) (fuel : nat) :
  file (app w) = Some f ->
  activeTab (app w) = VIDEO ->
  unreadable (env w) f = false ->
  key_gate (env w) = Some answers ->
  answers (keyQueries w) = false ->
  let made := run_events (handleRemoveWatermark fuel) w in
  result (handleRemoveWatermark fuel) w = Returned tt /\
  made =
    [EvSetStatus (working None 10);
     EvReadAsDataURL f;
     EvSetStatus (working (Some "Video processing requires a paid API key. Checking...") 20);
     EvHasSelectedApiKey false;
     EvSetStatus idleState;
     EvOpenSelectKey] /\
  appStatus (app (run (handleRemoveWatermark fuel) w)) = idleState /\
  Forall (fun u => status u <> error) (status_updates made) /\
  count is_remote_call made = 0.
Proof.
  intros Hf Ht Hr Hg Ha made. subst made.
  unfold run_events, run, result.
  destruct w as [e a sq kq ou]; destruct a. fields. subst.
  unfold handleRemoveWatermark, fileToBase64, videoFlow. exec.
  rewrite Hr. exec. rewrite Hg. exec. rewrite Ha. exec.
  repeat split.
  repeat constructor; discriminate.
Qed.

(** C3 on a video fixture whose environment has no key selected. *)
Lemma C3_no_key_selected :
  let w := videoWorld (Some (studioAnswering false)) (inr cleanedResponse) (Some onePixel) in
  (file (app w) = Some clipFixture /\ activeTab (app w) = VIDEO /\
   unreadable (env w) clipFixture = false /\
   key_gate (env w) = Some (fun _ => false)) /\
  result (handleRemoveWatermark 3) w = Returned tt /\
  appStatus (app (run (handleRemoveWatermark 3) w)) = idleState /\
  count is_remote_call (run_events (handleRemoveWatermark 3) w) = 0.
Proof.
  intro w.
  destruct (C3_unauthorized_returns_idle w clipFixture (fun _ => false) 3
              eq_refl eq_refl eq_refl eq_refl eq_refl) as (R & _ & S & _ & Z).
  split; [repeat split|]. split; [exact R|]. split; [exact S | exact Z].
Defined.
(** ** Claims about the video-job client *)

Lemma count_polling (held : list Operation) :
  count is_status_fetch (polling held) = length held /\
  count is_asset_fetch (polling held) = 0.
Proof.
  induction held as [|h held (IH1 & IH2)]; [now cbn|].
  unfold count in *. cbn. auto.
Qed.

Lemma count_gate_events (w : World) :
  count is_status_fetch (gate_events w) = 0 /\
  count is_asset_fetch (gate_events w) = 0.
Proof. unfold gate_events. destruct (key_gate (env w)); now cbn. Qed.

Lemma until_asset_fetch_app (a : list Event) (u : string) (rest : list Event) :
  count is_asset_fetch a = 0 ->
  until_asset_fetch (a ++ EvFetch u :: rest) = a.
Proof.
  induction a as [|e a IH]; [reflexivity|].
  unfold count. destruct e; cbn; intro H; try discriminate;
    f_equal; apply IH; exact H.
Qed.

Lemma gated_same (w : World) :
  env (gated w) = env w /\ statusQueries (gated w) = statusQueries w /\
  objectURLs (gated w) = objectURLs w /\ app (gated w) = app w.
Proof. unfold gated. destruct (key_gate (env w)); now cbn. Qed.

(** When the submitted job is already done, the status service is never
    queried: the scenario of C2 starts from a job that is not done. *)
Lemma poll_done_at_once (fuel : nat) (submitted : Operation) (w : World) :
  is_done submitted = true ->
  poll fuel submitted w = mkRun (Returned submitted) w [].
Proof. intro H. destruct fuel; cbn; now rewrite H. Qed.

(** C2. Against a status service that answers N times "not done" and then
    "done" with a result locator (the submitted job itself being not done),
    [reconstructVideoFromImage] makes exactly N+1 status queries, each after
    a wait of 5000 ms and each with the handle fetched last, then exactly one
    asset fetch; the asset fetch comes after all N+1 status queries. *)
Theorem C2_poll_until_done (w : World) (b m : string) (submitted : Operation)
  (notDone : list Operation) (final : Operation) (link : string) (fuel : nat) :
  gate_open w ->
  client_built (env w) = true ->
  generateVideos (env w) (videoRequest b m) = inr submitted ->
  is_done submitted = false ->
  Forall (fun o => is_done o = false) notDone ->
  is_done final = true ->
  downloadLink final = Some link ->
  truthy_string link = true ->
  status_script w (submitted :: notDone) (notDone ++ [final]) ->
  length notDone < fuel ->
  let made := run_events (reconstructVideoFromImage fuel b m) w in
  (exists tail,
      made =
        gate_events w ++ EvGenerateVideos (videoRequest b m)
          :: polling (submitted :: notDone)
          ++ EvFetch (keyed (env w) link) :: tail /\
      count is_status_fetch tail = 0 /\ count is_asset_fetch tail = 0) /\
  count is_status_fetch made = S (length notDone) /\
  count is_asset_fetch made = 1 /\
  count is_status_fetch (until_asset_fetch made) = S (length notDone) /\
  (forall fetched bytes,
      fetch (env w) (keyed (env w) link) = inr fetched ->
      blob fetched = inr bytes ->
      result (reconstructVideoFromImage fuel b m) w
        = Returned (objectURL (env w) (objectURLs w)) /\
      In (EvCreateObjectURL bytes) made).
Proof.
  intros Hgate Hkey Hsub Hpending HnotDone Hfinal Hlink Htruthy Hscript Hfuel made.
  destruct (gated_same w) as (He & Hs & Ho & _).
  assert (reconstructVideoFromImage fuel b m w =
            following (gate_events w)
              (let url := keyed (env w) link in
               let before := [EvGenerateVideos (videoRequest b m)]
                               ++ polling (submitted :: notDone) ++ [EvFetch url] in
               let w2 := polled (gated w) (submitted :: notDone) in
               match fetch (env w) url with
               | inl e =>
                   mkRun (Threw e) w2
                         (before ++ [EvConsoleError "Error generating video:" e])
               | inr r =>
                   match blob r with
                   | inl e =>
                       mkRun (Threw e) w2
                             (before ++ [EvConsoleError "Error generating video:" e])
                   | inr bytes =>
                       following before (createObjectURL bytes w2)
                   end
               end)) as Hrun.
  { rewrite (gate_passes w fuel b m Hgate Hkey). f_equal. unfold try_catch.
    rewrite (generateAndFetch_scripted (submitted :: notDone) final (gated w) fuel b m);
      [|now rewrite He|now constructor|exact Hfinal
       |eapply status_script_transfer; eauto|cbn [length]; lia].
    unfold no_locator. rewrite Hlink, Htruthy. cbn [negb template]. cbv zeta.
    rewrite He.
    destruct (fetch (env w) (keyed (env w) link)) as [e|r];
      [|destruct (blob r) as [e|bytes] ]; unfold createObjectURL; exec;
      rewrite <- ?app_assoc; reflexivity. }
  assert (exists tail,
             made =
               gate_events w ++ [EvGenerateVideos (videoRequest b m)]
                 ++ polling (submitted :: notDone)
                 ++ [EvFetch (keyed (env w) link)] ++ tail /\
             count is_status_fetch tail = 0 /\ count is_asset_fetch tail = 0)
    as (tail & Hmade & Ht1 & Ht2).
  { subst made. unfold run_events. rewrite Hrun, events_following. cbv zeta.
    destruct (fetch (env w) (keyed (env w) link)) as [e|r];
      [|destruct (blob r) as [e|bytes] ]; unfold createObjectURL; exec;
      eexists; (split; [rewrite <- ?app_assoc; cbn [List.app]; reflexivity|]);
      split; reflexivity. }
  split; [exists tail; split; [exact Hmade | split; assumption]|].
  destruct (count_polling (submitted :: notDone)) as [Hq Hf].
  destruct (count_gate_events w) as [Hg1 Hg2].
  split; [|split; [|split] ].
  - rewrite Hmade, !count_app, Hg1, Hq, Ht1. cbn. lia.
  - rewrite Hmade, !count_app, Hg2, Hf, Ht2. reflexivity.
  - rewrite Hmade.
    replace (gate_events w ++ [EvGenerateVideos (videoRequest b m)]
               ++ polling (submitted :: notDone)
               ++ [EvFetch (keyed (env w) link)] ++ tail)
      with ((gate_events w ++ [EvGenerateVideos (videoRequest b m)]
               ++ polling (submitted :: notDone))
              ++ EvFetch (keyed (env w) link) :: tail)
      by (rewrite <- !app_assoc; reflexivity).
    rewrite until_asset_fetch_app.
    + rewrite !count_app, Hg1, Hq. cbn. lia.
    + rewrite !count_app, Hg2, Hf. reflexivity.
  - intros fetched bytes Hfetch Hblob. subst made.
    unfold result, run_events. rewrite Hrun, outcome_following, events_following.
    cbv zeta. rewrite Hfetch, Hblob. unfold createObjectURL, polled. fields.
    rewrite He, Ho. split; [reflexivity|].
    apply in_or_app. right. apply in_or_app. right. cbn. tauto.
Qed.

(** C2 on the fixtures: the submitted job pending, two "not done" answers,
    then "done" with a locator. *)
Lemma C2_two_not_done :
  let w := videoWorld None (inr cleanedResponse) (Some onePixel) in
  let made := run_events (reconstructVideoFromImage 3 "CLEANED" "image/jpeg") w in
  (generateVideos (env w) (videoRequest "CLEANED" "image/jpeg") = inr (pendingJob "job-0") /\
   is_done (pendingJob "job-0") = false /\
   is_done (finishedJob "job-3" (Some "https://v/1?alt=media")) = true /\
   length [pendingJob "job-1"; pendingJob "job-2"] = 2) /\
  result (reconstructVideoFromImage 3 "CLEANED" "image/jpeg") w = Returned "blob:result" /\
  count is_status_fetch made = 3 /\
  count is_asset_fetch made = 1 /\
  count is_status_fetch (until_asset_fetch made) = 3.
Proof.
  intros w made.
  assert (status_script w
            (pendingJob "job-0" :: [pendingJob "job-1"; pendingJob "job-2"])
            ([pendingJob "job-1"; pendingJob "job-2"]
               ++ [finishedJob "job-3" (Some "https://v/1?alt=media")])) as Hscript.
  { intros k h o _ Ho. cbn. unfold scripted.
    change twoPending with
      ([pendingJob "job-1"; pendingJob "job-2"]
         ++ [finishedJob "job-3" (Some "https://v/1?alt=media")]).
    now rewrite Ho. }
  assert (Forall (fun o => is_done o = false) [pendingJob "job-1"; pendingJob "job-2"])
    as HnotDone by (repeat constructor).
  destruct (C2_poll_until_done w "CLEANED" "image/jpeg" (pendingJob "job-0")
              [pendingJob "job-1"; pendingJob "job-2"]
              (finishedJob "job-3" (Some "https://v/1?alt=media"))
              "https://v/1?alt=media" 3
              I eq_refl eq_refl eq_refl HnotDone eq_refl eq_refl eq_refl Hscript (le_n 3))
    as (_ & Q & F & B & R).
  split; [repeat split|].
  split; [apply (R (mkFetched (inr [x01; x02; x03])) [x01; x02; x03] eq_refl eq_refl)|].
  split; [exact Q|]. split; [exact F | exact B].
Defined.

Lemma downloadLink_absent (operation : Operation) :
  (response operation = None \/
   exists r, response operation = Some r /\
     (generatedVideos r = None \/ generatedVideos r = Some [] \/
      exists g gs, generatedVideos r = Some (g :: gs) /\
        (video g = None \/
         exists v, video g = Some v /\ (uri v = None \/ uri v = Some ""%string)))) ->
  no_locator operation = true.
Proof.
  unfold no_locator, downloadLink.
  intros [-> | (r & -> & [-> | [-> | (g & gs & -> & [-> | (v & -> & [-> | ->])])]])];
    reflexivity.
Qed.

Lemma downloadLink_present (operation : Operation) (r : GenerateVideosResponse)
  (g : GeneratedVideo) (gs : list GeneratedVideo) (v : Video) (link : string) :
  response operation = Some r -> generatedVideos r = Some (g :: gs) ->
  video g = Some v -> uri v = Some link -> link <> ""%string ->
  downloadLink operation = Some link /\ no_locator operation = false.
Proof.
  unfold no_locator, downloadLink. intros -> -> -> -> Hlink.
  split; [reflexivity|]. destruct link; [now contradiction Hlink | reflexivity].
Qed.

(** C5. Once the poll loop has seen a handle whose [done] is true, the client
    reads the locator from that handle's payload,
    [response.generatedVideos[0].video.uri].  When any link of that chain is
    missing, or the locator is the empty string, it throws the "failed to
    return a URI" error and fetches nothing; when the chain leads to a
    non-empty locator, the one asset fetch goes to that locator (with the key
    appended). *)
Theorem C5_locator_from_payload (w : World) (b m : string)
  (pending : list Operation) (final : Operation) (fuel : nat) :
  gate_open w ->
  client_built (env w) = true ->
  generateVideos (env w) (videoRequest b m) = inr (hd final pending) ->
  Forall (fun o => is_done o = false) pending ->
  is_done final = true ->
  status_script w pending (tl (pending ++ [final])) ->
  length pending <= fuel ->
  let made := run_events (reconstructVideoFromImage fuel b m) w in
  let before := gate_events w ++ EvGenerateVideos (videoRequest b m) :: polling pending in
  ((response final = None \/
    exists r, response final = Some r /\
      (generatedVideos r = None \/ generatedVideos r = Some [] \/
       exists g gs, generatedVideos r = Some (g :: gs) /\
         (video g = None \/
          exists v, video g = Some v /\ (uri v = None \/ uri v = Some ""%string)))) ->
   result (reconstructVideoFromImage fuel b m) w = Threw noUri /\
   made = before ++ [EvConsoleError "Error generating video:" noUri] /\
   count is_asset_fetch made = 0) /\
  (forall r g gs v link,
      response final = Some r -> generatedVideos r = Some (g :: gs) ->
      video g = Some v -> uri v = Some link -> link <> ""%string ->
      exists key tail,
        API_KEY (env w) = Some key /\
        made = before ++ EvFetch (link ++ "&key=" ++ key) :: tail /\
        count is_asset_fetch made = 1).
Proof.
  intros Hgate Hkey Hsub Hpending Hfinal Hscript Hfuel made before.
  subst made before. unfold run_events, result.
  destruct (gated_same w) as (He & Hs & Ho & _).
  rewrite (gate_passes w fuel b m Hgate Hkey). unfold try_catch.
  rewrite (generateAndFetch_scripted pending final (gated w) fuel b m); auto;
    [|now rewrite He | eapply status_script_transfer; eauto].
  destruct (count_polling pending) as [_ Hf].
  destruct (count_gate_events w) as [_ Hg].
  split.
  - intro Habsent. rewrite (downloadLink_absent final Habsent).
    exec. split; [reflexivity|].
    match goal with
    | |- ?made = ?rhs /\ _ =>
        assert (made = rhs) as E
          by (change (EvGenerateVideos (videoRequest b m) :: polling pending)
                with ([EvGenerateVideos (videoRequest b m)] ++ polling pending);
              now rewrite <- !app_assoc);
        split; [exact E | rewrite E]
    end.
    change (EvGenerateVideos (videoRequest b m) :: polling pending)
      with ([EvGenerateVideos (videoRequest b m)] ++ polling pending).
    rewrite !count_app, Hf, Hg. reflexivity.
  - intros r g gs v link Hr Hgs Hv Hu Hlink.
    destruct (downloadLink_present final r g gs v link Hr Hgs Hv Hu Hlink)
      as [-> ->].
    cbn [template]. rewrite He. unfold keyed, client_built in *.
    destruct (API_KEY (env w)) as [key|]; [|discriminate Hkey].
    exists key. cbn [template].
    set (url := (link ++ "&key=" ++ key)%string).
    change (EvGenerateVideos (videoRequest b m) :: polling pending)
      with ([EvGenerateVideos (videoRequest b m)] ++ polling pending).
    destruct (fetch (env w) url) as [e|fetched];
      [|destruct (blob fetched) as [e|bytes] ];
      unfold createObjectURL; exec;
      eexists; (split; [reflexivity|]);
      (split; [rewrite <- !app_assoc; cbn [List.app]; reflexivity|]);
      rewrite count_app, Hg; unfold count in *; cbn [filter is_asset_fetch];
      rewrite !filter_app, !length_app, Hf; reflexivity.
Qed.

(** C5 on the fixtures: a job that finishes without a locator, and a job
    that finishes with one. *)
Lemma C5_with_and_without_locator :
  let lost := run_events (reconstructVideoFromImage 1 "CLEANED" "image/jpeg") lostVideoWorld in
  let w := videoWorld None (inr cleanedResponse) (Some onePixel) in
  let found := run_events (reconstructVideoFromImage 3 "CLEANED" "image/jpeg") w in
  (generateVideos (env lostVideoWorld) (videoRequest "CLEANED" "image/jpeg")
     = inr (pendingJob "job-0") /\
   is_done (finishedJob "job-1" None) = true /\
   is_done (finishedJob "job-3" (Some "https://v/1?alt=media")) = true) /\
  (result (reconstructVideoFromImage 1 "CLEANED" "image/jpeg") lostVideoWorld = Threw noUri /\
   count is_asset_fetch lost = 0) /\
  (In (EvFetch "https://v/1?alt=media&key=KEY") found /\
   count is_asset_fetch found = 1).
Proof.
  intros lost w found.
  assert (status_script lostVideoWorld [pendingJob "job-0"]
            (tl ([pendingJob "job-0"] ++ [finishedJob "job-1" None]))) as Hlost.
  { intros k h o _ Ho. cbn. unfold scripted. cbn in Ho. now rewrite Ho. }
  assert (status_script w [pendingJob "job-0"; pendingJob "job-1"; pendingJob "job-2"]
            (tl ([pendingJob "job-0"; pendingJob "job-1"; pendingJob "job-2"]
                   ++ [finishedJob "job-3" (Some "https://v/1?alt=media")]))) as Hfound.
  { intros k h o _ Ho. cbn. unfold scripted, twoPending. cbn in Ho. now rewrite Ho. }
  assert (Forall (fun o => is_done o = false) [pendingJob "job-0"]) as Hone
    by (repeat constructor).
  assert (Forall (fun o => is_done o = false)
                 [pendingJob "job-0"; pendingJob "job-1"; pendingJob "job-2"]) as Hthree
    by (repeat constructor).
  split; [repeat split|]. split.
  - destruct (C5_locator_from_payload lostVideoWorld "CLEANED" "image/jpeg"
                [pendingJob "job-0"] (finishedJob "job-1" None) 1
                I eq_refl eq_refl Hone eq_refl Hlost (le_n 1)) as [Habsent _].
    destruct Habsent as (R & _ & F); [|split; [exact R | exact F] ].
    right. exists (mkVideos (Some [mkGenerated (Some (mkVideo None))])).
    split; [reflexivity|]. right. right.
    exists (mkGenerated (Some (mkVideo None))), []. split; [reflexivity|].
    right. exists (mkVideo None). split; [reflexivity | left; reflexivity].
  - destruct (C5_locator_from_payload w "CLEANED" "image/jpeg"
                [pendingJob "job-0"; pendingJob "job-1"; pendingJob "job-2"]
                (finishedJob "job-3" (Some "https://v/1?alt=media")) 3
                I eq_refl eq_refl Hthree eq_refl Hfound (le_n 3)) as [_ Hpresent].
    destruct (Hpresent (mkVideos (Some [mkGenerated (Some (mkVideo (Some "https://v/1?alt=media")))]))
                (mkGenerated (Some (mkVideo (Some "https://v/1?alt=media")))) []
                (mkVideo (Some "https://v/1?alt=media")) "https://v/1?alt=media"
                eq_refl eq_refl eq_refl eq_refl)
      as (key & tail & K & E & F); [discriminate|].
    injection K as <-. split; [|exact F].
    fold found in E. rewrite E. apply in_or_app. right. left. reflexivity.
Defined.
(** ** The stored result *)

Section StoredResult.

Lemma keeps_of_emits {A} (P : Event -> Prop) (m : M A) :
  emits_only P m -> keeps_result m.
Proof. intros H w. destruct (H w) as (_ & Ha & _). now rewrite Ha. Qed.

Lemma keeps_ret {A} (a : A) : keeps_result (ret a).
Proof. now intro w. Qed.

Lemma keeps_setStatus (s : ProcessingState) : keeps_result (setStatus s).
Proof. now intro w. Qed.

Lemma keeps_get_app : keeps_result get_app.
Proof. now intro w. Qed.

Lemma keeps_bind {A B} (m : M A) (k : A -> M B) :
  keeps_result m -> (forall a, keeps_result (k a)) -> keeps_result (bind m k).
Proof.
  intros Hm Hk w. rewrite run_bind.
  destruct (result m w); rewrite ?Hk; apply Hm.
Qed.

Lemma stores_of_keeps (m : M unit) : keeps_result m -> stores_on_success m.
Proof. intros H w. left. apply H. Qed.

Lemma stores_bind {A} (m : M A) (k : A -> M unit) :
  keeps_result m -> (forall a, stores_on_success (k a)) ->
  stores_on_success (bind m k).
Proof.
  intros Hm Hk w. rewrite run_bind, result_bind.
  destruct (result m w) as [a| | |]; try (left; apply Hm).
  destruct (Hk a (run m w)) as [H|H]; [left | right; exact H].
  now rewrite H.
Qed.

Lemma stores_try_catch (m : M unit) (h : Thrown -> M unit) :
  stores_on_success m -> (forall e, keeps_result (h e)) ->
  stores_on_success (try_catch m h).
Proof.
  intros Hm Hh w. rewrite run_try_catch, result_try_catch.
  destruct (Hm w) as [H|(R & S & U)].
  - destruct (result m w); try (left; exact H).
    left. now rewrite Hh.
  - rewrite R. right. auto.
Qed.

Lemma stores_result (u : string) :
  stores_on_success (setResultUrl (Some u) ;;; setStatus successState).
Proof. intro w. right. repeat split. discriminate. Qed.

Lemma keeps_fileToBase64 (f : File) : keeps_result (fileToBase64 f).
Proof. intro w. unfold run, fileToBase64. now destruct (unreadable _ _). Qed.

Lemma keeps_captureFrame (preview : option string) :
  keeps_result (captureFrame preview).
Proof.
  unfold captureFrame. apply keeps_bind.
  - intro w. unfold run, awaitLoadedData. now destruct (loadVideo _ _).
  - intro v. repeat (apply keeps_bind; [now intro|intro]). apply keeps_ret.
Qed.

Lemma stores_imageFlow (f : File) (b : option string) :
  stores_on_success (imageFlow f b).
Proof.
  unfold imageFlow.
  repeat (apply stores_bind; [now intro|intro]).
  apply stores_bind; [|intro; apply stores_result].
  eapply keeps_of_emits, removeImageWatermark_footprint.
Qed.

Lemma stores_videoFlowAuthorized (fuel : nat) (preview : option string) :
  stores_on_success (videoFlowAuthorized fuel preview).
Proof.
  unfold videoFlowAuthorized, reconstructFlow.
  apply stores_bind; [apply keeps_setStatus|intro].
  apply stores_bind; [apply keeps_captureFrame|intro].
  apply stores_bind; [apply keeps_setStatus|intro].
  apply stores_bind;
    [eapply keeps_of_emits, removeImageWatermark_footprint|intro].
  apply stores_bind; [apply keeps_setStatus|intro].
  apply stores_bind;
    [eapply keeps_of_emits, reconstructVideoFromImage_footprint|intro].
  apply stores_result.
Qed.

Lemma stores_videoFlow (fuel : nat) (preview : option string) :
  stores_on_success (videoFlow fuel preview).
Proof.
  unfold videoFlow.
  apply stores_bind; [apply keeps_setStatus|intro].
  apply stores_bind; [now intro|intro e].
  destruct (key_gate e) as [answers|]; [|apply stores_videoFlowAuthorized].
  apply stores_bind; [now intro|intros [|]].
  - apply stores_videoFlowAuthorized.
  - apply stores_of_keeps. apply keeps_bind; [apply keeps_setStatus|now intro].
Qed.

Lemma stores_handleRemoveWatermark (fuel : nat) :
  stores_on_success (handleRemoveWatermark fuel).
Proof.
  unfold handleRemoveWatermark.
  apply stores_bind; [apply keeps_get_app|intro a].
  destruct (file a) as [f|]; [|apply stores_of_keeps, keeps_ret].
  apply stores_bind; [apply keeps_setStatus|intro].
  apply stores_try_catch; [|intro; apply keeps_setStatus].
  apply stores_bind; [apply keeps_fileToBase64|intro b].
  destruct (activeTab a); [apply stores_imageFlow | apply stores_videoFlow].
Qed.

End StoredResult.

(** C7 fails as stated: a switch to the other tab, which is neither a new
    asset selection nor Start Over, clears the stored result (the effect on
    [activeTab] resets it). *)
Lemma C7_tab_switch_clears_result :
  let w := imageWorld (inr cleanedResponse) (Some "data:image/png;base64,OLD") in
  resultUrl (app w) = Some "data:image/png;base64,OLD" /\
  resultUrl (app (run (act 0 (ASelectTab VIDEO)) w)) = None /\
  selects_or_starts_over (ASelectTab VIDEO) w = false /\
  ~ C7_as_stated 0 w.
Proof.
  intro w. split; [reflexivity|]. split; [reflexivity|]. split; [reflexivity|].
  intros [_ H].
  assert (selects_or_starts_over (ASelectTab VIDEO) w = true) as E
    by (apply H; [discriminate | reflexivity]).
  discriminate E.
Qed.

(** C7, as the code has it.  A run of [handleRemoveWatermark] that does not
    end in [success] leaves the stored result exactly as it was, and no run
    ever clears it.  The stored result is cleared only by a user action that
    starts afresh: selecting a new asset (file input or a valid drop), Start
    Over, or a switch to the other tab, which resets the same state. *)
Theorem C7_failed_run_keeps_result (fuel : nat) (w : World) :
  let w' := run (handleRemoveWatermark fuel) w in
  (status (appStatus (app w')) <> success -> resultUrl (app w') = resultUrl (app w)) /\
  (resultUrl (app w) <> None -> resultUrl (app w') <> None) /\
  (forall a, resultUrl (app w) <> None ->
             resultUrl (app (run (act fuel a) w)) = None ->
             starts_afresh a w = true).
Proof.
  cbv zeta. pose proof (stores_handleRemoveWatermark fuel w) as Hrun.
  split; [|split].
  - intro Hs. destruct Hrun as [H|(_ & S & _)]; [exact H|].
    rewrite S in Hs. now contradiction Hs.
  - intro Hp. destruct Hrun as [H|(_ & _ & U)]; [now rewrite H | exact U].
  - intros a Hp Hcleared.
    destruct a as [t|kind|files|files| | | |]; cbn [act starts_afresh] in *.
    + unfold selectTab, run, bind, get_app in Hcleared.
      destruct (same_tab (activeTab (app w)) t); [|reflexivity].
      now contradiction Hp.
    + destruct kind; now contradiction Hp.
    + unfold handleDrop, run, bind, get_app, setDragActive in Hcleared.
      destruct files as [|f files]; [now contradiction Hp|].
      fields. destruct (validateFile (activeTab (app w)) f); [reflexivity|].
      now contradiction Hp.
    + destruct files; [now contradiction Hp | reflexivity].
    + destruct Hrun as [H|(_ & _ & U)]; [rewrite H in Hcleared|];
        now contradiction.
    + reflexivity.
    + now contradiction Hp.
    + now contradiction Hp.
Qed.

(** C7 on the fixtures: a stored result, then a run the edit service fails. *)
Lemma C7_failure_after_success :
  let w := imageWorld (inl (JsError "503 UNAVAILABLE")) (Some "data:image/png;base64,OLD") in
  let w' := run (handleRemoveWatermark 0) w in
  status (appStatus (app w')) = error /\
  resultUrl (app w') = Some "data:image/png;base64,OLD" /\
  resultUrl (app (run (act 0 AStartOver) w)) = None /\
  starts_afresh AStartOver w = true.
Proof.
  intros w w'.
  destruct (C7_failed_run_keeps_result 0 w) as (Hkeep & _ & Honly).
  split; [reflexivity|]. split.
  - apply Hkeep. discriminate.
  - split; [reflexivity|]. apply Honly; [discriminate | reflexivity].
Defined.
(** ** The progress reported during a run *)

Section Progress.

Lemma updates_bind {A B} (m : M A) (k : A -> M B) (w : World) :
  updates (bind m k) w =
    updates m w ++
    match result m w with
    | Returned a => updates (k a) (run m w)
    | _ => []
    end.
Proof.
  unfold updates. rewrite run_events_bind, status_updates_app.
  now destruct (result m w).
Qed.

Lemma updates_try_catch {A} (m : M A) (h : Thrown -> M A) (w : World) :
  updates (try_catch m h) w =
    updates m w ++
    match result m w with
    | Threw e => updates (h e) (run m w)
    | _ => []
    end.
Proof.
  unfold updates. rewrite run_events_try_catch, status_updates_app.
  now destruct (result m w).
Qed.

Lemma quiet_of_emits {A} (m : M A) : emits_only client_event m -> quiet m.
Proof.
  intros H w. destruct (H w) as (_ & _ & Hp).
  now apply status_updates_client.
Qed.

Lemma quiet_client {A} (P : Event -> Prop) (m : M A) :
  (forall e, P e -> client_event e) -> emits_only P m -> quiet m.
Proof. intros HP H. eapply quiet_of_emits, emits_weaken; eauto. Qed.

Lemma closing_error (m : string) : closing (errorState m).
Proof. split; [discriminate | reflexivity]. Qed.

Lemma closing_success : closing successState.
Proof. split; [discriminate | reflexivity]. Qed.

Lemma closing_idle : closing idleState.
Proof. split; [discriminate | reflexivity]. Qed.

Variable rungs : list ProcessingState.

Lemma flow_quiet_bind {A} (m : M A) (k : A -> M unit) :
  quiet m -> (forall a, flow_shape rungs (k a)) -> flow_shape rungs (bind m k).
Proof.
  intros Hm Hk w. rewrite result_bind, updates_bind, Hm.
  destruct (result m w) as [a| | |]; try (now exists 0).
  apply Hk.
Qed.

Lemma flow_close (u : ProcessingState) :
  closing u -> flow_shape rungs (setStatus u).
Proof. intros Hu w. exists 0. cbn. eauto. Qed.

Lemma flow_store (x : string) :
  flow_shape rungs (setResultUrl (Some x) ;;; setStatus successState).
Proof. intro w. exists 0. cbn. eauto using closing_success. Qed.

Lemma flow_exit : flow_shape rungs (setStatus idleState ;;; openSelectKey).
Proof. intro w. exists 0. cbn. eauto using closing_idle. Qed.

End Progress.

Lemma flow_step (s : ProcessingState) (rungs : list ProcessingState) (k : M unit) :
  flow_shape rungs k -> flow_shape (s :: rungs) (setStatus s ;;; k).
Proof.
  intros Hk w. rewrite result_bind, updates_bind.
  change (result (setStatus s) w) with (Returned tt). cbv iota.
  destruct (Hk (run (setStatus s) w)) as (n & Hn). exists (S n).
  destruct (result k (run (setStatus s) w)) as [[]| | |];
    [destruct Hn as (u & Hu & Hn); exists u; split; [exact Hu|]|..];
    rewrite Hn; reflexivity.
Qed.

Lemma imageFlow_shape (f : File) (b : option string) :
  flow_shape (tl imageLadder) (imageFlow f b).
Proof.
  unfold imageFlow. apply flow_step.
  apply flow_quiet_bind; [now intro|intro].
  apply flow_step.
  apply flow_quiet_bind; [|intro; apply flow_store].
  eapply quiet_client, removeImageWatermark_footprint. now intros [].
Qed.

Lemma quiet_captureFrame (preview : option string) : quiet (captureFrame preview).
Proof.
  intro w. unfold updates, run_events, captureFrame, bind, awaitLoadedData.
  now destruct (loadVideo _ _).
Qed.

Lemma videoFlowAuthorized_shape (fuel : nat) (preview : option string) :
  flow_shape (skipn 2 videoLadder) (videoFlowAuthorized fuel preview).
Proof.
  unfold videoFlowAuthorized, reconstructFlow. apply flow_step.
  apply flow_quiet_bind; [apply quiet_captureFrame|intro].
  apply flow_step.
  apply flow_quiet_bind;
    [eapply quiet_client, removeImageWatermark_footprint; now intros []|intro].
  apply flow_step.
  apply flow_quiet_bind;
    [apply quiet_of_emits, reconstructVideoFromImage_footprint|intro].
  apply flow_store.
Qed.

Lemma videoFlow_shape (fuel : nat) (preview : option string) :
  flow_shape (tl videoLadder) (videoFlow fuel preview).
Proof.
  unfold videoFlow. apply flow_step.
  apply flow_quiet_bind; [now intro|intro e].
  destruct (key_gate e) as [answers|]; [|apply videoFlowAuthorized_shape].
  apply flow_quiet_bind; [now intro|intros [|]].
  - apply videoFlowAuthorized_shape.
  - apply flow_exit.
Qed.

Lemma updates_of_run_shape (fuel : nat) (w : World) :
  run_shape (updates_of_run fuel w).
Proof.
  unfold updates_of_run, handleRemoveWatermark.
  rewrite updates_bind. change (result get_app w) with (Returned (app w)).
  change (updates get_app w) with (@nil ProcessingState).
  change (run get_app w) with w. cbv iota. cbn [List.app].
  destruct (file (app w)) as [f|].
  2:{ exists imageLadder, 0, []. cbn. auto. }
  rewrite updates_bind. change (result (setStatus (working None 10)) w) with (Returned tt).
  cbv iota. set (w1 := run (setStatus (working None 10)) w).
  change (updates (setStatus (working None 10)) w) with [working None 10].
  rewrite updates_try_catch.
  set (body := bind (fileToBase64 f) _).
  assert (exists ladder, (ladder = imageLadder \/ ladder = videoLadder) /\
                         hd idleState ladder = working None 10 /\
                         flow_shape (tl ladder) body) as (ladder & Hladder & Hhd & Hbody).
  { subst body. destruct (activeTab (app w)).
    - exists imageLadder. repeat split; auto.
      apply flow_quiet_bind; [|intro; apply imageFlow_shape].
      intro w'. unfold updates, run_events, fileToBase64.
      now destruct (unreadable _ _).
    - exists videoLadder. repeat split; auto.
      apply flow_quiet_bind; [|intro; apply videoFlow_shape].
      intro w'. unfold updates, run_events, fileToBase64.
      now destruct (unreadable _ _). }
  destruct (Hbody w1) as (n & Hn).
  assert (forall rest, [working None 10] ++ firstn n (tl ladder) ++ rest
                       = firstn (S n) ladder ++ rest) as Hfirst.
  { intro rest. destruct Hladder as [-> | ->]; reflexivity. }
  exists ladder, (S n).
  destruct (result body w1) as [[]|e| |].
  - destruct Hn as (u & Hu & ->). exists [u]. split; [exact Hladder|].
    split; [|right; eauto].
    rewrite app_nil_r. apply Hfirst.
  - rewrite Hn.
    exists [errorState (or_else (error_message e) "Failed to process file.")].
    change (updates (reportError e) (run body w1))
      with [errorState (or_else (error_message e) "Failed to process file.")].
    split; [exact Hladder|]. split; [apply Hfirst|].
    right. eauto using closing_error.
  - rewrite Hn. exists []. split; [exact Hladder|]. split; [apply Hfirst|]. now left.
  - rewrite Hn. exists []. split; [exact Hladder|]. split; [apply Hfirst|]. now left.
Qed.
(** C8 fails as stated: in the image flow with the "CLEANED" answer the first
    update carries no message and the last one no percentage. *)
Lemma C8_first_update_has_no_message :
  updates_of_run 0 (imageWorld (inr cleanedResponse) None) =
    [working None 10;
     working (Some "Analyzing image structure...") 30;
     working (Some "Removing watermark patterns...") 60;
     successState] /\
  ~ C8_as_stated (updates_of_run 0 (imageWorld (inr cleanedResponse) None)).
Proof.
  split; [reflexivity|].
  intros [H _].
  change (updates_of_run 0 (imageWorld (inr cleanedResponse) None))
    with [working None 10;
          working (Some "Analyzing image structure...") 30;
          working (Some "Removing watermark patterns...") 60;
          successState] in H.
  inversion H as [|u l [_ Hm] _]; subst. now apply Hm.
Qed.

(** C8, as the code has it.  In every run of [handleRemoveWatermark] the
    updates follow the ladder of the flow: every [processing] update carries
    a percentage between 0 and 100, the percentages never decrease, every
    [processing] update after the first carries a message, and the update
    that ends the run ([success], [idle] or [error]) carries no percentage. *)
Theorem C8_progress_never_decreases (fuel : nat) (w : World) :
  let ups := updates_of_run fuel w in
  Sorted Z.le (percentages ups) /\
  Forall (fun u => status u = processing ->
                   exists p, progress u = Some p /\ (0 <= p <= 100)%Z) ups /\
  Forall (fun u => status u = processing -> message u <> None) (tl ups) /\
  Forall (fun u => status u <> processing -> progress u = None) ups.
Proof.
  cbv zeta.
  destruct (updates_of_run_shape fuel w) as (ladder & n & ending & Hl & -> & He).
  destruct Hl as [-> | ->]; do 6 (try destruct n as [|n]);
    destruct He as [-> | (u & -> & Hs & Hp)];
    cbn [firstn imageLadder videoLadder List.app tl percentages progress working];
    rewrite ?Hp;
    (split; [repeat (constructor; try lia)|]);
    repeat split;
    repeat (constructor;
            [intros; try contradiction; try discriminate;
             try (eexists; split; [reflexivity|lia]); auto|]);
    constructor.
Qed.
(** ** The frame capture and the key check of the video flow *)

Section VideoFlow.

Lemma count_none (p : Event -> bool) (P : Event -> Prop) (evs : list Event) :
  (forall e, P e -> p e = false) -> Forall P evs -> count p evs = 0.
Proof.
  intros HP H. induction H as [|e evs He _ IH]; [reflexivity|].
  unfold count in *. cbn. now rewrite (HP e He).
Qed.

(** The video flow of a readable file, up to the end of its key check. *)
Lemma video_run_unfold (w : World) (f : File) (fuel : nat) :
  file (app w) = Some f ->
  activeTab (app w) = VIDEO ->
  unreadable (env w) f = false ->
  gate_open w ->
  handleRemoveWatermark fuel w =
    following
      ([EvSetStatus (working None 10); EvReadAsDataURL f;
        EvSetStatus (working (Some "Video processing requires a paid API key. Checking...") 20)]
         ++ gate_events w)
      (try_catch (videoFlowAuthorized fuel (previewUrl (app w))) reportError
         (gated (with_status
                   (working (Some "Video processing requires a paid API key. Checking...") 20)
                   w))).
Proof.
  intros Hf Ht Hr Hopen.
  unfold gate_open, gate_events, gated, with_status, run in *.
  destruct w as [e a sq kq ou]; destruct a. fields. subst.
  unfold handleRemoveWatermark, fileToBase64, videoFlow. exec.
  rewrite Hr. exec.
  destruct (key_gate e) as [answers|]; exec; rewrite ?Hopen;
    match goal with
    | |- context [videoFlowAuthorized ?a ?b ?c] =>
        destruct (videoFlowAuthorized a b c) as [[[]|err| |] w1 evs]
    end; exec; rewrite ?app_nil_r; reflexivity.
Qed.

Lemma videoFlowAuthorized_unfold (w : World) (fuel : nat) (preview : option string) :
  let extracting :=
    with_status (working (Some "Extracting reference frame...") 30) w in
  videoFlowAuthorized fuel preview w =
    match loadVideo (env w) (video_src preview) with
    | Some v =>
        following
          [EvSetStatus (working (Some "Extracting reference frame...") 30);
           EvLoadVideo (video_src preview); EvSetTimeout 200;
           EvToDataURL (videoWidth v) (videoHeight v)]
          (reconstructFlow fuel (after_first_comma (toDataURL v)) extracting)
    | None =>
        mkRun Suspended extracting
              [EvSetStatus (working (Some "Extracting reference frame...") 30);
               EvLoadVideo (video_src preview)]
    end.
Proof.
  cbv zeta. unfold with_status, run.
  unfold videoFlowAuthorized, captureFrame, awaitLoadedData. exec.
  destruct (loadVideo (env w) (video_src preview)) as [v|]; exec; [|reflexivity].
  now rewrite !following_following.
Qed.

(** Whatever the frame, the next thing is the call of the edit service. *)
Lemma reconstructFlow_starts (w : World) (fuel : nat) (frame : option string) :
  exists tail,
    run_events (reconstructFlow fuel frame) w =
      EvSetStatus (working (Some "Cleaning reference frame...") 50)
        :: EvGenerateContent (editRequest frame "image/jpeg") :: tail.
Proof.
  unfold reconstructFlow. rewrite run_events_bind.
  change (result (setStatus (working (Some "Cleaning reference frame...") 50)) w)
    with (Returned tt). cbv iota.
  rewrite run_events_bind. unfold run_events at 2.
  rewrite removeImageWatermark_unfold. cbv zeta.
  destruct (generateContent _ _) as [e|r]; [|destruct (scan_parts _)];
    eexists; cbn [events List.app run_events setStatus]; reflexivity.
Qed.

Lemma toDataURL_no_pixels (v : VideoData) :
  videoWidth v = 0%Z \/ videoHeight v = 0%Z ->
  after_first_comma (toDataURL v) = Some "".
Proof.
  unfold toDataURL. intros [-> | ->]; [reflexivity|].
  rewrite orb_true_r. reflexivity.
Qed.

End VideoFlow.

(** C9 fails as stated: with a frame of zero width and height the run goes
    on, the (empty) frame is sent to the edit service, the cleaned image is
    submitted, and the run ends in [success]. *)
Lemma C9_zero_frame_is_sent :
  let w := videoWorld None (inr cleanedResponse) (Some noPixels) in
  frame_extraction_fails w /\
  appStatus (app (run (handleRemoveWatermark 3) w)) = successState /\
  In (EvGenerateContent (editRequest (Some "") "image/jpeg"))
     (run_events (handleRemoveWatermark 3) w) /\
  In (EvGenerateVideos (videoRequest "CLEANED" "image/jpeg"))
     (run_events (handleRemoveWatermark 3) w) /\
  ~ C9_as_stated 3 w.
Proof.
  intro w.
  assert (frame_extraction_fails w) as Hfails by (left; reflexivity).
  split; [exact Hfails|]. split; [reflexivity|].
  split; [vm_compute; tauto|]. split; [vm_compute; tauto|].
  intro H. destruct (H Hfails) as [Hs _].
  vm_compute in Hs. discriminate Hs.
Qed.

(** C9, as the code has it.  The video flow does not validate the captured
    frame: once the video element has loaded its data, whatever its
    dimensions, the run waits for the seek, encodes the canvas and calls the
    edit service with what follows the comma of the data URL (the empty
    string for a frame without pixels); when the video never loads, the run
    stays suspended at "Extracting reference frame..." and sets no error. *)
Theorem C9_frame_is_not_validated (w : World) (f : File) (fuel : nat) :
  file (app w) = Some f ->
  activeTab (app w) = VIDEO ->
  unreadable (env w) f = false ->
  gate_open w ->
  let made := run_events (handleRemoveWatermark fuel) w in
  let src := video_src (previewUrl (app w)) in
  let before :=
    [EvSetStatus (working None 10); EvReadAsDataURL f;
     EvSetStatus (working (Some "Video processing requires a paid API key. Checking...") 20)]
      ++ gate_events w
      ++ [EvSetStatus (working (Some "Extracting reference frame...") 30);
          EvLoadVideo src] in
  match loadVideo (env w) src with
  | Some v =>
      let frame := after_first_comma (toDataURL v) in
      (exists tail,
          made = before
                   ++ [EvSetTimeout 200;
                       EvToDataURL (videoWidth v) (videoHeight v);
                       EvSetStatus (working (Some "Cleaning reference frame...") 50);
                       EvGenerateContent (editRequest frame "image/jpeg")]
                   ++ tail) /\
      (videoWidth v = 0%Z \/ videoHeight v = 0%Z -> frame = Some "")
  | None =>
      result (handleRemoveWatermark fuel) w = Suspended /\
      made = before /\
      appStatus (app (run (handleRemoveWatermark fuel) w))
        = working (Some "Extracting reference frame...") 30
  end.
Proof.
  intros Hf Ht Hr Hopen made src before. subst made before src.
  unfold run_events, result, run.
  rewrite (video_run_unfold w f fuel Hf Ht Hr Hopen).
  rewrite events_following, outcome_following, after_following.
  unfold try_catch. rewrite videoFlowAuthorized_unfold. cbv zeta.
  set (w1 := gated _).
  assert (env w1 = env w) as He
    by (unfold w1, gated, with_status; cbn; destruct (key_gate (env w)); reflexivity).
  rewrite He.
  destruct (loadVideo (env w) (video_src (previewUrl (app w)))) as [v|].
  - split; [|apply toDataURL_no_pixels].
    set (w2 := with_status _ w1).
    destruct (reconstructFlow_starts w2 fuel (after_first_comma (toDataURL v)))
      as (tail & Htail).
    unfold run_events in Htail.
    destruct (reconstructFlow fuel (after_first_comma (toDataURL v)) w2)
      as [[[]|err| |] w3 evs]; cbn [events] in Htail; subst evs;
      unfold reportError; exec;
      eexists; rewrite <- !app_assoc; cbn [List.app]; reflexivity.
  - cbn [outcome after events]. split; [reflexivity|]. split; [|reflexivity].
    now rewrite <- !app_assoc.
Qed.

(** C9's theorem on the frame without pixels. *)
Lemma C9_no_pixels :
  let w := videoWorld None (inr cleanedResponse) (Some noPixels) in
  (file (app w) = Some clipFixture /\ activeTab (app w) = VIDEO /\
   unreadable (env w) clipFixture = false /\ gate_open w /\
   loadVideo (env w) (video_src (previewUrl (app w))) = Some noPixels) /\
  (exists tail,
      run_events (handleRemoveWatermark 3) w =
        [EvSetStatus (working None 10); EvReadAsDataURL clipFixture;
         EvSetStatus (working (Some "Video processing requires a paid API key. Checking...") 20);
         EvSetStatus (working (Some "Extracting reference frame...") 30);
         EvLoadVideo "blob:preview";
         EvSetTimeout 200;
         EvToDataURL 0 0;
         EvSetStatus (working (Some "Cleaning reference frame...") 50);
         EvGenerateContent (editRequest (Some "") "image/jpeg")] ++ tail).
Proof.
  intro w.
  pose proof (C9_frame_is_not_validated w clipFixture 3 eq_refl eq_refl eq_refl I) as H.
  cbv zeta in H.
  change (loadVideo (env w) (video_src (previewUrl (app w)))) with (Some noPixels) in H.
  cbv iota in H. destruct H as [(tail & Htail) _].
  split; [repeat split|].
  exists tail. exact Htail.
Defined.
(** ** Without the ambient key selection *)

Lemma job_event_not_key_check (e : Event) : job_event e -> is_key_check e = false.
Proof. now destruct e. Qed.

Lemma generateAndFetch_starts (w : World) (fuel : nat) (b m : string) :
  exists tail,
    run_events (generateAndFetch fuel b m) w =
      EvGenerateVideos (videoRequest b m) :: tail /\
    Forall job_event tail.
Proof.
  unfold run_events, generateAndFetch, bind at 1, call, bind, perform. fields.
  destruct (generateVideos (env w) (videoRequest b m)) as [e|submitted];
    cbn [settle]; fields.
  - exists []. split; [reflexivity | constructor].
  - rewrite events_following. eexists. split; [reflexivity|].
    apply (awaitVideo_footprint fuel submitted w).
Qed.

(** Without [window.aistudio.hasSelectedApiKey] the client, once built, goes
    straight to the submission. *)
Lemma reconstruct_ungated (w : World) (fuel : nat) (b m : string) :
  key_gate (env w) = None ->
  client_built (env w) = true ->
  exists tail,
    run_events (reconstructVideoFromImage fuel b m) w =
      EvGenerateVideos (videoRequest b m) :: tail /\
    count is_key_check tail = 0.
Proof.
  intros Hgate Hkey.
  assert (gate_open w) as Hopen by (unfold gate_open; now rewrite Hgate).
  unfold run_events. rewrite (gate_passes w fuel b m Hopen Hkey).
  unfold gate_events, gated. rewrite Hgate, following_nil.
  fold (run_events (try_catch (generateAndFetch fuel b m)
          (fun e => perform (EvConsoleError "Error generating video:" e) ;;; throw e)) w).
  rewrite run_events_try_catch.
  destruct (generateAndFetch_starts w fuel b m) as (tail & -> & Htail).
  eexists. split; [reflexivity|].
  rewrite count_app, (count_none _ _ _ job_event_not_key_check Htail).
  destruct (result (generateAndFetch fuel b m) w); reflexivity.
Qed.

Lemma count_cons (p : Event -> bool) (e : Event) (l : list Event) :
  count p (e :: l) = (if p e then 1 else 0) + count p l.
Proof. unfold count. cbn. now destruct (p e). Qed.

Lemma gated_none (w : World) : key_gate (env w) = None -> gated w = w.
Proof. unfold gated. now intros ->. Qed.

(** C10. When [window.aistudio] (or its [hasSelectedApiKey]) is absent, no
    key check is made: the client, its SDK instance built from a defined
    [process.env.API_KEY], starts with the submission of the job, and the
    video flow of the component goes from its "Checking..." update on to the
    frame capture, the edit call and the submission. *)
Theorem C10_no_studio_no_gate :
  (forall (w : World) (fuel : nat) (b m : string),
      key_gate (env w) = None ->
      client_built (env w) = true ->
      exists tail,
        run_events (reconstructVideoFromImage fuel b m) w =
          EvGenerateVideos (videoRequest b m) :: tail /\
        count is_key_check tail = 0)
  /\
  (forall (w : World) (f : File) (fuel : nat) (v : VideoData)
          (r : GenerateContentResponse) (clean : string),
      file (app w) = Some f ->
      activeTab (app w) = VIDEO ->
      unreadable (env w) f = false ->
      key_gate (env w) = None ->
      client_built (env w) = true ->
      loadVideo (env w) (video_src (previewUrl (app w))) = Some v ->
      generateContent (env w)
        (editRequest (after_first_comma (toDataURL v)) "image/jpeg") = inr r ->
      scan_parts (response_parts r) = Some clean ->
      exists tail,
        run_events (handleRemoveWatermark fuel) w =
          [EvSetStatus (working None 10);
           EvReadAsDataURL f;
           EvSetStatus (working (Some "Video processing requires a paid API key. Checking...") 20);
           EvSetStatus (working (Some "Extracting reference frame...") 30);
           EvLoadVideo (video_src (previewUrl (app w)));
           EvSetTimeout 200;
           EvToDataURL (videoWidth v) (videoHeight v);
           EvSetStatus (working (Some "Cleaning reference frame...") 50);
           EvGenerateContent (editRequest (after_first_comma (toDataURL v)) "image/jpeg");
           EvSetStatus (working (Some "Reconstructing video stream (this may take a minute)...") 70);
           EvGenerateVideos (videoRequest clean "image/jpeg")] ++ tail /\
        count is_key_check (run_events (handleRemoveWatermark fuel) w) = 0).
Proof.
  split; [exact reconstruct_ungated|].
  intros w f fuel v r clean Hf Ht Hr Hgate Hkey Hload Hedit Hscan.
  set (made := run_events (handleRemoveWatermark fuel) w).
  enough (exists tail,
             made =
               [EvSetStatus (working None 10);
                EvReadAsDataURL f;
                EvSetStatus (working (Some "Video processing requires a paid API key. Checking...") 20);
                EvSetStatus (working (Some "Extracting reference frame...") 30);
                EvLoadVideo (video_src (previewUrl (app w)));
                EvSetTimeout 200;
                EvToDataURL (videoWidth v) (videoHeight v);
                EvSetStatus (working (Some "Cleaning reference frame...") 50);
                EvGenerateContent (editRequest (after_first_comma (toDataURL v)) "image/jpeg");
                EvSetStatus (working (Some "Reconstructing video stream (this may take a minute)...") 70);
                EvGenerateVideos (videoRequest clean "image/jpeg")] ++ tail /\
             count is_key_check tail = 0) as (tail & Hmade & Hcount).
  { exists tail. split; [exact Hmade|].
    rewrite Hmade, count_app, Hcount. reflexivity. }
  subst made.
  assert (gate_open w) as Hopen by (unfold gate_open; now rewrite Hgate).
  unfold run_events.
  rewrite (video_run_unfold w f fuel Hf Ht Hr Hopen).
  unfold gate_events. rewrite Hgate, gated_none by exact Hgate.
  rewrite events_following. unfold try_catch.
  rewrite videoFlowAuthorized_unfold. cbv zeta.
  set (w1 := with_status _ w).
  assert (env w1 = env w) as He by reflexivity.
  rewrite He, Hload.
  set (w2 := with_status _ w1).
  unfold reconstructFlow, bind at 1, setStatus at 1. fields.
  unfold bind at 1. rewrite removeImageWatermark_unfold. cbv zeta. fields.
  assert (env w2 = env w) as He2 by reflexivity.
  rewrite He2, Hedit, Hscan.
  unfold bind at 1, setStatus at 1. fields.
  unfold bind at 1.
  match goal with
  | |- context [reconstructVideoFromImage fuel clean "image/jpeg" ?w3] =>
      destruct (reconstruct_ungated w3 fuel clean "image/jpeg" Hgate Hkey)
        as (tail & Htail & Hcount);
      unfold run_events in Htail;
      destruct (reconstructVideoFromImage fuel clean "image/jpeg" w3)
        as [[url|err| |] w4 evs]
  end;
    cbn [events] in Htail; subst evs;
    unfold reportError; exec;
    (eexists; split; [reflexivity|]);
    repeat (rewrite count_app || rewrite count_cons);
    rewrite Hcount; reflexivity.
Qed.

(** C10 on a video fixture in an environment without [window.aistudio]. *)
Lemma C10_without_studio :
  let w := videoWorld None (inr cleanedResponse) (Some onePixel) in
  (aistudio (env w) = None /\ key_gate (env w) = None /\
   API_KEY (env w) = Some "KEY" /\
   file (app w) = Some clipFixture /\ activeTab (app w) = VIDEO) /\
  (exists tail,
      run_events (reconstructVideoFromImage 3 "CLEANED" "image/jpeg") w =
        EvGenerateVideos (videoRequest "CLEANED" "image/jpeg") :: tail /\
      count is_key_check tail = 0) /\
  count is_key_check (run_events (handleRemoveWatermark 3) w) = 0 /\
  In (EvGenerateVideos (videoRequest "CLEANED" "image/jpeg"))
     (run_events (handleRemoveWatermark 3) w).
Proof.
  intro w.
  destruct C10_no_studio_no_gate as [Hclient Hflow].
  split; [repeat split|].
  split; [apply (Hclient w 3 "CLEANED" "image/jpeg" eq_refl eq_refl)|].
  destruct (Hflow w clipFixture 3 onePixel cleanedResponse "CLEANED"
              eq_refl eq_refl eq_refl eq_refl eq_refl eq_refl eq_refl eq_refl)
    as (tail & Htail & Hcount).
  split; [exact Hcount|].
  rewrite Htail. apply in_or_app. left. cbn. tauto.
Defined.

(* ================================================================== *)
(** * Part III. Further properties of the code *)
(* ================================================================== *)

(** ** Failures of the image flow *)

(** X1. When the file cannot be read, [fileToBase64] rejects with the
    reader's event, which has no [message]: the run ends in [error] with the
    fallback text, in either tab, and nothing else has happened. *)
Theorem read_failure_reports_fallback (w : World) (f : File) (fuel : nat) :
  file (app w) = Some f ->
  unreadable (env w) f = true ->
  handleRemoveWatermark fuel w =
    mkRun (Returned tt)
          (with_status (errorState "Failed to process file.") w)
          [EvSetStatus (working None 10);
           EvReadAsDataURL f;
           EvSetStatus (errorState "Failed to process file.")].
Proof.
  intros Hf Hr. unfold with_status, run.
  destruct w as [e a sq kq ou]; destruct a. fields. subst.
  unfold handleRemoveWatermark, fileToBase64. exec. rewrite Hr. exec.
  reflexivity.
Qed.

Lemma read_failure_on_fixture :
  file (app (unreadableWorld VIDEO)) = Some pngFixture /\
  unreadable (env (unreadableWorld VIDEO)) pngFixture = true /\
  appStatus (app (run (handleRemoveWatermark 3) (unreadableWorld VIDEO)))
    = errorState "Failed to process file." /\
  resultUrl (app (run (handleRemoveWatermark 3) (unreadableWorld VIDEO)))
    = Some "data:image/png;base64,OLD" /\
  count is_remote_call (run_events (handleRemoveWatermark 3) (unreadableWorld VIDEO)) = 0.
Proof.
  pose proof (read_failure_reports_fallback (unreadableWorld VIDEO) pngFixture 3
                eq_refl eq_refl) as H.
  split; [reflexivity|]. split; [reflexivity|].
  unfold run, run_events. rewrite H. repeat split.
Defined.

(** X2. When the edit call of the image flow fails, the run ends in [error]
    showing the message of what was thrown (the fallback text when that
    message is empty), after the client has logged it; the stored result and
    the selected file are as before. *)
Theorem image_failure_shows_message (w : World) (f : File) (fuel : nat) (e : Thrown) :
  file (app w) = Some f ->
  activeTab (app w) = IMAGE ->
  unreadable (env w) f = false ->
  result (removeImageWatermark (after_first_comma (readAsDataURL f)) (file_type f)) w
    = Threw e ->
  let shown := errorState (or_else (error_message e) "Failed to process file.") in
  handleRemoveWatermark fuel w =
    mkRun (Returned tt) (with_status shown w)
          [EvSetStatus (working None 10);
           EvReadAsDataURL f;
           EvSetStatus (working (Some "Analyzing image structure...") 30);
           EvSetTimeout 500;
           EvSetStatus (working (Some "Removing watermark patterns...") 60);
           EvGenerateContent
             (editRequest (after_first_comma (readAsDataURL f)) (file_type f));
           EvConsoleError "Error removing watermark:" e;
           EvSetStatus shown].
Proof.
  intros Hf Ht Hr He shown. subst shown. unfold with_status, run.
  unfold result in He. rewrite removeImageWatermark_unfold in He. cbv zeta in He.
  destruct w as [en a sq kq ou]; destruct a. fields. subst.
  unfold handleRemoveWatermark, fileToBase64, imageFlow. exec. rewrite Hr. exec.
  rewrite removeImageWatermark_unfold. fields.
  destruct (generateContent en _) as [err|r]; [|destruct (scan_parts _)];
    cbn [outcome] in He; try discriminate; injection He as <-; exec; reflexivity.
Qed.

Lemma image_failure_on_fixture :
  let w := imageWorld (inr textOnlyResponse) (Some "data:image/png;base64,OLD") in
  result (removeImageWatermark (after_first_comma (readAsDataURL pngFixture)) "image/png") w
    = Threw noImageData /\
  appStatus (app (run (handleRemoveWatermark 0) w))
    = errorState "No image data returned from the model." /\
  resultUrl (app (run (handleRemoveWatermark 0) w)) = Some "data:image/png;base64,OLD".
Proof.
  intro w.
  pose proof (image_failure_shows_message w pngFixture 0 noImageData
                eq_refl eq_refl eq_refl eq_refl) as H.
  split; [reflexivity|]. unfold run. rewrite H. split; reflexivity.
Defined.

(** ** What the image-edit client gives back *)

Lemma scan_parts_found (ps : list Part) (d : string) :
  scan_parts ps = Some d -> exists p, In p ps /\ image_data p = Some d.
Proof.
  induction ps as [|q ps IH]; [discriminate|]. cbn.
  destruct (image_data q) eqn:Hq.
  - intros [= <-]. exists q. auto.
  - intro H. destruct (IH H) as (p & Hin & Hp). exists p. auto.
Qed.

(** X3. Whatever the client returns is a non-empty string, and it is the
    inline data of a part of the first candidate of the answer: never a text
    part, never an empty payload. *)
Theorem returned_image_is_inline_data (w : World) (b : option string)
  (m d : string) :
  result (removeImageWatermark b m) w = Returned d ->
  truthy_string d = true /\
  exists r p inline,
    generateContent (env w) (editRequest b m) = inr r /\
    In p (response_parts r) /\
    part_inlineData p = Some inline /\
    inline_data inline = Some d.
Proof.
  unfold result. rewrite removeImageWatermark_unfold. cbv zeta.
  destruct (generateContent (env w) (editRequest b m)) as [e|r]; [discriminate|].
  destruct (scan_parts (response_parts r)) as [d'|] eqn:Hscan; [|discriminate].
  cbn. intros [= <-].
  destruct (scan_parts_found _ _ Hscan) as (p & Hin & Hp).
  unfold image_data in Hp.
  destruct (part_inlineData p) as [inline|] eqn:Hi; [|discriminate].
  destruct (inline_data inline) as [s|] eqn:Hs; [|discriminate].
  destruct (truthy_string s) eqn:Ht; [|discriminate].
  injection Hp as <-. split; [exact Ht|].
  exists r, p, inline. auto.
Qed.

Lemma returned_image_on_fixture :
  result (removeImageWatermark (Some "QUJD") "image/png")
         (imageWorld (inr cleanedResponse) None) = Returned "CLEANED" /\
  truthy_string "CLEANED" = true /\
  exists r p inline,
    generateContent (env (imageWorld (inr cleanedResponse) None))
                    (editRequest (Some "QUJD") "image/png") = inr r /\
    In p (response_parts r) /\
    part_inlineData p = Some inline /\
    inline_data inline = Some "CLEANED".
Proof.
  split; [reflexivity|].
  exact (returned_image_is_inline_data (imageWorld (inr cleanedResponse) None)
           (Some "QUJD") "image/png" "CLEANED" eq_refl).
Defined.

(** X4. Only the parts of the first candidate are looked at, through the
    optional chain: an answer without candidates, with an empty list of
    candidates, or whose first candidate has no content, no parts or no part
    with image data makes the client throw the "no image data" error (not a
    TypeError), whatever the other candidates carry. *)
Theorem only_first_candidate_counts (w : World) (b : option string) (m : string)
  (r : GenerateContentResponse) :
  generateContent (env w) (editRequest b m) = inr r ->
  (candidates r = None \/
   candidates r = Some [] \/
   exists c others,
     candidates r = Some (c :: others) /\
     (content c = None \/
      exists ct, content c = Some ct /\
                 (parts ct = None \/
                  exists ps, parts ct = Some ps /\
                             Forall (fun q => image_data q = None) ps))) ->
  removeImageWatermark b m w =
    mkRun (Threw noImageData) w
          [EvGenerateContent (editRequest b m);
           EvConsoleError "Error removing watermark:" noImageData].
Proof.
  intros Hr Hshape. rewrite removeImageWatermark_unfold. cbv zeta. rewrite Hr.
  assert (scan_parts (response_parts r) = None) as ->; [|reflexivity].
  unfold response_parts.
  destruct Hshape as [-> | [-> | (c & others & -> & Hc)]]; try reflexivity.
  destruct Hc as [-> | (ct & -> & Hct)]; [reflexivity|].
  destruct Hct as [-> | (ps & -> & Hps)]; [reflexivity|].
  now apply scan_parts_none.
Qed.

Lemma image_in_second_candidate_is_ignored :
  let w := imageWorld (inr secondCandidateResponse) None in
  generateContent (env w) (editRequest (Some "QUJD") "image/png")
    = inr secondCandidateResponse /\
  result (removeImageWatermark (Some "QUJD") "image/png") w = Threw noImageData.
Proof.
  intro w. split; [reflexivity|].
  unfold result.
  rewrite (only_first_candidate_counts w (Some "QUJD") "image/png"
             secondCandidateResponse eq_refl).
  - reflexivity.
  - right. right.
    exists (mkCandidate (Some (mkContent (Some [textPart "no"])))),
           [mkCandidate (Some (mkContent (Some [binaryPart "image/png" "LATE"])))].
    split; [reflexivity|]. right.
    exists (mkContent (Some [textPart "no"])). split; [reflexivity|]. right.
    exists [textPart "no"]. split; [reflexivity|].
    constructor; [reflexivity | constructor].
Defined.

(** ** Failures of the video-job client *)

(** X5. The client's own key check: when [hasSelectedApiKey] answers false
    the client throws the "paid API key" error at once; nothing is submitted
    and, the check being outside the [try], nothing is logged. *)
Theorem client_gate_refuses (w : World) (answers : nat -> bool) (fuel : nat)
  (b m : string) :
  key_gate (env w) = Some answers ->
  answers (keyQueries w) = false ->
  reconstructVideoFromImage fuel b m w =
    mkRun (Threw noPaidKey) (gated w) [EvHasSelectedApiKey false].
Proof.
  intros Hg Ha. unfold reconstructVideoFromImage, gated. exec.
  rewrite Hg. exec. rewrite Ha. reflexivity.
Qed.

Lemma client_gate_on_fixture :
  let w := jobWorld (Some (studioAnswering false)) (inr (pendingJob "job-0")) twoPending
                    (inr (mkFetched (inr [x01]))) in
  key_gate (env w) = Some (fun _ => false) /\
  result (reconstructVideoFromImage 3 "CLEANED" "image/jpeg") w = Threw noPaidKey /\
  count is_remote_call (run_events (reconstructVideoFromImage 3 "CLEANED" "image/jpeg") w) = 0 /\
  count is_console_error (run_events (reconstructVideoFromImage 3 "CLEANED" "image/jpeg") w) = 0.
Proof.
  intro w.
  pose proof (client_gate_refuses w (fun _ => false) 3 "CLEANED" "image/jpeg"
                eq_refl eq_refl) as H.
  split; [reflexivity|]. unfold result, run_events. rewrite H. repeat split.
Defined.

(** X18. The client builds its own SDK instance from [process.env.API_KEY]
    after its key check and outside the [try]: when the variable is
    undefined the constructor throws, nothing is submitted and nothing is
    logged. *)
Theorem client_needs_api_key (w : World) (fuel : nat) (b m : string) :
  gate_open w ->
  API_KEY (env w) = None ->
  reconstructVideoFromImage fuel b m w =
    mkRun (Threw noApiKey) (gated w) (gate_events w).
Proof.
  unfold gate_open, gate_events, gated, reconstructVideoFromImage.
  unfold bind at 1, get_env at 1. fields. unfold bind at 1.
  destruct (key_gate (env w)) as [answers|]; intros Hopen Hkey; rewrite Hkey.
  - unfold bind at 1, askHasSelectedApiKey at 1. fields. rewrite Hopen.
    fields. unfold newGoogleGenAI, bind at 1. fields. reflexivity.
  - fields. unfold newGoogleGenAI, bind at 1. fields. reflexivity.
Qed.

Lemma client_needs_api_key_on_fixture :
  let w := keylessWorld (Some (studioAnswering true)) in
  (gate_open w /\ API_KEY (env w) = None) /\
  result (reconstructVideoFromImage 3 "CLEANED" "image/jpeg") w = Threw noApiKey /\
  run_events (reconstructVideoFromImage 3 "CLEANED" "image/jpeg") w
    = [EvHasSelectedApiKey true] /\
  appStatus (app (run (handleRemoveWatermark 3) w))
    = errorState "An API Key must be set when running in a browser".
Proof.
  intro w.
  pose proof (client_needs_api_key w 3 "CLEANED" "image/jpeg" eq_refl eq_refl) as H.
  split; [split; reflexivity|].
  unfold result, run_events. rewrite H. repeat split.
Defined.

(** X6. A submission that fails is logged and rethrown as it is: no status
    query, no fetch. *)
Theorem submission_failure_propagates (w : World) (fuel : nat) (b m : string)
  (e : Thrown) :
  gate_open w ->
  client_built (env w) = true ->
  generateVideos (env w) (videoRequest b m) = inl e ->
  reconstructVideoFromImage fuel b m w =
    mkRun (Threw e) (gated w)
          (gate_events w ++ [EvGenerateVideos (videoRequest b m);
                             EvConsoleError "Error generating video:" e]).
Proof.
  intros Hgate Hkey Hsub. rewrite (gate_passes w fuel b m Hgate Hkey).
  destruct (gated_same w) as (He & _).
  unfold try_catch, generateAndFetch, call. exec. rewrite He, Hsub.
  cbn [settle]. exec. reflexivity.
Qed.

Lemma submission_failure_on_fixture :
  let w := jobWorld None (inl (JsError "429 RESOURCE_EXHAUSTED")) twoPending
                    (inr (mkFetched (inr [x01]))) in
  gate_open w /\
  generateVideos (env w) (videoRequest "CLEANED" "image/jpeg")
    = inl (JsError "429 RESOURCE_EXHAUSTED") /\
  result (reconstructVideoFromImage 3 "CLEANED" "image/jpeg") w
    = Threw (JsError "429 RESOURCE_EXHAUSTED") /\
  count is_status_fetch (run_events (reconstructVideoFromImage 3 "CLEANED" "image/jpeg") w) = 0.
Proof.
  intro w.
  pose proof (submission_failure_propagates w 3 "CLEANED" "image/jpeg"
                (JsError "429 RESOURCE_EXHAUSTED") I eq_refl eq_refl) as H.
  split; [exact I|]. split; [reflexivity|].
  unfold result, run_events. rewrite H. split; reflexivity.
Defined.

Lemma poll_rejected (held : list Operation) (last : Operation) (e : Thrown) :
  forall (w : World) (fuel : nat),
    Forall (fun o => is_done o = false) (held ++ [last]) ->
    status_script w (held ++ [last]) (tl (held ++ [last])) ->
    getVideosOperation (env w) (statusQueries w + length held) last = inl e ->
    length held < fuel ->
    poll fuel (hd last held) w
      = mkRun (Threw e) (polled w (held ++ [last])) (polling (held ++ [last])).
Proof.
  induction held as [|h held IH]; intros w fuel Hp Hs He Hfuel;
    (destruct fuel as [|fuel]; [cbn in Hfuel; lia|]);
    inversion Hp as [|? ? Hh Hp']; subst.
  - cbn [hd poll List.app]. rewrite Hh.
    unfold sleep, getStatus. exec.
    cbn [length] in He. rewrite Nat.add_0_r in He. rewrite He.
    cbn [settle]. exec. unfold polled. cbn.
    do 2 f_equal. lia.
  - cbn [hd poll]. rewrite Hh.
    unfold sleep, getStatus. exec.
    assert (getVideosOperation (env w) (statusQueries w) h = inr (hd last held)) as Hq.
    { rewrite <- (Nat.add_0_r (statusQueries w)). apply Hs; [reflexivity|].
      cbn. destruct held; reflexivity. }
    rewrite Hq. cbn [settle]. exec.
    rewrite IH; auto.
    + unfold polled. fields. cbn [polling flat_map List.app length].
      f_equal. f_equal. lia.
    + intros k h' o Hk Ho. fields.
      replace (S (statusQueries w) + k) with (statusQueries w + S k) by lia.
      apply Hs; [exact Hk|].
      cbn. cbn in Ho. destruct held; [destruct k; discriminate|exact Ho].
    + fields. cbn [length] in He.
      replace (S (statusQueries w) + length held)
        with (statusQueries w + S (length held)) by lia. exact He.
    + cbn in Hfuel. lia.
Qed.

(** X7. A status query that fails ends the poll loop at once: after the
    queries answered "not done", the error of the failing query is logged and
    rethrown as it is, and no asset is fetched. *)
Theorem polling_failure_propagates (w : World) (b m : string)
  (held : list Operation) (last : Operation) (e : Thrown) (fuel : nat) :
  gate_open w ->
  client_built (env w) = true ->
  generateVideos (env w) (videoRequest b m) = inr (hd last held) ->
  Forall (fun o => is_done o = false) (held ++ [last]) ->
  status_script w (held ++ [last]) (tl (held ++ [last])) ->
  getVideosOperation (env w) (statusQueries w + length held) last = inl e ->
  length held < fuel ->
  let made := run_events (reconstructVideoFromImage fuel b m) w in
  result (reconstructVideoFromImage fuel b m) w = Threw e /\
  made =
    gate_events w ++ [EvGenerateVideos (videoRequest b m)]
      ++ polling (held ++ [last])
      ++ [EvConsoleError "Error generating video:" e] /\
  count is_status_fetch made = S (length held) /\
  count is_asset_fetch made = 0.
Proof.
  intros Hgate Hkey Hsub Hp Hs He Hfuel made.
  destruct (gated_same w) as (Hen & Hsq & _).
  assert (reconstructVideoFromImage fuel b m w =
            mkRun (Threw e) (polled (gated w) (held ++ [last]))
                  (gate_events w ++ [EvGenerateVideos (videoRequest b m)]
                     ++ polling (held ++ [last])
                     ++ [EvConsoleError "Error generating video:" e])) as Hrun.
  { rewrite (gate_passes w fuel b m Hgate Hkey).
    unfold try_catch, generateAndFetch, call. exec. rewrite Hen, Hsub.
    cbn [settle]. exec. unfold awaitVideo. exec.
    rewrite (poll_rejected held last e);
      [| exact Hp | eapply status_script_transfer; eauto
       | now rewrite Hen, Hsq | exact Hfuel].
    exec. rewrite <- ?app_assoc. reflexivity. }
  subst made. unfold result, run_events. rewrite Hrun. cbn [outcome events].
  split; [reflexivity|]. split; [reflexivity|].
  destruct (count_polling (held ++ [last])) as [Hq Hf].
  destruct (count_gate_events w) as [Hg1 Hg2].
  rewrite !count_app, Hg1, Hg2, Hq, Hf, length_app. cbn. split; lia.
Qed.

Lemma polling_failure_on_fixture :
  let w := jobWorld None (inr (pendingJob "job-0")) [pendingJob "job-1"]
                    (inr (mkFetched (inr [x01]))) in
  let made := run_events (reconstructVideoFromImage 5 "CLEANED" "image/jpeg") w in
  getVideosOperation (env w) 1 (pendingJob "job-1") = inl scriptExhausted /\
  result (reconstructVideoFromImage 5 "CLEANED" "image/jpeg") w = Threw scriptExhausted /\
  count is_status_fetch made = 2 /\
  count is_asset_fetch made = 0.
Proof.
  intros w made.
  assert (status_script w ([pendingJob "job-0"] ++ [pendingJob "job-1"])
            (tl ([pendingJob "job-0"] ++ [pendingJob "job-1"]))) as Hs.
  { intros k h o _ Ho. cbn. unfold scripted. cbn in Ho. now rewrite Ho. }
  assert (Forall (fun o => is_done o = false)
                 ([pendingJob "job-0"] ++ [pendingJob "job-1"])) as Hp
    by (repeat constructor).
  destruct (polling_failure_propagates w "CLEANED" "image/jpeg"
              [pendingJob "job-0"] (pendingJob "job-1") scriptExhausted 5
              I eq_refl eq_refl Hp Hs eq_refl (le_S _ _ (le_S _ _ (le_S _ _ (le_n 2)))))
    as (R & _ & Q & F).
  split; [reflexivity|]. split; [exact R|]. split; [exact Q | exact F].
Defined.

(** X8. Once the job is done and has a locator, a fetch that fails (or a
    body that cannot be read) is logged and rethrown as it is, and no object
    URL is created. *)
Theorem fetch_failure_propagates (w : World) (b m : string)
  (pending : list Operation) (final : Operation) (link : string)
  (e : Thrown) (fuel : nat) :
  gate_open w ->
  client_built (env w) = true ->
  generateVideos (env w) (videoRequest b m) = inr (hd final pending) ->
  Forall (fun o => is_done o = false) pending ->
  is_done final = true ->
  status_script w pending (tl (pending ++ [final])) ->
  length pending <= fuel ->
  downloadLink final = Some link ->
  truthy_string link = true ->
  (fetch (env w) (keyed (env w) link) = inl e \/
   exists r, fetch (env w) (keyed (env w) link) = inr r /\ blob r = inl e) ->
  reconstructVideoFromImage fuel b m w =
    mkRun (Threw e) (polled (gated w) pending)
          (gate_events w ++ [EvGenerateVideos (videoRequest b m)]
             ++ polling pending
             ++ [EvFetch (keyed (env w) link);
                 EvConsoleError "Error generating video:" e]).
Proof.
  intros Hgate Hkey Hsub Hp Hf Hs Hfuel Hlink Htruthy Hfail.
  destruct (gated_same w) as (Hen & Hsq & _).
  rewrite (gate_passes w fuel b m Hgate Hkey). unfold try_catch.
  rewrite (generateAndFetch_scripted pending final (gated w) fuel b m); auto;
    [|now rewrite Hen | eapply status_script_transfer; eauto].
  unfold no_locator. rewrite Hlink, Htruthy. cbn [negb template]. cbv zeta.
  rewrite Hen.
  destruct Hfail as [-> | (r & -> & ->)]; exec;
    rewrite <- ?app_assoc; reflexivity.
Qed.

Lemma fetch_failure_on_fixture :
  let w := jobWorld None (inr (pendingJob "job-0")) twoPending
                    (inl (JsError "Failed to fetch")) in
  let made := run_events (reconstructVideoFromImage 3 "CLEANED" "image/jpeg") w in
  fetch (env w) (keyed (env w) "https://v/1?alt=media") = inl (JsError "Failed to fetch") /\
  result (reconstructVideoFromImage 3 "CLEANED" "image/jpeg") w
    = Threw (JsError "Failed to fetch") /\
  count is_asset_fetch made = 1 /\
  In (EvConsoleError "Error generating video:" (JsError "Failed to fetch")) made.
Proof.
  intros w made.
  assert (status_script w [pendingJob "job-0"; pendingJob "job-1"; pendingJob "job-2"]
            (tl ([pendingJob "job-0"; pendingJob "job-1"; pendingJob "job-2"]
                   ++ [finishedJob "job-3" (Some "https://v/1?alt=media")]))) as Hs.
  { intros k h o _ Ho. cbn. unfold scripted, twoPending. cbn in Ho. now rewrite Ho. }
  assert (Forall (fun o => is_done o = false)
                 [pendingJob "job-0"; pendingJob "job-1"; pendingJob "job-2"]) as Hp
    by (repeat constructor).
  pose proof (fetch_failure_propagates w "CLEANED" "image/jpeg"
                [pendingJob "job-0"; pendingJob "job-1"; pendingJob "job-2"]
                (finishedJob "job-3" (Some "https://v/1?alt=media"))
                "https://v/1?alt=media" (JsError "Failed to fetch") 3
                I eq_refl eq_refl Hp eq_refl Hs (le_n 3) eq_refl eq_refl
                (or_introl eq_refl)) as H.
  split; [reflexivity|].
  subst made. unfold result, run_events. rewrite H.
  split; [reflexivity|]. split; [reflexivity|]. cbn. tauto.
Defined.

(** X9. A job that is already done when it is submitted is never waited for
    nor queried: the client goes from the submission straight to the fetch of
    its locator, whatever the bound on the loop. *)
Theorem done_at_submission_skips_polling (w : World) (b m : string)
  (final : Operation) (link : string) (fuel : nat) :
  gate_open w ->
  client_built (env w) = true ->
  generateVideos (env w) (videoRequest b m) = inr final ->
  is_done final = true ->
  downloadLink final = Some link ->
  truthy_string link = true ->
  let made := run_events (reconstructVideoFromImage fuel b m) w in
  (exists tail,
      made = gate_events w ++ [EvGenerateVideos (videoRequest b m);
                               EvFetch (keyed (env w) link)] ++ tail) /\
  count is_wait made = 0 /\
  count is_status_fetch made = 0.
Proof.
  intros Hgate Hkey Hsub Hf Hlink Htruthy made.
  destruct (gated_same w) as (Hen & Hsq & _).
  assert (count is_wait (gate_events w) = 0 /\
          count is_status_fetch (gate_events w) = 0) as [Hg1 Hg2]
    by (unfold gate_events; destruct (key_gate (env w)); now cbn).
  subst made. unfold run_events.
  rewrite (gate_passes w fuel b m Hgate Hkey), events_following. unfold try_catch.
  rewrite (generateAndFetch_scripted [] final (gated w) fuel b m);
    [| now rewrite Hen | constructor | exact Hf | intros k h o Hk; destruct k; discriminate
     | cbn; lia].
  unfold no_locator. rewrite Hlink, Htruthy. cbn [negb template]. cbv zeta.
  rewrite Hen.
  destruct (fetch (env w) (keyed (env w) link)) as [e|r];
    [|destruct (blob r) as [e|bytes] ]; unfold createObjectURL; exec;
    (split; [eexists; reflexivity|]);
    rewrite !count_app, Hg1, Hg2; split; reflexivity.
Qed.

Lemma done_at_submission_on_fixture :
  let w := jobWorld None (inr (finishedJob "job-0" (Some "https://v/0"))) []
                    (inr (mkFetched (inr [x01]))) in
  let made := run_events (reconstructVideoFromImage 0 "CLEANED" "image/jpeg") w in
  is_done (finishedJob "job-0" (Some "https://v/0")) = true /\
  (exists tail,
      made = [EvGenerateVideos (videoRequest "CLEANED" "image/jpeg");
              EvFetch "https://v/0&key=KEY"] ++ tail) /\
  count is_wait made = 0 /\
  count is_status_fetch made = 0.
Proof.
  intros w made.
  destruct (done_at_submission_skips_polling w "CLEANED" "image/jpeg"
              (finishedJob "job-0" (Some "https://v/0")) "https://v/0" 0
              I eq_refl eq_refl eq_refl eq_refl eq_refl) as (T & W & Q).
  split; [reflexivity|]. split; [exact T|]. split; [exact W | exact Q].
Defined.

Lemma poll_never_done (fuel : nat) :
  forall (w : World) (held : Operation),
    is_done held = false ->
    (forall k h, exists o, getVideosOperation (env w) k h = inr o /\ is_done o = false) ->
    result (poll fuel held) w = OutOfFuel /\
    count is_status_fetch (run_events (poll fuel held) w) = fuel /\
    count is_wait (run_events (poll fuel held) w) = fuel.
Proof.
  induction fuel as [|fuel IH]; intros w held Hh Hnever.
  - cbn. rewrite Hh. repeat split.
  - unfold result, run_events. cbn [poll]. rewrite Hh.
    unfold sleep, getStatus. exec.
    destruct (Hnever (statusQueries w) held) as (o & -> & Ho).
    cbn [settle]. exec.
    match goal with
    | |- context [poll fuel o ?w1] =>
        destruct (IH w1 o Ho Hnever) as (R & Q & W);
        unfold result, run_events in R, Q, W;
        destruct (poll fuel o w1) as [out w2 evs]
    end.
    cbn [outcome events] in *. subst out. exec.
    rewrite !count_cons, Q, W. cbn. auto.
Qed.

(** X10. The poll loop has no bound of its own: while the status service
    keeps answering "not done", the client keeps waiting and asking; after
    any number of rounds it has neither returned nor thrown, and it has
    fetched nothing. *)
Theorem polling_never_gives_up (w : World) (b m : string) (submitted : Operation)
  (fuel : nat) :
  gate_open w ->
  client_built (env w) = true ->
  generateVideos (env w) (videoRequest b m) = inr submitted ->
  is_done submitted = false ->
  (forall k h, exists o, getVideosOperation (env w) k h = inr o /\ is_done o = false) ->
  let made := run_events (reconstructVideoFromImage fuel b m) w in
  result (reconstructVideoFromImage fuel b m) w = OutOfFuel /\
  count is_status_fetch made = fuel /\
  count is_wait made = fuel /\
  count is_asset_fetch made = 0.
Proof.
  intros Hgate Hkey Hsub Hs Hnever made.
  destruct (gated_same w) as (Hen & Hsq & _).
  assert (count is_wait (gate_events w) = 0 /\
          count is_status_fetch (gate_events w) = 0 /\
          count is_asset_fetch (gate_events w) = 0) as (Hg1 & Hg2 & Hg3)
    by (unfold gate_events; destruct (key_gate (env w)); now cbn).
  subst made. unfold result, run_events.
  rewrite (gate_passes w fuel b m Hgate Hkey), events_following, outcome_following.
  unfold try_catch, generateAndFetch, call. exec. rewrite Hen, Hsub.
  cbn [settle]. exec. unfold awaitVideo. exec.
  assert (forall k h, exists o,
            getVideosOperation (env (gated w)) k h = inr o /\ is_done o = false)
    as Hnever' by (now rewrite Hen).
  destruct (poll_never_done fuel (gated w) submitted Hs Hnever') as (R & Q & W).
  destruct (poll_footprint fuel submitted (gated w)) as (_ & _ & Hp).
  assert (count is_asset_fetch (run_events (poll fuel submitted) (gated w)) = 0) as F.
  { eapply count_none; [|exact Hp]. now intros []. }
  unfold result, run_events in R, Q, W, F.
  destruct (poll fuel submitted (gated w)) as [out w2 evs].
  cbn [outcome events] in *. subst out. exec.
  rewrite !count_app, !count_cons, Hg1, Hg2, Hg3, Q, W, F. cbn. auto.
Qed.

Lemma polling_never_gives_up_on_fixture :
  let made := run_events (reconstructVideoFromImage 7 "CLEANED" "image/jpeg") stalledWorld in
  is_done (pendingJob "job-0") = false /\
  result (reconstructVideoFromImage 7 "CLEANED" "image/jpeg") stalledWorld = OutOfFuel /\
  count is_status_fetch made = 7 /\
  count is_asset_fetch made = 0.
Proof.
  intro made.
  assert (forall (k : nat) (h : Operation), exists o,
            getVideosOperation (env stalledWorld) k h = inr o /\ is_done o = false)
    as Hnever by (intros k h; exists (pendingJob "job-0"); split; reflexivity).
  destruct (polling_never_gives_up stalledWorld "CLEANED" "image/jpeg"
              (pendingJob "job-0") 7 I eq_refl eq_refl eq_refl Hnever) as (R & Q & _ & F).
  split; [reflexivity|]. split; [exact R|]. split; [exact Q | exact F].
Defined.

(** ** The video flow as a whole *)

Section WholeVideoFlow.

(** The video flow after its key check, the frame loaded and cleaned: what
    is left is the call of the video-job client. *)
Lemma authorized_run (w : World) (fuel : nat) (preview : option string)
  (v : VideoData) (r : GenerateContentResponse) (clean : string) :
  loadVideo (env w) (video_src preview) = Some v ->
  generateContent (env w)
    (editRequest (after_first_comma (toDataURL v)) "image/jpeg") = inr r ->
  scan_parts (response_parts r) = Some clean ->
  try_catch (videoFlowAuthorized fuel preview) reportError w =
    following (frameCleaned preview v)
      (try_catch (rebuildAndStore fuel clean) reportError
         (with_status
            (working (Some "Reconstructing video stream (this may take a minute)...") 70)
            w)).
Proof.
  intros Hload Hedit Hscan.
  unfold try_catch at 1. rewrite videoFlowAuthorized_unfold. cbv zeta.
  rewrite Hload. unfold with_status, run, frameCleaned, rebuildAndStore.
  destruct w as [e a sq kq ou]; destruct a. unfold setStatus. fields.
  unfold reconstructFlow, bind at 1, setStatus. fields.
  unfold bind at 1. rewrite removeImageWatermark_unfold. cbv zeta. fields.
  rewrite Hedit, Hscan.
  unfold bind at 1. fields.
  unfold try_catch, bind at 1, bind at 2. fields.
  match goal with
  | |- context [reconstructVideoFromImage fuel clean "image/jpeg" ?w3] =>
      destruct (reconstructVideoFromImage fuel clean "image/jpeg" w3)
        as [[url|err| |] w4 evs]
  end; unfold reportError; exec; reflexivity.
Qed.

(** The same, when the edit call throws. *)
Lemma authorized_edit_fails (w : World) (fuel : nat) (preview : option string)
  (v : VideoData) (e : Thrown) :
  loadVideo (env w) (video_src preview) = Some v ->
  result (removeImageWatermark (after_first_comma (toDataURL v)) "image/jpeg") w
    = Threw e ->
  let shown := errorState (or_else (error_message e) "Failed to process file.") in
  try_catch (videoFlowAuthorized fuel preview) reportError w =
    mkRun (Returned tt) (with_status shown w)
          [EvSetStatus (working (Some "Extracting reference frame...") 30);
           EvLoadVideo (video_src preview);
           EvSetTimeout 200;
           EvToDataURL (videoWidth v) (videoHeight v);
           EvSetStatus (working (Some "Cleaning reference frame...") 50);
           EvGenerateContent (editRequest (after_first_comma (toDataURL v)) "image/jpeg");
           EvConsoleError "Error removing watermark:" e;
           EvSetStatus shown].
Proof.
  intros Hload He shown. subst shown.
  unfold result in He. rewrite removeImageWatermark_unfold in He. cbv zeta in He.
  unfold try_catch at 1. rewrite videoFlowAuthorized_unfold. cbv zeta.
  rewrite Hload. unfold with_status, run.
  destruct w as [en a sq kq ou]; destruct a. unfold setStatus. fields.
  unfold reconstructFlow, bind at 1, setStatus. fields.
  unfold bind at 1. rewrite removeImageWatermark_unfold. cbv zeta. fields.
  destruct (generateContent en _) as [err|r]; [|destruct (scan_parts _)];
    cbn [outcome] in He; try discriminate; injection He as <-;
    unfold reportError; exec; reflexivity.
Qed.

Lemma status_gated (s : ProcessingState) (w : World) :
  with_status s (gated w) = gated (with_status s w).
Proof. unfold gated, with_status, run. cbn. now destruct (key_gate (env w)). Qed.

Lemma gated_some (w : World) (answers : nat -> bool) :
  key_gate (env w) = Some answers ->
  gated w = mkWorld (env w) (app w) (statusQueries w) (S (keyQueries w))
                    (objectURLs w).
Proof. unfold gated. now intros ->. Qed.

Lemma removeImageWatermark_env (b : option string) (m : string) (w w' : World) :
  env w' = env w ->
  result (removeImageWatermark b m) w' = result (removeImageWatermark b m) w.
Proof.
  intro He. unfold result. rewrite !removeImageWatermark_unfold. cbv zeta.
  rewrite He. destruct (generateContent _ _) as [e|r]; [reflexivity|].
  now destruct (scan_parts _).
Qed.

Lemma count_gate (p : Event -> bool) (w : World) :
  (forall b, p (EvHasSelectedApiKey b) = false) -> count p (gate_events w) = 0.
Proof.
  intro Hp. unfold gate_events. destruct (key_gate (env w)); [|reflexivity].
  unfold count. cbn. now rewrite Hp.
Qed.

(** The client against the script, when the fetch succeeds. *)
Lemma reconstruct_succeeds (w : World) (b m : string)
  (pending : list Operation) (final : Operation) (link : string)
  (r : FetchResponse) (bytes : list byte) (fuel : nat) :
  gate_open w ->
  client_built (env w) = true ->
  generateVideos (env w) (videoRequest b m) = inr (hd final pending) ->
  Forall (fun o => is_done o = false) pending ->
  is_done final = true ->
  status_script w pending (tl (pending ++ [final])) ->
  length pending <= fuel ->
  downloadLink final = Some link ->
  truthy_string link = true ->
  fetch (env w) (keyed (env w) link) = inr r ->
  blob r = inr bytes ->
  reconstructVideoFromImage fuel b m w =
    following
      (gate_events w ++ [EvGenerateVideos (videoRequest b m)]
         ++ polling pending ++ [EvFetch (keyed (env w) link)])
      (createObjectURL bytes (polled (gated w) pending)).
Proof.
  intros Hgate Hkey Hsub Hp Hf Hs Hfuel Hlink Htruthy Hfetch Hblob.
  destruct (gated_same w) as (Hen & Hsq & _).
  rewrite (gate_passes w fuel b m Hgate Hkey). unfold try_catch.
  rewrite (generateAndFetch_scripted pending final (gated w) fuel b m); auto;
    [|now rewrite Hen | eapply status_script_transfer; eauto].
  unfold no_locator. rewrite Hlink, Htruthy. cbn [negb template]. cbv zeta.
  rewrite Hen, Hfetch, Hblob. unfold createObjectURL. exec.
  f_equal. rewrite <- ?app_assoc. cbn [List.app]. now rewrite <- ?app_assoc.
Qed.

Lemma reconstruct_refused (w : World) (answers : nat -> bool) (fuel : nat)
  (b m : string) :
  key_gate (env w) = Some answers ->
  answers (keyQueries w) = false ->
  reconstructVideoFromImage fuel b m w =
    mkRun (Threw noPaidKey) (gated w) [EvHasSelectedApiKey false].
Proof.
  intros Hg Ha. unfold reconstructVideoFromImage, gated. exec.
  rewrite Hg. exec. rewrite Ha. reflexivity.
Qed.

End WholeVideoFlow.


(** X11. In the video flow, when the edit call for the captured frame fails
    the run ends in [error] with the message of what was thrown, and the
    video-generation service is never called. *)
Theorem video_edit_failure_stops_the_run (w : World) (f : File) (fuel : nat)
  (v : VideoData) (e : Thrown) :
  file (app w) = Some f ->
  activeTab (app w) = VIDEO ->
  unreadable (env w) f = false ->
  gate_open w ->
  loadVideo (env w) (video_src (previewUrl (app w))) = Some v ->
  result (removeImageWatermark (after_first_comma (toDataURL v)) "image/jpeg") w
    = Threw e ->
  let made := run_events (handleRemoveWatermark fuel) w in
  result (handleRemoveWatermark fuel) w = Returned tt /\
  appStatus (app (run (handleRemoveWatermark fuel) w))
    = errorState (or_else (error_message e) "Failed to process file.") /\
  resultUrl (app (run (handleRemoveWatermark fuel) w)) = resultUrl (app w) /\
  count is_submission made = 0 /\
  count is_edit_call made = 1.
Proof.
  intros Hf Ht Hr Hopen Hload He made. subst made.
  unfold result, run, run_events.
  rewrite (video_run_unfold w f fuel Hf Ht Hr Hopen).
  rewrite outcome_following, after_following, events_following.
  set (w1 := gated _).
  assert (env w1 = env w /\ resultUrl (app w1) = resultUrl (app w)) as [Hen Hres].
  { unfold w1. destruct (gated_same (with_status
       (working (Some "Video processing requires a paid API key. Checking...") 20) w))
      as (-> & _ & _ & ->). split; reflexivity. }
  rewrite (authorized_edit_fails w1 fuel (previewUrl (app w)) v e);
    [| now rewrite Hen | now rewrite (removeImageWatermark_env _ _ w w1 Hen)].
  cbn [outcome after events]. split; [reflexivity|]. split; [reflexivity|].
  split; [exact Hres|].
  rewrite !count_app, !(count_gate _ w) by reflexivity. split; reflexivity.
Qed.

Lemma video_edit_failure_on_fixture :
  let w := videoWorld None (inr textOnlyResponse) (Some onePixel) in
  result (removeImageWatermark (after_first_comma (toDataURL onePixel)) "image/jpeg") w
    = Threw noImageData /\
  appStatus (app (run (handleRemoveWatermark 3) w))
    = errorState "No image data returned from the model." /\
  count is_submission (run_events (handleRemoveWatermark 3) w) = 0.
Proof.
  intro w.
  destruct (video_edit_failure_stops_the_run w clipFixture 3 onePixel noImageData
              eq_refl eq_refl eq_refl I eq_refl eq_refl) as (_ & S & _ & Z & _).
  split; [reflexivity|]. split; [exact S | exact Z].
Defined.

(** X12. The key is checked twice, by the component and then by the client.
    When the first check answers true and the second false, the frame has
    already been sent to the edit service; the client then throws the "paid
    API key" error, the run ends in [error] with that message, and nothing is
    submitted. *)
Theorem key_withdrawn_between_checks (w : World) (f : File) (fuel : nat)
  (answers : nat -> bool) (v : VideoData) (r : GenerateContentResponse)
  (clean : string) :
  file (app w) = Some f ->
  activeTab (app w) = VIDEO ->
  unreadable (env w) f = false ->
  key_gate (env w) = Some answers ->
  answers (keyQueries w) = true ->
  answers (S (keyQueries w)) = false ->
  loadVideo (env w) (video_src (previewUrl (app w))) = Some v ->
  generateContent (env w)
    (editRequest (after_first_comma (toDataURL v)) "image/jpeg") = inr r ->
  scan_parts (response_parts r) = Some clean ->
  let made := run_events (handleRemoveWatermark fuel) w in
  result (handleRemoveWatermark fuel) w = Returned tt /\
  made =
    [EvSetStatus (working None 10); EvReadAsDataURL f;
     EvSetStatus (working (Some "Video processing requires a paid API key. Checking...") 20);
     EvHasSelectedApiKey true]
      ++ frameCleaned (previewUrl (app w)) v
      ++ [EvHasSelectedApiKey false;
          EvSetStatus (errorState "Please select a paid API key to use Video features.")] /\
  appStatus (app (run (handleRemoveWatermark fuel) w))
    = errorState "Please select a paid API key to use Video features." /\
  count is_edit_call made = 1 /\
  count is_submission made = 0.
Proof.
  intros Hf Ht Hr Hg Ha1 Ha2 Hload Hedit Hscan made.
  assert (gate_open w) as Hopen by (unfold gate_open; now rewrite Hg).
  assert (handleRemoveWatermark fuel w =
            mkRun (Returned tt)
                  (with_status
                     (errorState "Please select a paid API key to use Video features.")
                     (mkWorld (env w) (app w) (statusQueries w)
                              (S (S (keyQueries w))) (objectURLs w)))
                  ([EvSetStatus (working None 10); EvReadAsDataURL f;
                    EvSetStatus (working (Some "Video processing requires a paid API key. Checking...") 20);
                    EvHasSelectedApiKey true]
                     ++ frameCleaned (previewUrl (app w)) v
                     ++ [EvHasSelectedApiKey false;
                         EvSetStatus (errorState "Please select a paid API key to use Video features.")]))
    as Hrun.
  { rewrite (video_run_unfold w f fuel Hf Ht Hr Hopen).
    rewrite (gated_some _ answers) by exact Hg.
    match goal with
    | |- context [try_catch _ reportError ?w1] =>
        rewrite (authorized_run w1 fuel (previewUrl (app w)) v r clean Hload Hedit Hscan)
    end.
    unfold try_catch, rebuildAndStore, bind at 1.
    match goal with
    | |- context [reconstructVideoFromImage fuel clean "image/jpeg" ?w3] =>
        rewrite (reconstruct_refused w3 answers fuel clean "image/jpeg" Hg Ha2);
        rewrite (gated_some w3 answers) by exact Hg
    end.
    unfold gate_events. rewrite Hg, Ha1.
    unfold reportError, with_status, run, frameCleaned. exec. reflexivity. }
  subst made. unfold result, run, run_events. rewrite Hrun.
  cbn [outcome after events]. repeat split.
Qed.

Lemma key_withdrawn_on_fixture :
  let w := videoWorld (Some studioFlipping) (inr cleanedResponse) (Some onePixel) in
  (exists answers, key_gate (env w) = Some answers /\
                   answers 0 = true /\ answers 1 = false) /\
  appStatus (app (run (handleRemoveWatermark 3) w))
    = errorState "Please select a paid API key to use Video features." /\
  count is_edit_call (run_events (handleRemoveWatermark 3) w) = 1 /\
  count is_submission (run_events (handleRemoveWatermark 3) w) = 0.
Proof.
  intro w.
  destruct (key_withdrawn_between_checks w clipFixture 3
              (fun k => match k with O => true | S _ => false end)
              onePixel cleanedResponse "CLEANED"
              eq_refl eq_refl eq_refl eq_refl eq_refl eq_refl eq_refl eq_refl eq_refl)
    as (_ & _ & S & E & Z).
  split; [eexists; repeat split|].
  split; [exact S|]. split; [exact E | exact Z].
Defined.

(** X13. The video flow end to end: with both key checks passing, the frame
    loaded and cleaned, the job done after the scripted answers and the
    asset fetched, the run ends in [success] and the stored result is the
    object URL created for the fetched bytes; one edit call, one submission,
    one asset fetch. *)
Theorem video_flow_succeeds (w : World) (f : File) (fuel : nat)
  (v : VideoData) (r : GenerateContentResponse) (clean : string)
  (pending : list Operation) (final : Operation) (link : string)
  (fetched : FetchResponse) (bytes : list byte) :
  file (app w) = Some f ->
  activeTab (app w) = VIDEO ->
  unreadable (env w) f = false ->
  gate_open w ->
  gate_open (gated w) ->
  client_built (env w) = true ->
  loadVideo (env w) (video_src (previewUrl (app w))) = Some v ->
  generateContent (env w)
    (editRequest (after_first_comma (toDataURL v)) "image/jpeg") = inr r ->
  scan_parts (response_parts r) = Some clean ->
  generateVideos (env w) (videoRequest clean "image/jpeg") = inr (hd final pending) ->
  Forall (fun o => is_done o = false) pending ->
  is_done final = true ->
  status_script w pending (tl (pending ++ [final])) ->
  length pending <= fuel ->
  downloadLink final = Some link ->
  truthy_string link = true ->
  fetch (env w) (keyed (env w) link) = inr fetched ->
  blob fetched = inr bytes ->
  let made := run_events (handleRemoveWatermark fuel) w in
  result (handleRemoveWatermark fuel) w = Returned tt /\
  appStatus (app (run (handleRemoveWatermark fuel) w)) = successState /\
  resultUrl (app (run (handleRemoveWatermark fuel) w))
    = Some (objectURL (env w) (objectURLs w)) /\
  In (EvCreateObjectURL bytes) made /\
  count is_edit_call made = 1 /\
  count is_submission made = 1 /\
  count is_asset_fetch made = 1 /\
  count is_status_fetch made = length pending.
Proof.
  intros Hf Ht Hr Hopen Hopen2 Hkey Hload Hedit Hscan Hsub Hp Hfin Hs Hfuel Hlink
         Htruthy Hfetch Hblob made.
  set (s20 := working (Some "Video processing requires a paid API key. Checking...") 20).
  set (s70 := working (Some "Reconstructing video stream (this may take a minute)...") 70).
  set (w1 := gated (with_status s20 w)).
  set (w3 := with_status s70 w1).
  assert (env w1 = env w /\ statusQueries w1 = statusQueries w /\
          objectURLs w1 = objectURLs w /\ keyQueries w1 = keyQueries (gated w))
    as (He1 & Hs1 & Ho1 & Hk1).
  { unfold w1, gated. cbn. destruct (key_gate (env w)); repeat split. }
  assert (gate_open w3) as Hopen3.
  { unfold gate_open in *. change (env w3) with (env w1).
    change (keyQueries w3) with (keyQueries w1). now rewrite He1, Hk1, <- (proj1 (gated_same w)). }
  assert (gate_events w3 = gate_events (gated w)) as Hge.
  { unfold gate_events. change (env w3) with (env w1).
    change (keyQueries w3) with (keyQueries w1).
    now rewrite He1, Hk1, (proj1 (gated_same w)). }
  assert (handleRemoveWatermark fuel w =
            following
              (keyChecked w f ++ frameCleaned (previewUrl (app w)) v
                 ++ gate_events (gated w)
                 ++ [EvGenerateVideos (videoRequest clean "image/jpeg")]
                 ++ polling pending ++ [EvFetch (keyed (env w) link)])
              (following [EvCreateObjectURL bytes]
                 (bind (setResultUrl (Some (objectURL (env w) (objectURLs w))))
                       (fun _ => setStatus successState)
                       (after (createObjectURL bytes (polled (gated w3) pending))))))
    as Hrun.
  { rewrite (video_run_unfold w f fuel Hf Ht Hr Hopen). fold s20 w1.
    rewrite (authorized_run w1 fuel (previewUrl (app w)) v r clean);
      [| now rewrite He1 | now rewrite He1 | exact Hscan]. fold s70 w3.
    unfold try_catch at 1, rebuildAndStore, bind at 1.
    rewrite (reconstruct_succeeds w3 clean "image/jpeg" pending final link fetched bytes fuel);
      [| exact Hopen3
       | change (env w3) with (env w1); now rewrite He1
       | change (env w3) with (env w1); now rewrite He1
       | exact Hp | exact Hfin
       | apply (status_script_transfer w w3); [exact He1 | exact Hs1 | exact Hs]
       | exact Hfuel | exact Hlink | exact Htruthy
       | change (env w3) with (env w1); now rewrite He1
       | exact Hblob ].
    change (env w3) with (env w1). rewrite He1, Hge.
    unfold createObjectURL. cbn [following outcome after events].
    assert (objectURLs (polled (gated w3) pending) = objectURLs w) as ->.
    { transitivity (objectURLs (gated w3)); [reflexivity|].
      destruct (gated_same w3) as (_ & _ & E & _). rewrite E. exact Ho1. }
    assert (env (polled (gated w3) pending) = env w) as ->.
    { transitivity (env (gated w3)); [reflexivity|].
      destruct (gated_same w3) as (E & _). rewrite E. exact He1. }
    unfold keyChecked. exec.
    f_equal; try reflexivity.
    rewrite <- ?app_assoc. cbn [List.app]. now rewrite <- ?app_assoc. }
  subst made. unfold result, run, run_events. rewrite Hrun.
  rewrite !outcome_following, !after_following, !events_following.
  unfold keyChecked.
  split; [reflexivity|]. split; [reflexivity|]. split; [reflexivity|].
  destruct (count_polling pending) as [Hq Hfz].
  assert (forall p, (forall b, p (EvHasSelectedApiKey b) = false) ->
                    count p (gate_events w) = 0 /\ count p (gate_events (gated w)) = 0)
    as Hgates by (intros p Hp0; split; now apply count_gate).
  split.
  { apply in_or_app. right. left. reflexivity. }
  assert (count is_edit_call (polling pending) = 0 /\
          count is_submission (polling pending) = 0) as [Hpe Hps].
  { clear. induction pending as [|h l [IH1 IH2] ]; [now cbn|].
    unfold count in *. cbn. auto. }
  repeat split;
    repeat (rewrite count_app || rewrite count_cons);
    rewrite ?(proj1 (Hgates _ (fun _ => eq_refl))),
            ?(proj2 (Hgates _ (fun _ => eq_refl))), ?Hq, ?Hfz, ?Hpe, ?Hps;
    cbn; lia.
Qed.

Lemma video_flow_succeeds_on_fixture :
  let w := videoWorld (Some (studioAnswering true)) (inr cleanedResponse) (Some onePixel) in
  (gate_open w /\ gate_open (gated w) /\
   loadVideo (env w) (video_src (previewUrl (app w))) = Some onePixel) /\
  result (handleRemoveWatermark 3) w = Returned tt /\
  appStatus (app (run (handleRemoveWatermark 3) w)) = successState /\
  resultUrl (app (run (handleRemoveWatermark 3) w)) = Some "blob:result" /\
  count is_status_fetch (run_events (handleRemoveWatermark 3) w) = 3.
Proof.
  intro w.
  assert (status_script w [pendingJob "job-0"; pendingJob "job-1"; pendingJob "job-2"]
            (tl ([pendingJob "job-0"; pendingJob "job-1"; pendingJob "job-2"]
                   ++ [finishedJob "job-3" (Some "https://v/1?alt=media")]))) as Hs.
  { intros k h o _ Ho. cbn. unfold scripted, twoPending. cbn in Ho. now rewrite Ho. }
  assert (Forall (fun o => is_done o = false)
                 [pendingJob "job-0"; pendingJob "job-1"; pendingJob "job-2"]) as Hp
    by (repeat constructor).
  destruct (video_flow_succeeds w clipFixture 3 onePixel cleanedResponse "CLEANED"
              [pendingJob "job-0"; pendingJob "job-1"; pendingJob "job-2"]
              (finishedJob "job-3" (Some "https://v/1?alt=media"))
              "https://v/1?alt=media" (mkFetched (inr [x01; x02; x03])) [x01; x02; x03]
              eq_refl eq_refl eq_refl eq_refl eq_refl eq_refl eq_refl eq_refl eq_refl
              eq_refl Hp eq_refl Hs (le_n 3) eq_refl eq_refl eq_refl eq_refl)
    as (R & S & U & _ & _ & _ & _ & Q).
  split; [repeat split|].
  split; [exact R|]. split; [exact S|]. split; [exact U | exact Q].
Defined.

(** ** The selection and the status across user actions *)

Section Selection.

Lemma sel_of_emits {A} (P : Event -> Prop) (m : M A) :
  emits_only P m -> keeps_selection m.
Proof. intros H w. destruct (H w) as (He & Ha & _). rewrite He, Ha. repeat split. Qed.

Lemma sel_ret {A} (a : A) : keeps_selection (ret a).
Proof. intro w. repeat split. Qed.

Lemma sel_setStatus (s : ProcessingState) : keeps_selection (setStatus s).
Proof. intro w. repeat split. Qed.

Lemma sel_setResultUrl (u : option string) : keeps_selection (setResultUrl u).
Proof. intro w. repeat split. Qed.

Lemma sel_bind {A B} (m : M A) (k : A -> M B) :
  keeps_selection m -> (forall a, keeps_selection (k a)) ->
  keeps_selection (bind m k).
Proof.
  intros Hm Hk w. rewrite run_bind.
  destruct (result m w) as [a| | |]; try apply Hm.
  destruct (Hk a (run m w)) as (E1 & E2 & E3 & E4 & E5).
  destruct (Hm w) as (F1 & F2 & F3 & F4 & F5).
  repeat split; congruence.
Qed.

Lemma sel_try_catch {A} (m : M A) (h : Thrown -> M A) :
  keeps_selection m -> (forall e, keeps_selection (h e)) ->
  keeps_selection (try_catch m h).
Proof.
  intros Hm Hh w. rewrite run_try_catch.
  destruct (result m w) as [|e| |]; try apply Hm.
  destruct (Hh e (run m w)) as (E1 & E2 & E3 & E4 & E5).
  destruct (Hm w) as (F1 & F2 & F3 & F4 & F5).
  repeat split; congruence.
Qed.

Lemma sel_fileToBase64 (f : File) : keeps_selection (fileToBase64 f).
Proof. intro w. unfold run, fileToBase64. destruct (unreadable _ _); repeat split. Qed.

Lemma sel_captureFrame (preview : option string) :
  keeps_selection (captureFrame preview).
Proof.
  unfold captureFrame. apply sel_bind.
  - intro w. unfold run, awaitLoadedData. destruct (loadVideo _ _); repeat split.
  - intro v. repeat (apply sel_bind; [intro; repeat split|intro]). apply sel_ret.
Qed.

Lemma sel_store (u : option string) (s : ProcessingState) :
  keeps_selection (setResultUrl u ;;; setStatus s).
Proof. intro w. repeat split. Qed.

Lemma sel_videoFlowAuthorized (fuel : nat) (preview : option string) :
  keeps_selection (videoFlowAuthorized fuel preview).
Proof.
  unfold videoFlowAuthorized, reconstructFlow.
  apply sel_bind; [apply sel_setStatus|intro].
  apply sel_bind; [apply sel_captureFrame|intro].
  apply sel_bind; [apply sel_setStatus|intro].
  apply sel_bind; [eapply sel_of_emits, removeImageWatermark_footprint|intro].
  apply sel_bind; [apply sel_setStatus|intro].
  apply sel_bind; [eapply sel_of_emits, reconstructVideoFromImage_footprint|intro].
  apply sel_store.
Qed.

Lemma sel_handleRemoveWatermark (fuel : nat) :
  keeps_selection (handleRemoveWatermark fuel).
Proof.
  unfold handleRemoveWatermark.
  apply sel_bind; [intro; repeat split|intro a].
  destruct (file a) as [f|]; [|apply sel_ret].
  apply sel_bind; [apply sel_setStatus|intro].
  apply sel_try_catch; [|intro; apply sel_setStatus].
  apply sel_bind; [apply sel_fileToBase64|intro b].
  destruct (activeTab a).
  - unfold imageFlow.
    apply sel_bind; [apply sel_setStatus|intro].
    apply sel_bind; [intro; repeat split|intro].
    apply sel_bind; [apply sel_setStatus|intro].
    apply sel_bind; [eapply sel_of_emits, removeImageWatermark_footprint|intro].
    apply sel_store.
  - unfold videoFlow.
    apply sel_bind; [apply sel_setStatus|intro].
    apply sel_bind; [intro; repeat split|intro e].
    destruct (key_gate e) as [answers|]; [|apply sel_videoFlowAuthorized].
    apply sel_bind; [intro; repeat split|intros [|] ].
    + apply sel_videoFlowAuthorized.
    + apply sel_bind; [apply sel_setStatus|intro; intro; repeat split].
Qed.

End Selection.

Section StatusDiscipline.

Lemma tidy_of_emits {A} (P : Event -> Prop) (m : M A) :
  emits_only P m -> tidy m.
Proof. intros H w Hw. destruct (H w) as (_ & Ha & _). now rewrite Ha. Qed.

Lemma tidy_ret {A} (a : A) : tidy (ret a).
Proof. now intros w Hw. Qed.

Lemma tidy_bind {A B} (m : M A) (k : A -> M B) :
  tidy m -> (forall a, tidy (k a)) -> tidy (bind m k).
Proof.
  intros Hm Hk w Hw. rewrite run_bind.
  destruct (result m w) as [a| | |]; try now apply Hm.
  apply Hk. now apply Hm.
Qed.

Lemma tidy_try_catch {A} (m : M A) (h : Thrown -> M A) :
  tidy m -> (forall e, tidy (h e)) -> tidy (try_catch m h).
Proof.
  intros Hm Hh w Hw. rewrite run_try_catch.
  destruct (result m w) as [|e| |]; try now apply Hm.
  apply Hh. now apply Hm.
Qed.

Lemma tidy_idle : tidy (setStatus idleState).
Proof. intros w _. exact I. Qed.

Lemma tidy_working (msg : option string) (p : Z) :
  (10 <= p <= 70)%Z -> tidy (setStatus (working msg p)).
Proof. intros Hp w _. exists p. now split. Qed.

Lemma or_else_truthy (a : option string) (b : string) :
  truthy_string b = true -> truthy_string (or_else a b) = true.
Proof.
  intro Hb. unfold or_else. destruct a as [s|]; [|exact Hb].
  now destruct (truthy_string s) eqn:Hs.
Qed.

Lemma tidy_reportError (e : Thrown) : tidy (reportError e).
Proof.
  intros w _. unfold reportError.
  exists (or_else (error_message e) "Failed to process file."). split; [reflexivity|].
  now apply or_else_truthy.
Qed.

Lemma tidy_store (u : string) :
  tidy (setResultUrl (Some u) ;;; setStatus successState).
Proof. intros w _. unfold status_ok. cbn. discriminate. Qed.

Lemma tidy_fileToBase64 (f : File) : tidy (fileToBase64 f).
Proof. intros w Hw. unfold run, fileToBase64. now destruct (unreadable _ _). Qed.

Lemma tidy_captureFrame (preview : option string) : tidy (captureFrame preview).
Proof.
  unfold captureFrame. apply tidy_bind.
  - intros w Hw. unfold run, awaitLoadedData. now destruct (loadVideo _ _).
  - intro v. repeat (apply tidy_bind; [now intros w Hw|intro]). apply tidy_ret.
Qed.

Lemma tidy_videoFlowAuthorized (fuel : nat) (preview : option string) :
  tidy (videoFlowAuthorized fuel preview).
Proof.
  unfold videoFlowAuthorized, reconstructFlow.
  apply tidy_bind; [apply tidy_working; lia|intro].
  apply tidy_bind; [apply tidy_captureFrame|intro].
  apply tidy_bind; [apply tidy_working; lia|intro].
  apply tidy_bind; [eapply tidy_of_emits, removeImageWatermark_footprint|intro].
  apply tidy_bind; [apply tidy_working; lia|intro].
  apply tidy_bind; [eapply tidy_of_emits, reconstructVideoFromImage_footprint|intro].
  apply tidy_store.
Qed.

Lemma tidy_handleRemoveWatermark (fuel : nat) : tidy (handleRemoveWatermark fuel).
Proof.
  unfold handleRemoveWatermark.
  apply tidy_bind; [now intros w Hw|intro a].
  destruct (file a) as [f|]; [|apply tidy_ret].
  apply tidy_bind; [apply tidy_working; lia|intro].
  apply tidy_try_catch; [|apply tidy_reportError].
  apply tidy_bind; [apply tidy_fileToBase64|intro b].
  destruct (activeTab a).
  - unfold imageFlow.
    apply tidy_bind; [apply tidy_working; lia|intro].
    apply tidy_bind; [now intros w Hw|intro].
    apply tidy_bind; [apply tidy_working; lia|intro].
    apply tidy_bind; [eapply tidy_of_emits, removeImageWatermark_footprint|intro].
    apply tidy_store.
  - unfold videoFlow.
    apply tidy_bind; [apply tidy_working; lia|intro].
    apply tidy_bind; [now intros w Hw|intro e].
    destruct (key_gate e) as [answers|]; [|apply tidy_videoFlowAuthorized].
    apply tidy_bind; [now intros w Hw|intros [|] ].
    + apply tidy_videoFlowAuthorized.
    + apply tidy_bind; [apply tidy_idle|intro; now intros w Hw].
Qed.

Lemma tidy_act (fuel : nat) (a : Action) : tidy (act fuel a).
Proof.
  destruct a as [t|kind|files|files| | | |]; cbn [act].
  - intros w Hw. unfold selectTab, run, bind, get_app. fields.
    destruct (same_tab (activeTab (app w)) t); [exact Hw | exact I].
  - destruct kind; now intros w Hw.
  - intros w Hw. unfold handleDrop, run, bind, get_app, setDragActive. fields.
    destruct files as [|f files]; [exact Hw|].
    destruct (validateFile (activeTab (app w)) f); [exact I|].
    eexists. split; [reflexivity|]. now destruct (activeTab (app w)).
  - intros w Hw. destruct files; [exact Hw | exact I].
  - apply tidy_handleRemoveWatermark.
  - intros w _. exact I.
  - now intros w Hw.
  - intros w _. exact I.
Qed.

End StatusDiscipline.

(** X14. A run changes nothing but the status and the stored result:
    whatever the services answer and however the run ends, the tab, the
    selected file, its preview and the drop zone's highlight are those of
    before, so that the same file can be submitted again. *)
Theorem run_keeps_the_selection (fuel : nat) (w : World) :
  activeTab (app (run (handleRemoveWatermark fuel) w)) = activeTab (app w) /\
  file (app (run (handleRemoveWatermark fuel) w)) = file (app w) /\
  previewUrl (app (run (handleRemoveWatermark fuel) w)) = previewUrl (app w) /\
  dragActive (app (run (handleRemoveWatermark fuel) w)) = dragActive (app w).
Proof. now destruct (sel_handleRemoveWatermark fuel w) as (_ & H). Qed.

(** X15. Only a dropped file is checked against the tab: a file whose type
    does not start with the tab's media type is refused when dropped (the
    selection and the stored result stay, the status becomes the error
    "Please upload a valid image|video file.", nothing else happens), but
    the same file coming from the file input is selected without any
    check. *)
Theorem only_drops_are_validated (w : World) (f : File) (rest : list File) :
  validateFile (activeTab (app w)) f = false ->
  let dropped := run (handleDrop (f :: rest)) w in
  let picked := run (handleFileChange (f :: rest)) w in
  (file (app dropped) = file (app w) /\
   previewUrl (app dropped) = previewUrl (app w) /\
   resultUrl (app dropped) = resultUrl (app w) /\
   appStatus (app dropped) =
     errorState ("Please upload a valid " ++ tabLower (activeTab (app w)) ++ " file.") /\
   dragActive (app dropped) = false /\
   run_events (handleDrop (f :: rest)) w = [EvSetStatus (appStatus (app dropped))]) /\
  (file (app picked) = Some f /\
   previewUrl (app picked) = Some (objectURL (env w) (objectURLs w)) /\
   resultUrl (app picked) = None /\
   appStatus (app picked) = idleState).
Proof.
  intros Hv dropped picked. subst dropped picked.
  unfold handleDrop, run, run_events, bind, get_app, setDragActive. fields.
  rewrite Hv. repeat split.
Qed.

Lemma text_file_on_the_image_tab :
  let w := startWorld (fakeEnv None (inr cleanedResponse) (inl scriptExhausted) [] None)
                      initialApp in
  validateFile (activeTab (app w)) notesFixture = false /\
  file (app (run (handleDrop [notesFixture]) w)) = None /\
  status (appStatus (app (run (handleDrop [notesFixture]) w))) = error /\
  file (app (run (handleFileChange [notesFixture]) w)) = Some notesFixture.
Proof.
  intro w.
  destruct (only_drops_are_validated w notesFixture [] eq_refl)
    as ((F & _ & _ & S & _) & (P & _)).
  split; [reflexivity|]. split; [exact F|]. split; [now rewrite S | exact P].
Defined.

(** X16. In every state the user can reach, the preview goes with the file:
    without a file there is no preview, and with a file the preview is an
    object URL of the environment.  The non-null assertions [previewUrl!]
    of the code, all evaluated with a file selected, therefore never meet
    [null]. *)
Theorem preview_goes_with_file (e : Env) (w : World) :
  reachable e w ->
  env w = e /\ preview_of_file e (app w) /\
  (file (app w) <> None ->
   exists n, video_src (previewUrl (app w)) = objectURL e n).
Proof.
  intro Hr.
  enough (env w = e /\ preview_of_file e (app w)) as (He & Hp).
  { split; [exact He|]. split; [exact Hp|]. intro Hf. unfold preview_of_file in Hp.
    destruct (file (app w)); [|now contradiction Hf].
    destruct Hp as (n & ->). now exists n. }
  induction Hr as [|w fuel a Hr (He & Hp)]; [split; reflexivity|].
  unfold preview_of_file in *.
  destruct a as [t|kind|files|files| | | |]; cbn [act].
  - unfold selectTab, run, bind, get_app. fields.
    destruct (same_tab (activeTab (app w)) t); (split; [exact He | cbn; trivial]).
  - destruct kind; (split; [exact He | exact Hp]).
  - unfold handleDrop, run, bind, get_app, setDragActive. fields.
    destruct files as [|f files]; [split; [exact He | exact Hp]|].
    destruct (validateFile (activeTab (app w)) f); (split; [exact He| cbn]);
      [|exact Hp].
    rewrite He. now exists (objectURLs w).
  - destruct files as [|f files]; (split; [exact He| cbn]); [exact Hp|].
    rewrite He. now exists (objectURLs w).
  - destruct (sel_handleRemoveWatermark fuel w) as (E & _ & F & P & _).
    rewrite E, F, P. now split.
  - split; [exact He | reflexivity].
  - split; [exact He | reflexivity].
  - split; [exact He | exact Hp].
Qed.

Lemma preview_after_a_failed_run :
  let e := fakeEnv None (inl (JsError "503 UNAVAILABLE")) (inl scriptExhausted) [] None in
  let w := run (act 0 ARemoveWatermark)
             (run (act 0 (AFileChange [pngFixture])) (startWorld e initialApp)) in
  reachable e w /\
  file (app w) = Some pngFixture /\
  video_src (previewUrl (app w)) = "blob:result".
Proof.
  intros e w.
  assert (reachable e w) as Hr by (do 2 apply reach_act; apply reach_initial).
  split; [exact Hr|]. split; [reflexivity|].
  destruct (preview_goes_with_file e w Hr) as (_ & _ & H).
  destruct H as (n & ->); [discriminate | reflexivity].
Defined.

(** X17. In every state the user can reach the status is well formed: it is
    never ['uploading']; ['processing'] carries a progress between 10 and
    70; ['success'] is shown only with a stored result; ['error'] always
    carries a non-empty message. *)
Theorem status_is_well_formed (e : Env) (w : World) :
  reachable e w -> status_ok (app w).
Proof.
  intro Hr. induction Hr as [|w fuel a Hr IH]; [exact I|].
  now apply tidy_act.
Qed.

Lemma status_after_read_failure :
  let e := faultyEnv true None (inr cleanedResponse) (inl scriptExhausted)
                     (fun _ _ => inl scriptExhausted) (inl scriptExhausted) None in
  let w := run (act 0 ARemoveWatermark)
             (run (act 0 (AFileChange [pngFixture])) (startWorld e initialApp)) in
  reachable e w /\ status_ok (app w) /\
  appStatus (app w) = errorState "Failed to process file.".
Proof.
  intros e w.
  assert (reachable e w) as Hr by (do 2 apply reach_act; apply reach_initial).
  split; [exact Hr|]. split; [exact (status_is_well_formed e w Hr) | reflexivity].
Defined.
